(** * A shallow embedding of the DeFi TVL pipelines

    Three Python scripts are modelled, one module each and named after the
    script: [dune_to_sheets] (query export), [defi_llama_validation]
    (historical-series fetcher) and [validation] (cross-source validator).

    Conventions of the embedding.
    - A Python function with effects is a function [world -> outcome A * world]:
      the world holds the files on disk, the directories, the number of HTTP
      calls made so far and the trace of what was printed and slept.  An
      exception keeps the effects made before it was raised.
    - The remote services are an oracle [environment]: the [n]-th HTTP call of
      a run is answered by [http env n request].
    - pandas values are scalars [value]; a number is a rational, so rounding
      of floating point arithmetic is outside the model.
    - A JSON reply is seen through the keys the clients read ([document]);
      morpho_vaults.json is any JSON value ([json_value]).
    - The disk is a flat store of files by path: a write or a [makedirs] that
      the operating system refuses (a missing parent directory, a file in
      the place of a directory, no permission) is outside the model: where
      a statement below has a run with a write return, the disk is one that
      takes the write; the statements on what a run can touch hold however
      the run ends.
    - What pandas does to the text of a CSV file and to a column of dates is
      not read off the scripts: the validator takes it from an oracle
      ([pandas]). *)

From Stdlib Require Import QArith.
From stdpp Require Import gmap strings list pretty sorting.

Local Open Scope Z_scope.

(** ** Scalars, tables and files *)

Inductive value :=
  | VNull                 (* NaN / None / an empty CSV cell *)
  | VBool (b : bool)
  | VNum (q : Q)
  | VStr (s : string)
  | VDate (day : Z).      (* a datetime.date, as days since the epoch *)

(** A JSON object or Python dict of scalars, in key order. *)
Definition record := list (string * value).

Fixpoint dict_get (k : string) (r : record) : option value :=
  match r with
  | [] => None
  | (k', v) :: r' => if String.eqb k k' then Some v else dict_get k r'
  end.

(** A DataFrame without its index: column labels and the rows' cells. *)
Record DataFrame := { columns : list string; rows : list (list value) }.

(** [pd.DataFrame()] *)
Definition DataFrame_empty : DataFrame := {| columns := []; rows := [] |}.

(** [df.empty]: some axis has length 0. *)
Definition empty (df : DataFrame) : bool :=
  match columns df, rows df with
  | [], _ | _, [] => true
  | _, _ => false
  end.

Definition add_keys (cols : list string) (r : record) : list string :=
  fold_left (fun acc k => if bool_decide (k ∈ acc) then acc else acc ++ [k])
            (map fst r) cols.

(** [pd.DataFrame(records)]: the columns are the keys in order of first
    appearance, a key missing from a record gives NaN. *)
Definition DataFrame_of_records (rs : list record) : DataFrame :=
  let cols := fold_left add_keys rs [] in
  {| columns := cols;
     rows := map (fun r => map (fun c => default VNull (dict_get c r)) cols) rs |}.

(** A text file written by [to_csv], line by line. *)
Inductive line :=
  | Header (names : list string)
  | Row (cells : list value).

(** [df.to_csv(.., header=header, index=False)] *)
Definition to_csv (df : DataFrame) (header : bool) : list line :=
  (if header then [Header (columns df)] else []) ++ map Row (rows df).

Definition is_header (l : line) : bool :=
  match l with Header _ => true | Row _ => false end.

Definition header_lines (text : list line) : nat :=
  length (List.filter is_header text).

(** ** Paths *)

Definition ends_with (suffix s : string) : bool :=
  String.prefix (String.rev suffix) (String.rev s).

(** [os.path.join(a, b)] and pathlib's [a / b] on POSIX. *)
Definition path_join (a b : string) : string :=
  if String.prefix "/" b then b
  else if String.eqb a "" || ends_with "/" a then a +:+ b
  else a +:+ "/" +:+ b.

(** ** Exceptions, output and the world *)

Inductive exn :=
  | Exception (msg : string)
  | HTTPStatusError (code : Z)
  | TransportError
  | JSONDecodeError
  | FileNotFoundError (path : string)
  | TypeError
  | KeyError (key : string)
  | OSError (msg : string).

Inductive event :=
  | Print (text : string)
  | PrintValues (text : string) (args : list value)   (* an f-string of scalars *)
  | PrintError (text : string) (e : exn)              (* print(f"{text}: {e}") *)
  | PrintCorrelation (xs ys : list Q)                 (* the line showing xs.corr(ys) *)
  | Sleep (seconds : Z).

Record world := {
  files : gmap string (list line);
  dirs : gset string;
  calls : nat;
  trace : list event }.

Inductive outcome (A : Type) :=
  | Returns (a : A)
  | Raises (e : exn)
  | Pending.             (* still inside a loop when the fuel ran out *)
Arguments Returns {A} a.
Arguments Raises {A} e.
Arguments Pending {A}.

Definition M (A : Type) : Type := world → outcome A * world.

Definition ret {A} (a : A) : M A := fun w => (Returns a, w).
Definition raise {A} (e : exn) : M A := fun w => (Raises e, w).
Definition pending {A} : M A := fun w => (Pending, w).

Definition bind {A B} (c : M A) (k : A → M B) : M B :=
  fun w =>
    match c w with
    | (Returns a, w') => k a w'
    | (Raises e, w') => (Raises e, w')
    | (Pending, w') => (Pending, w')
    end.

Notation "'do' x <- c ; k" := (bind c (fun x => k))
  (at level 10, x name, c at level 100, k at level 200).
Notation "c ;; k" := (bind c (fun _ => k))
  (at level 100, k at level 200, right associativity).

(** [try: body / except Exception as e: handler e] *)
Definition try_except {A} (body : M A) (handler : exn → M A) : M A :=
  fun w =>
    match body w with
    | (Raises e, w') => handler e w'
    | r => r
    end.

(** [for x in xs: body x] *)
Fixpoint for_each {A} (body : A → M unit) (xs : list A) : M unit :=
  match xs with
  | [] => ret tt
  | x :: xs' => body x ;; for_each body xs'
  end.

(** [time.sleep(seconds)] *)
Definition sleep (seconds : Z) : M unit :=
  fun w => (Returns tt,
            {| files := files w; dirs := dirs w; calls := calls w;
               trace := trace w ++ [Sleep seconds] |}).

Definition print (e : event) : M unit :=
  fun w => (Returns tt,
            {| files := files w; dirs := dirs w; calls := calls w;
               trace := trace w ++ [e] |}).

(** [open(path, "w")] then write: the file is replaced.  The store is flat:
    the write is never refused. *)
Definition write_file (path : string) (text : list line) : M unit :=
  fun w => (Returns tt,
            {| files := <[path := text]> (files w); dirs := dirs w;
               calls := calls w; trace := trace w |}).

(** [open(path, "a")] then write: the text goes after what is there. *)
Definition append_file (path : string) (text : list line) : M unit :=
  fun w => (Returns tt,
            {| files := <[path := default [] (files w !! path) ++ text]> (files w);
               dirs := dirs w; calls := calls w; trace := trace w |}).

(** A directory is there when it was made or holds a file. *)
Definition is_dir (w : world) (path : string) : bool :=
  bool_decide (path ∈ dirs w)
  || existsb (String.prefix (path +:+ "/")) (map fst (map_to_list (files w))).

Definition is_file (w : world) (path : string) : bool :=
  bool_decide (is_Some (files w !! path)).

(** [os.path.exists(path)] and pathlib's [path.exists()] *)
Definition path_exists (path : string) : M bool :=
  fun w => (Returns (is_file w path || is_dir w path), w).

(** [os.makedirs(path, exist_ok=True)]; the parents are left implicit, and
    the call is never refused. *)
Definition makedirs (path : string) : M unit :=
  fun w => (Returns tt,
            {| files := files w; dirs := {[path]} ∪ dirs w;
               calls := calls w; trace := trace w |}).

(** ** The remote services *)

Inductive method := GET | POST.

Record request := {
  req_method : method;
  req_url : string;
  req_headers : list (string * string) }.

(** The JSON object of a reply, through the keys the clients read:
    [None] is a key that is absent. *)
Record document := {
  doc_data : option (list record);               (* "data" *)
  doc_result : option (option (list record));    (* "result", then "rows" *)
  doc_execution_id : option string;              (* "execution_id" *)
  doc_state : option string }.                   (* "state" *)

Record response := {
  status_code : Z;
  body : option document }.        (* [None]: the body is not JSON *)

Inductive reply :=
  | NoReply                         (* the transport failed *)
  | Reply (r : response).

(** A JSON value as [json.load] returns it.  An object is the dict built
    from it: its keys in order, each once. *)
#[warnings="-register-all"] Inductive json_value :=
  | JNull
  | JBool (b : bool)
  | JNum (q : Q)
  | JStr (s : string)
  | JList (items : list json_value)
  | JObject (fields : list (string * json_value)).

Fixpoint json_get (k : string) (fields : list (string * json_value))
    : option json_value :=
  match fields with
  | [] => None
  | (k', v) :: rest => if String.eqb k k' then Some v else json_get k rest
  end.

(** An entry of morpho_vaults.json as the scripts expect it: the four keys
    they read hold texts. *)
Record vault := {
  project : string;
  chain : string;
  symbol : string;
  pool_id : string }.

Definition entry_of (v : vault) : json_value :=
  JObject [("project", JStr (project v)); ("chain", JStr (chain v));
           ("symbol", JStr (symbol v)); ("pool_id", JStr (pool_id v))].

(** morpho_vaults.json as [open] and [json.load] find it; no script writes it. *)
Inductive static_file :=
  | Absent                          (* open raises FileNotFoundError *)
  | Refused (e : exn)               (* open or read raises another exception: the
                                       path is a directory, may not be read, or
                                       holds bytes that are no text *)
  | Malformed                       (* json.load raises json.JSONDecodeError *)
  | Parsed (content : json_value).  (* the file is JSON, of any shape *)

(** The file is a list of entries with the four keys. *)
Definition Loaded (vaults : list vault) : static_file :=
  Parsed (JList (map entry_of vaults)).

Record environment := {
  http : nat → request → reply;
  strftime : string;                (* time.strftime("%Y%m%d_%H%M%S") *)
  morpho_vaults_json : static_file;
  str_of : json_value → string }.   (* str(x) of a JSON value that is no text *)

Definition send (env : environment) (rq : request) : M response :=
  fun w =>
    let w' := {| files := files w; dirs := dirs w; calls := S (calls w);
                 trace := trace w |} in
    match http env (calls w) rq with
    | NoReply => (Raises TransportError, w')
    | Reply r => (Returns r, w')
    end.

(** [response.json()] *)
Definition json (r : response) : M document :=
  match body r with
  | Some d => ret d
  | None => raise JSONDecodeError
  end.

(** ** The static file and the Python operations on what it holds *)

(** [with open('morpho_vaults.json', 'r') as f: json.load(f)] *)
Definition json_load (env : environment) : M json_value :=
  match morpho_vaults_json env with
  | Absent => raise (FileNotFoundError "morpho_vaults.json")
  | Refused e => raise e
  | Malformed => raise JSONDecodeError
  | Parsed content => ret content
  end.

(** [for x in v]: the items of a list, the keys of a dict, the characters of
    a text; anything else is not iterable. *)
Definition iterate (v : json_value) : M (list json_value) :=
  match v with
  | JList items => ret items
  | JObject fields => ret (map (fun f => JStr (fst f)) fields)
  | JStr s => ret (map (fun c => JStr (String c EmptyString)) (String.list_ascii_of_string s))
  | _ => raise TypeError
  end.

(** [len(v)]; a text is the sequence of its characters. *)
Definition len (v : json_value) : M nat :=
  match v with
  | JList items => ret (length items)
  | JObject fields => ret (length fields)
  | JStr s => ret (String.length s)
  | _ => raise TypeError
  end.

(** [v[key]] for a text key: only a dict can be asked. *)
Definition subscript (v : json_value) (key : string) : M json_value :=
  match v with
  | JObject fields =>
      match json_get key fields with
      | Some x => ret x
      | None => raise (KeyError key)
      end
  | _ => raise TypeError
  end.

(** The text an f-string shows for [x]. *)
Definition format (env : environment) (x : json_value) : string :=
  match x with
  | JStr s => s
  | _ => str_of env x
  end.

(** ** dune_to_sheets.py: the query-export pipeline *)

Module dune_to_sheets.

Record DuneConfig := { api_key : string; base_url : string }.

Definition DuneConfig_new (api_key : string) : DuneConfig :=
  {| api_key := api_key; base_url := "https://api.dune.com/api/v1" |}.

Record DuneClient := { config : DuneConfig; headers : list (string * string) }.

Definition DuneClient_init (config : DuneConfig) : DuneClient :=
  {| config := config; headers := [("X-Dune-API-Key", api_key config)] |}.

(** httpx's [response.raise_for_status()]: anything but 2xx raises. *)
Definition raise_for_status (r : response) : M unit :=
  if (200 <=? status_code r) && (status_code r <? 300) then ret tt
  else raise (HTTPStatusError (status_code r)).

(** [data.get("result", {}).get("rows", [])] *)
Definition result_rows (data : document) : list record :=
  match doc_result data with
  | None => []
  | Some result => default [] result
  end.

(** [if not result_data: return pd.DataFrame()], else
    [return pd.DataFrame(result_data)]. *)
Definition frame_of_rows (result_data : list record) : DataFrame :=
  match result_data with
  | [] => DataFrame_empty
  | _ => DataFrame_of_records result_data
  end.

Definition get_query_results (env : environment) (self : DuneClient)
    (query_id : Z) : M DataFrame :=
  let url := base_url (config self) +:+ "/query/" +:+ pretty query_id +:+ "/results" in
  do response <- send env {| req_method := GET; req_url := url;
                             req_headers := headers self |};
  raise_for_status response ;;
  do data <- json response;
  ret (frame_of_rows (result_rows data)).

Definition str_state (state : option string) : string :=
  match state with
  | None => "None"
  | Some s => s
  end.

(** The [while True] loop of [execute_query]; one unit of fuel per poll. *)
Fixpoint poll (env : environment) (self : DuneClient) (status_url : string)
    (fuel : nat) : M unit :=
  match fuel with
  | O => pending
  | S fuel' =>
      do status_response <- send env {| req_method := GET; req_url := status_url;
                                        req_headers := headers self |};
      raise_for_status status_response ;;
      do status_data <- json status_response;
      let state := doc_state status_data in
      if bool_decide (state = Some "EXECUTING") || bool_decide (state = Some "PENDING")
      then sleep 5 ;; poll env self status_url fuel'
      else if bool_decide (state = Some "COMPLETED") then ret tt
      else raise (Exception ("Query execution failed with state: " +:+ str_state state))
  end.

Definition execute_query (env : environment) (fuel : nat) (self : DuneClient)
    (query_id : Z) : M DataFrame :=
  let url := base_url (config self) +:+ "/query/execute/" +:+ pretty query_id in
  do execute_response <- send env {| req_method := POST; req_url := url;
                                     req_headers := headers self |};
  raise_for_status execute_response ;;
  do execution_data <- json execute_response;
  match doc_execution_id execution_data with
  | None | Some "" => raise (Exception "Failed to start query execution")
  | Some execution_id =>
      let status_url :=
        base_url (config self) +:+ "/execution/" +:+ execution_id +:+ "/status" in
      poll env self status_url fuel ;;
      let results_url :=
        base_url (config self) +:+ "/execution/" +:+ execution_id +:+ "/results" in
      do results_response <- send env {| req_method := GET; req_url := results_url;
                                         req_headers := headers self |};
      raise_for_status results_response ;;
      do results_data <- json results_response;
      ret (frame_of_rows (result_rows results_data))
  end.

Record CSVExporter := { output_dir : string }.

Definition CSVExporter_init (output_dir : string) : M CSVExporter :=
  do there <- path_exists output_dir;
  (if there then ret tt else makedirs output_dir) ;;
  ret {| output_dir := output_dir |}.

Definition save_dataframe (self : CSVExporter) (df : DataFrame)
    (filename : string) : M string :=
  let filepath := path_join (output_dir self) filename in
  write_file filepath (to_csv df true) ;;
  ret filepath.

Definition append_dataframe (self : CSVExporter) (df : DataFrame)
    (filename : string) : M string :=
  let filepath := path_join (output_dir self) filename in
  do there <- path_exists filepath;
  let write_header := negb there in
  append_file filepath (to_csv df write_header) ;;
  ret filepath.

Record DuneToCSV := { dune_client : DuneClient; csv_exporter : CSVExporter }.

Definition DuneToCSV_init (dune_api_key : string) (output_dir : string) : M DuneToCSV :=
  do exporter <- CSVExporter_init output_dir;
  ret {| dune_client := DuneClient_init (DuneConfig_new dune_api_key);
         csv_exporter := exporter |}.

Record export_result := {
  rows_saved : nat;
  columns_saved : nat;
  filepath : string;
  filename : string }.

Definition query_to_csv (env : environment) (fuel : nat) (self : DuneToCSV)
    (query_id : Z) (filename : option string) (execute_fresh : bool)
    : M export_result :=
  do df <- (if execute_fresh then execute_query env fuel (dune_client self) query_id
            else get_query_results env (dune_client self) query_id);
  if empty df then raise (Exception "No data returned from Dune query")
  else
    let filename :=
      match filename with
      | Some f => f
      | None => "dune_query_" +:+ pretty query_id +:+ "_" +:+ strftime env +:+ ".csv"
      end in
    do filepath <- save_dataframe (csv_exporter self) df filename;
    ret {| rows_saved := length (rows df); columns_saved := length (columns df);
           filepath := filepath; filename := filename |}.

Definition get_data_as_csv_string (env : environment) (fuel : nat)
    (self : DuneToCSV) (query_id : Z) (execute_fresh : bool) : M (list line) :=
  do df <- (if execute_fresh then execute_query env fuel (dune_client self) query_id
            else get_query_results env (dune_client self) query_id);
  ret (to_csv df true).

Definition get_dataframe (env : environment) (fuel : nat) (self : DuneToCSV)
    (query_id : Z) (execute_fresh : bool) : M DataFrame :=
  if execute_fresh then execute_query env fuel (dune_client self) query_id
  else get_query_results env (dune_client self) query_id.

(** The [for i, query_id in enumerate(query_ids, 1)] loop of [main]. *)
Fixpoint export_all (env : environment) (client : DuneToCSV) (total i : nat)
    (query_ids : list Z) : M unit :=
  match query_ids with
  | [] => ret tt
  | query_id :: rest =>
      let filename := "morpho_vault_data_" +:+ pretty query_id +:+ ".csv" in
      print (Print ("Processing query " +:+ pretty i +:+ "/" +:+ pretty total
                    +:+ ": " +:+ pretty query_id)) ;;
      do result <- query_to_csv env 0 client query_id (Some filename) false;
      print (Print ("Saved " +:+ pretty (rows_saved result) +:+ " rows to "
                    +:+ filepath result)) ;;
      export_all env client total (S i) rest
  end.

(** [main], for any list of query ids in place of the built-in one. *)
Definition main_on (query_ids : list Z) (env : environment)
    (DUNE_API_KEY : option string) : M unit :=
  match DUNE_API_KEY with
  | None | Some "" => raise (Exception "DUNE_API_KEY environment variable not set")
  | Some key =>
      do client <- DuneToCSV_init key "output";
      try_except
        (print (Print "Fetching data and saving to CSV files...") ;;
         export_all env client (length query_ids) 1 query_ids)
        (fun e => print (PrintError "Error" e))
  end.

Definition query_ids : list Z := [5455942; 5462213; 5462219; 5462222].

Definition main : environment → option string → M unit := main_on query_ids.

End dune_to_sheets.

(** ** defi_llama_validation.py: the historical-series fetcher *)

Module defi_llama_validation.

Definition OUTPUT_DIR : string := "data/validation".

(** The statement the script runs when it is loaded. *)
Definition module_init : M unit := makedirs OUTPUT_DIR.

Definition get_historical_data (env : environment) (pool_id : string)
    : M (option (list record)) :=
  print (Print ("Fetching historical data for pool " +:+ pool_id +:+ "...")) ;;
  let historical_url := "https://yields.llama.fi/chart/" +:+ pool_id in
  do response <- send env {| req_method := GET; req_url := historical_url;
                             req_headers := [] |};
  if negb (status_code response =? 200) then
    print (Print ("Failed to fetch historical data for pool " +:+ pool_id
                  +:+ ": " +:+ pretty (status_code response))) ;;
    ret None
  else
    do historical_data <- json response;
    match doc_data historical_data with
    | None | Some [] =>
        print (Print ("No historical data available for pool " +:+ pool_id)) ;;
        ret None
    | Some data => ret (Some data)
    end.

Definition csv_name (v : vault) : string :=
  OUTPUT_DIR +:+ "/" +:+ project v +:+ "_" +:+ chain v +:+ "_" +:+ symbol v +:+ ".csv".

(** The body of the loop of [main], for whatever the file lists. *)
Definition process_entry (env : environment) (vault : json_value) : M unit :=
  do symbol <- subscript vault "symbol";
  do pool_id <- subscript vault "pool_id";
  print (Print ("Processing " +:+ format env symbol +:+ " with pool_id: "
                +:+ format env pool_id)) ;;
  do historical_data <- get_historical_data env (format env pool_id);
  match historical_data with
  | Some ((_ :: _) as data) =>
      let df := DataFrame_of_records data in
      do project <- subscript vault "project";
      do chain <- subscript vault "chain";
      do symbol <- subscript vault "symbol";
      let filename := OUTPUT_DIR +:+ "/" +:+ format env project +:+ "_"
                      +:+ format env chain +:+ "_" +:+ format env symbol +:+ ".csv" in
      write_file filename (to_csv df true) ;;
      print (Print ("Saved historical data to " +:+ filename))
  | _ =>
      do symbol <- subscript vault "symbol";
      print (Print ("No historical data available for " +:+ format env symbol))
  end.

(** The body of the loop for an entry with the four keys. *)
Definition process_vault (env : environment) (v : vault) : M unit :=
  process_entry env (entry_of v).

(** [with open('morpho_vaults.json', 'r') as f: vaults = json.load(f)] *)
Definition load_vaults (env : environment) : M json_value := json_load env.

Definition main (env : environment) : M unit :=
  do vaults <- load_vaults env;
  do entries <- iterate vaults;
  for_each (process_entry env) entries.

End defi_llama_validation.

(** ** validation.py: the cross-source validator *)

Module validation.

(** The two [except] clauses take a missing file and a text that is not JSON;
    any other exception of [open] and [json.load] goes on to the caller. *)
Definition load_morpho_vaults (env : environment) : M json_value :=
  fun w =>
    match json_load env w with
    | (Raises (FileNotFoundError _), w') =>
        (print (Print "Error: morpho_vaults.json not found") ;; ret (JList [])) w'
    | (Raises JSONDecodeError, w') =>
        (print (Print "Error: Invalid JSON in morpho_vaults.json") ;; ret (JList [])) w'
    | r => r
    end.

Definition defillama_dir : string := "data/defillama".
Definition dune_dir : string := "data/dune".
Definition validation_dir : string := "data/validation".

Definition strip_prefix (p s : string) : option string :=
  if String.prefix p s
  then Some (String.substring (String.length p) (String.length s - String.length p) s)
  else None.

(** The name of [path] when it is a [*.csv] file directly under [dir]. *)
Definition csv_child (dir path : string) : option string :=
  match strip_prefix (dir +:+ "/") path with
  | Some name =>
      match String.index 0 "/" name with
      | None => if ends_with ".csv" name then Some name else None
      | Some _ => None
      end
  | None => None
  end.

(** [dir.glob("*.csv")], as file names; the order is the file system's. *)
Definition glob_csv (dir : string) : M (list string) :=
  fun w => (Returns (omap (csv_child dir) (map fst (map_to_list (files w)))), w).

Record pair := {
  defillama_path : string;
  dune_path : string;
  filename : string }.

(** The loop of [find_matching_files]. *)
Fixpoint match_files (names : list string) : M (list pair) :=
  match names with
  | [] => ret []
  | filename :: rest =>
      let dune_file := path_join dune_dir filename in
      do there <- path_exists dune_file;
      if there then
        print (Print ("Found matching files: " +:+ filename)) ;;
        do pairs <- match_files rest;
        ret ({| defillama_path := path_join defillama_dir filename;
                dune_path := dune_file; filename := filename |} :: pairs)
      else match_files rest
  end.

Definition find_matching_files : M (list pair) :=
  makedirs validation_dir ;;
  do d1 <- path_exists defillama_dir;
  if negb d1 then
    print (Print ("Error: Directory " +:+ defillama_dir +:+ " not found")) ;; ret []
  else
    do d2 <- path_exists dune_dir;
    if negb d2 then
      print (Print ("Error: Directory " +:+ dune_dir +:+ " not found")) ;; ret []
    else
      do defillama_files <- glob_csv defillama_dir;
      do dune_files <- glob_csv dune_dir;
      match_files defillama_files.

(** *** Reading a file *)

(** A pandas Timestamp, as the nanoseconds from 1970-01-01T00:00 to its wall
    time in its own time zone, or NaT. *)
Inductive stamp := NaT | At (ns : Z).

(** What the validator asks of pandas and cannot be read off the script.
    [pd_read_csv] is the frame [pd.read_csv] makes of the text of a file
    (which line is the header, which cells are blank, an index taken from
    surplus cells, the type of each column), or the exception it raises.
    [pd_to_datetime] is what [pd.to_datetime] makes of a whole column, whose
    cells share one inferred format; it is [None] when the call raises, or
    when its result has no [.dt] to take the dates from. *)
Record pandas := {
  pd_read_csv : list line → exn + DataFrame;
  pd_to_datetime : list value → option (list stamp) }.

(** [pd.read_csv(path)] *)
Definition read_csv (pd : pandas) (path : string) : M DataFrame :=
  fun w =>
    match files w !! path with
    | None => (Raises (FileNotFoundError path), w)
    | Some text =>
        match pd_read_csv pd text with
        | inl e => (Raises e, w)
        | inr df => (Returns df, w)
        end
    end.

(** *** Extraction and aggregation *)

Definition lower_ascii (c : Ascii.ascii) : Ascii.ascii :=
  let n := Ascii.nat_of_ascii c in
  if (65 <=? n)%nat && (n <=? 90)%nat then Ascii.ascii_of_nat (n + 32) else c.

(** [s.lower()] on ASCII text. *)
Fixpoint lower (s : string) : string :=
  match s with
  | EmptyString => EmptyString
  | String c s' => String (lower_ascii c) (lower s')
  end.

Definition date_candidates : list string := ["date"; "day"; "timestamp"; "time"].
Definition tvl_candidates : list string :=
  ["tvl"; "tvl_amount_usd"; "total_value_locked"; "value"; "tvlUsd"].

(** [for col in df.columns: if test(col): found = col; break], as a position. *)
Fixpoint find_column (test : string → bool) (cols : list string) : option nat :=
  match cols with
  | [] => None
  | col :: rest => if test col then Some O else S <$> find_column test rest
  end.

Definition is_date_column (col : string) : bool :=
  bool_decide (lower col ∈ date_candidates).
Definition is_tvl_column (col : string) : bool :=
  bool_decide (lower col ∈ map lower tvl_candidates).

(** [.dt.date]: the time of day is dropped; NaT stays null. *)
Definition date_of (t : stamp) : option Z :=
  match t with
  | NaT => None
  | At ns => Some (ns `div` 86400000000000)
  end.

(** What the mean of a group adds up for a cell: a number as it is, a flag
    as 1 or 0, nothing for a blank cell; on a text the sum raises. *)
Definition numeric (v : value) : option (option Q) :=
  match v with
  | VNum q => Some (Some q)
  | VBool b => Some (Some (if b then 1%Q else 0%Q))
  | VNull => Some None
  | VStr _ | VDate _ => None
  end.

(** One sample enters the groups, which are kept in ascending date order. *)
Fixpoint add_sample (d : Z) (v : option Q) (groups : list (Z * list (option Q)))
    : list (Z * list (option Q)) :=
  match groups with
  | [] => [(d, [v])]
  | (d', vs) :: rest =>
      if d <? d' then (d, [v]) :: groups
      else if d =? d' then (d', vs ++ [v]) :: rest
      else (d', vs) :: add_sample d v rest
  end.

(** [groupby('date')]: rows with a null date are dropped. *)
Definition groupby_date (samples : list (option Z * option Q))
    : list (Z * list (option Q)) :=
  fold_left (fun groups s =>
               match fst s with
               | None => groups
               | Some d => add_sample d (snd s) groups
               end) samples [].

Definition Qsum (xs : list Q) : Q := fold_right Qplus 0%Q xs.

(** [.mean()]: nulls are skipped; no value left gives a null. *)
Definition mean (vs : list (option Q)) : option Q :=
  match omap id vs with
  | [] => None
  | xs => Some (Qsum xs / inject_Z (Z.of_nat (length xs)))%Q
  end.

(** [groupby('date')[...].mean().reset_index()] *)
Definition aggregate (samples : list (option Z * option Q)) : list (Z * option Q) :=
  map (fun g => (fst g, mean (snd g))) (groupby_date samples).

(** The frame [extract_tvl_data] returns: a date and a value per row.  Its
    value column is labelled ['tvl_' + source_name]. *)
Definition series := list (Z * option Q).

Section Extraction.

Variable pd : pandas.

Definition extract_tvl_data (csv_path : string) (source_name : string)
    : M (option series) :=
  try_except
    (do df <- read_csv pd csv_path;
     print (PrintValues ("Reading " +:+ csv_path +:+ " - Shape")
              [VNum (inject_Z (Z.of_nat (length (rows df))));
               VNum (inject_Z (Z.of_nat (length (columns df))))]) ;;
     let date_col := find_column is_date_column (columns df) in
     let tvl_col := find_column is_tvl_column (columns df) in
     match date_col, tvl_col with
     | None, _ =>
         print (Print ("Warning: No date column found in " +:+ csv_path)) ;;
         print (PrintValues "Available columns" (map VStr (columns df))) ;;
         ret None
     | Some _, None =>
         print (Print ("Warning: No TVL column found in " +:+ csv_path)) ;;
         print (PrintValues "Available columns" (map VStr (columns df))) ;;
         ret None
     | Some i, Some j =>
         let result_df := map (fun row => (nth i row VNull, nth j row VNull)) (rows df) in
         match pd_to_datetime pd (map fst result_df) with
         | None =>
             print (Print ("Warning: Could not convert date column to datetime in "
                           +:+ csv_path)) ;;
             ret None
         | Some stamps =>
             (* groupby drops the rows without a date before any mean is taken *)
             let dated := zip (map date_of stamps) (map snd result_df) in
             let kept := List.filter (fun x => bool_decide (is_Some (fst x))) dated in
             match mapM numeric (map snd kept) with
             | None => raise TypeError
             | Some values => ret (Some (aggregate (zip (map fst kept) values)))
             end
         end
     end)
    (fun e => print (PrintError ("Error reading " +:+ csv_path) e) ;; ret None).

End Extraction.

(** *** Merge and report *)

(** A row of the merged frame: date, tvl_defillama, tvl_dune. *)
Definition merged_row : Type := Z * option Q * option Q.

Definition row_date (r : merged_row) : Z := r.1.1.
Definition tvl_defillama (r : merged_row) : option Q := r.1.2.
Definition tvl_dune (r : merged_row) : option Q := r.2.

(** [pd.merge(left, right, on='date', how='outer')]: every left row with
    each right row of its date, or alone; then the right rows whose date no
    left row has.  The two value columns have different labels, so the
    suffixes are not used. *)
Definition merge_outer (left right : series) : list merged_row :=
  flat_map (fun l =>
              match List.filter (fun r => fst r =? fst l) right with
              | [] => [(fst l, snd l, None)]
              | matches => map (fun r => (fst l, snd l, snd r)) matches
              end) left
  ++ flat_map (fun r =>
                 if existsb (fun l => fst l =? fst r) left then []
                 else [(fst r, None, snd r)]) right.

Definition date_le (a b : merged_row) : Prop := row_date a ≤ row_date b.

#[global] Instance date_le_dec (a b : merged_row) : Decision (date_le a b) :=
  Z.le_dec (row_date a) (row_date b).

(** [merged_df.sort_values('date')].  The order pandas gives to rows of equal
    date is not modelled; the frames of extraction have distinct dates. *)
Definition sort_values (merged : list merged_row) : list merged_row :=
  merge_sort date_le merged.

Definition cell (v : option Q) : value :=
  match v with
  | Some q => VNum q
  | None => VNull
  end.

Definition frame_of_merged (merged : list merged_row) : DataFrame :=
  {| columns := ["date"; "tvl_defillama"; "tvl_dune"];
     rows := map (fun r => [VDate (row_date r); cell (tvl_defillama r); cell (tvl_dune r)])
                 merged |}.

(** [.notna().sum()] *)
Definition notna_count (column : list (option Q)) : nat :=
  length (List.filter (fun v => bool_decide (is_Some v)) column).

(** [merged_df[['tvl_defillama', 'tvl_dune']].notna().all(axis=1).sum()] *)
Definition both_count (merged : list merged_row) : nat :=
  length (List.filter (fun r => bool_decide (is_Some (tvl_defillama r))
                                && bool_decide (is_Some (tvl_dune r))) merged).

(** [merged_df[['tvl_defillama', 'tvl_dune']].dropna()] *)
Definition dropna (merged : list merged_row) : list (Q * Q) :=
  omap (fun r =>
          match tvl_defillama r, tvl_dune r with
          | Some a, Some b => Some (a, b)
          | _, _ => None
          end) merged.

(** [.min()] and [.max()] of the date column; null on an empty frame. *)
Definition date_min (merged : list merged_row) : value :=
  match map row_date merged with
  | [] => VNull
  | d :: ds => VDate (fold_left Z.min ds d)
  end.
Definition date_max (merged : list merged_row) : value :=
  match map row_date merged with
  | [] => VNull
  | d :: ds => VDate (fold_left Z.max ds d)
  end.

Definition count (n : nat) : value := VNum (inject_Z (Z.of_nat n)).

(** The frames come from [extract_tvl_data]; their date column holds
    [datetime.date] objects, so the two time-zone adjustments do not apply. *)
Definition create_validation_file (defillama_df dune_df : series) (filename : string)
    : M (option (list merged_row)) :=
  try_except
    (let merged_df := sort_values (merge_outer defillama_df dune_df) in
     let output_path := path_join validation_dir ("validation_" +:+ filename) in
     write_file output_path (to_csv (frame_of_merged merged_df) true) ;;
     print (Print ("Created validation file: " +:+ output_path)) ;;
     print (PrintValues "Shape" [count (length merged_df); count 3]) ;;
     print (PrintValues "Date range" [date_min merged_df; date_max merged_df]) ;;
     let defillama_count := notna_count (map tvl_defillama merged_df) in
     let dune_count := notna_count (map tvl_dune merged_df) in
     let both := both_count merged_df in
     print (PrintValues "Records with DeFi Llama TVL" [count defillama_count]) ;;
     print (PrintValues "Records with Dune TVL" [count dune_count]) ;;
     print (PrintValues "Records with both" [count both]) ;;
     (if (1 <? both)%nat then
        let overlapping := dropna merged_df in
        if (1 <? length overlapping)%nat
        then print (PrintCorrelation (map fst overlapping) (map snd overlapping))
        else ret tt
      else ret tt) ;;
     ret (Some merged_df))
    (fun e => print (PrintError ("Error creating validation file for " +:+ filename) e) ;;
              ret None).

Section Main.

Variable pd : pandas.

(** The body of the loop of [main]. *)
Definition process_pair (p : pair) : M unit :=
  print (Print ("--- Processing " +:+ filename p +:+ " ---")) ;;
  do defillama_df <- extract_tvl_data pd (defillama_path p) "defillama";
  do dune_df <- extract_tvl_data pd (dune_path p) "dune";
  match defillama_df, dune_df with
  | Some defillama_df, Some dune_df =>
      do validation_df <- create_validation_file defillama_df dune_df (filename p);
      match validation_df with
      | Some validation_df =>
          let overlapping := dropna validation_df in
          if (1 <? length overlapping)%nat
          then print (PrintCorrelation (map fst overlapping) (map snd overlapping))
          else ret tt
      | None => ret tt
      end
  | _, _ => print (Print ("Skipping " +:+ filename p +:+ " due to data extraction issues"))
  end.

(** The rest of [main], from [find_matching_files] on. *)
Definition process_matching_files : M unit :=
  do matching_pairs <- find_matching_files;
  match matching_pairs with
  | [] => print (Print "No matching files found between data/defillama and data/dune directories")
  | _ =>
      print (Print ("Processing " +:+ pretty (length matching_pairs)
                    +:+ " matching file pairs...")) ;;
      for_each process_pair matching_pairs
  end.

Definition main (env : environment) : M unit :=
  print (Print "Starting TVL validation process...") ;;
  do vaults <- load_morpho_vaults env;
  do count <- len vaults;
  print (Print ("Loaded " +:+ pretty count +:+ " vaults from morpho_vaults.json")) ;;
  process_matching_files.

End Main.

End validation.

(** * Vocabulary of the statements *)

Import dune_to_sheets defi_llama_validation validation.

(** [n] more HTTP calls were made and [out] was printed; the disk is the same. *)
Definition advance (w : world) (n : nat) (out : list event) : world :=
  {| files := files w; dirs := dirs w; calls := calls w + n;
     trace := trace w ++ out |}.

(** ** Query export *)

(** The [n]-th call, when it is [rq], is answered 2xx with the JSON object [d]. *)
Definition ok_reply (env : environment) (n : nat) (rq : request) (d : document) : Prop :=
  ∃ status, 200 ≤ status < 300
            ∧ http env n rq = Reply {| status_code := status; body := Some d |}.

Definition results_request (self : DuneClient) (query_id : Z) : request :=
  {| req_method := GET;
     req_url := base_url (config self) +:+ "/query/" +:+ pretty query_id +:+ "/results";
     req_headers := headers self |}.

Definition execute_request (self : DuneClient) (query_id : Z) : request :=
  {| req_method := POST;
     req_url := base_url (config self) +:+ "/query/execute/" +:+ pretty query_id;
     req_headers := headers self |}.

Definition status_request (self : DuneClient) (execution_id : string) : request :=
  {| req_method := GET;
     req_url := base_url (config self) +:+ "/execution/" +:+ execution_id +:+ "/status";
     req_headers := headers self |}.

Definition execution_results_request (self : DuneClient) (execution_id : string)
    : request :=
  {| req_method := GET;
     req_url := base_url (config self) +:+ "/execution/" +:+ execution_id +:+ "/results";
     req_headers := headers self |}.

Definition waiting (state : option string) : Prop :=
  state = Some "EXECUTING" ∨ state = Some "PENDING".

(** From call [c] on, the execution of [query_id] is started under
    [execution_id], and the first [n] polls find it waiting. *)
Definition started (env : environment) (self : DuneClient) (query_id : Z)
    (execution_id : string) (c n : nat) : Prop :=
  execution_id ≠ ""
  ∧ (∃ d, ok_reply env c (execute_request self query_id) d
          ∧ doc_execution_id d = Some execution_id)
  ∧ ∀ k, (k < n)%nat →
         ∃ d, ok_reply env (S c + k) (status_request self execution_id) d
              ∧ waiting (doc_state d).

(** From call [c] on, the remote gives the query a result set without rows:
    at once for the stored results, after fewer than [fuel] waiting polls and
    a completed one for a fresh execution. *)
Definition no_rows (env : environment) (fuel : nat) (self : DuneClient)
    (query_id : Z) (execute_fresh : bool) (c : nat) : Prop :=
  if execute_fresh then
    ∃ execution_id n d1 d2,
      started env self query_id execution_id c n ∧ (n < fuel)%nat
      ∧ ok_reply env (S c + n) (status_request self execution_id) d1
      ∧ doc_state d1 = Some "COMPLETED"
      ∧ ok_reply env (S (S c + n)) (execution_results_request self execution_id) d2
      ∧ result_rows d2 = []
  else
    ∃ d, ok_reply env c (results_request self query_id) d ∧ result_rows d = [].

(** The retrieval the three public operations start with. *)
Definition fetch (env : environment) (fuel : nat) (self : DuneToCSV)
    (query_id : Z) (execute_fresh : bool) : M DataFrame :=
  if execute_fresh then execute_query env fuel (dune_client self) query_id
  else get_query_results env (dune_client self) query_id.

(** The client [main] builds from the API key. *)
Definition client_of (key : string) : DuneToCSV :=
  {| dune_client := DuneClient_init (DuneConfig_new key);
     csv_exporter := {| output_dir := "output" |} |}.

Definition processing_line (total i : nat) (query_id : Z) : event :=
  Print ("Processing query " +:+ pretty i +:+ "/" +:+ pretty total
         +:+ ": " +:+ pretty query_id).

(** ** Fetcher *)

Definition chart_request (v : vault) : request :=
  {| req_method := GET; req_url := "https://yields.llama.fi/chart/" +:+ pool_id v;
     req_headers := [] |}.


(** The file is missing, or its text is not JSON. *)
Definition unreadable (static : static_file) : Prop :=
  static = Absent ∨ static = Malformed.

(** JSON without a length and without items: null, a flag or a number. *)
Definition scalar (j : json_value) : Prop :=
  j = JNull ∨ (∃ b, j = JBool b) ∨ (∃ q, j = JNum q).

(** JSON with [n] items: a list, an object (its keys) or a text (its
    characters). *)
Definition sized (j : json_value) (n : nat) : Prop :=
  (∃ items, j = JList items ∧ n = length items)
  ∨ (∃ fields, j = JObject fields ∧ n = length fields)
  ∨ (∃ s, j = JStr s ∧ n = String.length s).

(** The first item a loop over [j] meets is [x]. *)
Definition first_item (j x : json_value) : Prop :=
  (∃ rest, j = JList (x :: rest))
  ∨ (∃ k v rest, j = JObject ((k, v) :: rest) ∧ x = JStr k)
  ∨ (∃ c s, j = JStr (String c s) ∧ x = JStr (String c EmptyString)).

(** An exception neither [except] clause of [load_morpho_vaults] takes. *)
Definition uncaught (e : exn) : Prop :=
  (∀ path, e ≠ FileNotFoundError path) ∧ e ≠ JSONDecodeError.

(** ** Validator *)

(** The values a file has for date [d], in file order. *)
Definition values_on (d : Z) (samples : list (option Z * option Q)) : list (option Q) :=
  map snd (List.filter (fun s => bool_decide (fst s = Some d)) samples).

(** One step of [groupby_date]. *)
Definition group_step (groups : list (Z * list (option Q))) (s : option Z * option Q)
    : list (Z * list (option Q)) :=
  match fst s with
  | None => groups
  | Some d => add_sample d (snd s) groups
  end.

(** The values of the group of date [d]; no group, no values. *)
Fixpoint group_of (d : Z) (groups : list (Z * list (option Q))) : list (option Q) :=
  match groups with
  | [] => []
  | (d', vs) :: rest => if d =? d' then vs else group_of d rest
  end.

Definition ascending (dates : list Z) : Prop := StronglySorted Z.lt dates.

(** The values that are present, in order. *)
Definition present (vs : list (option Q)) : list Q :=
  flat_map (fun v => match v with Some q => [q] | None => [] end) vs.

Fixpoint total (xs : list Q) : Q :=
  match xs with
  | [] => 0%Q
  | x :: rest => (x + total rest)%Q
  end.

(** The arithmetic mean of the values that are present: their sum over their
    number; null when none is present. *)
Definition arithmetic_mean (vs : list (option Q)) : option Q :=
  match present vs with
  | [] => None
  | xs => Some (total xs / inject_Z (Z.of_nat (length xs)))%Q
  end.

(** The nanoseconds of a day. *)
Definition day_ns : Z := 86400000000000.

(** The cells of the column at position [i] of a frame, row by row. *)
Definition column_at (i : nat) (df : DataFrame) : list value :=
  map (fun row => nth i row VNull) (rows df).

(** The number a cell counts for in a mean: a flag counts 1 or 0; a blank
    cell and a text count nothing. *)
Definition number (v : value) : option Q :=
  match v with
  | VNum q => Some q
  | VBool true => Some 1%Q
  | VBool false => Some 0%Q
  | _ => None
  end.

(** A cell that holds a text (in a file a date is one). *)
Definition textual (v : value) : Prop :=
  match v with
  | VStr _ | VDate _ => True
  | _ => False
  end.

(** The samples of the rows of a file: the calendar date of the row's stamp
    and the number of its value cell. *)
Definition samples_of (stamps : list stamp) (cells : list value)
    : list (option Z * option Q) :=
  zip (map date_of stamps) (map number cells).

(** No row with a date has a text for value. *)
Definition no_dated_text (stamps : list stamp) (cells : list value) : Prop :=
  ∀ k t v, stamps !! k = Some t → cells !! k = Some v → t ≠ NaT → ¬ textual v.

(** The series is taken from the text of a file: pandas reads a frame from
    it, [i] and [j] are the columns found for the date and for the value,
    pandas converts the whole date column, no row with a date has a text
    for value, and the series is the aggregation of the rows' samples. *)
Definition taken_from (pd : pandas) (content : list line) (s : series) : Prop :=
  ∃ df i j stamps,
    pd_read_csv pd content = inr df
    ∧ find_column is_date_column (columns df) = Some i
    ∧ find_column is_tvl_column (columns df) = Some j
    ∧ pd_to_datetime pd (column_at i df) = Some stamps
    ∧ no_dated_text stamps (column_at j df)
    ∧ s = aggregate (samples_of stamps (column_at j df)).

(** A series [extract_tvl_data] can return: the aggregation of dated samples. *)
Definition extracted (s : series) : Prop := ∃ samples, s = aggregate samples.

(** The value a series has for date [d]; null when it has no row for [d]. *)
Definition value_at (s : series) (d : Z) : option Q :=
  match List.find (fun x => fst x =? d) s with
  | Some x => snd x
  | None => None
  end.

(** The merged rows of the dates the left series has, in its order. *)
Definition left_rows (left right : series) : list merged_row :=
  map (fun x => (fst x, snd x, value_at right (fst x))) left.

(** The merged rows of the dates only the right series has, in its order. *)
Definition right_only (left right : series) : list merged_row :=
  map (fun x => (fst x, None, snd x))
      (List.filter (fun x => negb (existsb (fun y => fst y =? fst x) left)) right).

(** What [create_validation_file] prints for the merged frame. *)
Definition correlation_lines (merged : list merged_row) : list event :=
  if (1 <? both_count merged)%nat then
    if (1 <? length (dropna merged))%nat
    then [PrintCorrelation (map fst (dropna merged)) (map snd (dropna merged))]
    else []
  else [].

Definition report (output_path : string) (merged : list merged_row) : list event :=
  [Print ("Created validation file: " +:+ output_path);
   PrintValues "Shape" [count (length merged); count 3];
   PrintValues "Date range" [date_min merged; date_max merged];
   PrintValues "Records with DeFi Llama TVL"
     [count (notna_count (map tvl_defillama merged))];
   PrintValues "Records with Dune TVL" [count (notna_count (map tvl_dune merged))];
   PrintValues "Records with both" [count (both_count merged)]]
  ++ correlation_lines merged.

(** * Sample inputs *)

Definition w0 : world := {| files := ∅; dirs := ∅; calls := 0; trace := [] |}.

(** [str] of null, a flag and a whole number.  The sample files hold texts
    where the scripts show a value, so the samples ask for none of these. *)
Definition plain_str (x : json_value) : string :=
  match x with
  | JNull => "None"
  | JBool true => "True"
  | JBool false => "False"
  | JNum q => pretty (Qnum q)
  | _ => ""
  end.

Definition ok (d : document) : reply := Reply {| status_code := 200; body := Some d |}.

Definition with_state (s : string) : document :=
  {| doc_data := None; doc_result := None; doc_execution_id := None; doc_state := Some s |}.

Definition with_rows (rs : list record) : document :=
  {| doc_data := None; doc_result := Some (Some rs); doc_execution_id := None;
     doc_state := None |}.

Definition with_data (rs : list record) : document :=
  {| doc_data := Some rs; doc_result := None; doc_execution_id := None;
     doc_state := None |}.

(** A remote on which an execution waits once and then fails. *)
Definition failing_remote : environment :=
  {| http := fun n _ =>
       match n with
       | O => ok {| doc_data := None; doc_result := None;
                    doc_execution_id := Some "01J"; doc_state := None |}
       | 1%nat => ok (with_state "EXECUTING")
       | _ => ok (with_state "FAILED")
       end;
     strftime := "20240101_000000";
     morpho_vaults_json := Absent; str_of := plain_str |}.

(** A remote whose first answer has no rows and whose later answers have one. *)
Definition first_empty_remote : environment :=
  {| http := fun n _ =>
       match n with
       | O => ok (with_rows [])
       | _ => ok (with_rows [[("day", VStr "2024-01-01"); ("tvl", VNum 100)]])
       end;
     strftime := "20240101_000000";
     morpho_vaults_json := Absent; str_of := plain_str |}.

Definition exporter : DuneToCSV := client_of "key".

Definition usdc_vault : vault :=
  {| project := "morpho-blue"; chain := "Ethereum"; symbol := "USDC";
     pool_id := "a44febf3" |}.

Definition weth_vault : vault :=
  {| project := "morpho-blue"; chain := "Base"; symbol := "WETH";
     pool_id := "1b2c3d4e" |}.

(** A remote that refuses the first chart request and serves the later ones. *)
Definition first_refused_remote : environment :=
  {| http := fun n _ =>
       match n with
       | O => Reply {| status_code := 404; body := None |}
       | _ => ok (with_data [[("timestamp", VStr "2024-01-01T23:00:00.000Z");
                              ("tvlUsd", VNum 100); ("apy", VNum (5 # 2))]])
       end;
     strftime := "20240101_000000";
     morpho_vaults_json := Loaded [usdc_vault; weth_vault]; str_of := plain_str |}.

(** *** pandas on the sample disks *)

Definition cells (l : line) : list value :=
  match l with
  | Header names => map VStr names
  | Row cs => cs
  end.

Definition label (v : value) : string :=
  match v with
  | VStr s => s
  | _ => "Unnamed"
  end.

(** [pd.read_csv] on the files of the sample disks: a line of labels, then
    lines with a cell for each label.  The sample disks hold no other text;
    on one this stand-in answers with an exception, which says nothing of
    pandas. *)
Definition toy_read_csv (text : list line) : exn + DataFrame :=
  match text with
  | [] => inl (Exception "No columns to parse from file")
  | first :: rest =>
      if forallb (fun l => (length (cells l) =? length (cells first))%nat) rest
      then inr {| columns := map label (cells first); rows := map cells rest |}
      else inl (Exception "Error tokenizing data")
  end.

(** A cell of a column of days. *)
Definition toy_day (v : value) : option stamp :=
  match v with
  | VStr "2024-01-01" => Some (At (19723 * 86400000000000))
  | VStr "2024-01-02" => Some (At (19724 * 86400000000000))
  | VNull => Some NaT
  | _ => None
  end.

(** A cell of a column of UTC instants. *)
Definition toy_instant (v : value) : option stamp :=
  match v with
  | VStr "2024-01-01T08:00:00.000Z" => Some (At (19723 * 86400000000000 + 28800000000000))
  | VStr "2024-01-01T23:00:00.000Z" => Some (At (19723 * 86400000000000 + 82800000000000))
  | VStr "2024-01-02T23:00:00.000Z" => Some (At (19724 * 86400000000000 + 82800000000000))
  | VNull => Some NaT
  | _ => None
  end.

(** [pd.to_datetime] on the date columns of the sample disks: a column of
    days or a column of UTC instants, blank cells giving NaT.  The sample
    disks hold no other column; on one (two formats mixed, any other cell)
    this stand-in gives no result. *)
Definition toy_to_datetime (column : list value) : option (list stamp) :=
  match mapM toy_day column with
  | Some stamps => Some stamps
  | None => mapM toy_instant column
  end.

Definition toy_pandas : pandas :=
  {| pd_read_csv := toy_read_csv; pd_to_datetime := toy_to_datetime |}.

Definition no_remote (static : static_file) : environment :=
  {| http := fun _ _ => NoReply; strftime := "20240101_000000";
     morpho_vaults_json := static; str_of := plain_str |}.

(** A disk with one file of each provider under the same name. *)
Definition paired_disk : world :=
  {| files :=
       <["data/defillama/usdc.csv" :=
           [Header ["timestamp"; "apy"; "tvlUsd"];
            Row [VStr "2024-01-01T23:00:00.000Z"; VNull; VNum 100];
            Row [VStr "2024-01-02T23:00:00.000Z"; VNum (5 # 2); VNum 110]]]>
       (<["data/dune/usdc.csv" :=
           [Header ["day"; "TVL"]; Row [VStr "2024-01-01"; VNum 95]]]> ∅);
     dirs := ∅; calls := 0; trace := [] |}.

(** A disk on which the DeFi Llama file has a date with no TVL. *)
Definition blank_tvl_disk : world :=
  {| files :=
       <["data/defillama/usdc.csv" :=
           [Header ["timestamp"; "tvlUsd"]; Row [VStr "2024-01-01"; VNull]]]>
       (<["data/dune/usdc.csv" :=
           [Header ["day"; "tvl"]; Row [VStr "2024-01-01"; VNum 95]]]> ∅);
     dirs := ∅; calls := 0; trace := [] |}.

(** A disk on which the DeFi Llama file has two rows for one day. *)
Definition intraday_disk : world :=
  {| files :=
       <["data/defillama/usdc.csv" :=
           [Header ["timestamp"; "tvlUsd"];
            Row [VStr "2024-01-01T08:00:00.000Z"; VNum 100];
            Row [VStr "2024-01-02T23:00:00.000Z"; VNum 120];
            Row [VStr "2024-01-01T23:00:00.000Z"; VNum 110];
            Row [VStr "2024-01-02T23:00:00.000Z"; VNull]]]> ∅;
     dirs := ∅; calls := 0; trace := [] |}.

Definition usdc_defillama : series :=
  aggregate [(Some 19723, Some 100%Q); (Some 19724, Some 110%Q)].

Definition usdc_dune : series := aggregate [(Some 19723, Some 95%Q)].

(** * Further vocabulary *)

(** ** Query export *)

(** One step of [add_keys]: a key goes last unless the columns have it. *)
Definition add_key (acc : list string) (k : string) : list string :=
  if bool_decide (k ∈ acc) then acc else acc ++ [k].

(** Some row of the result set has a field. *)
Definition has_field (rs : list record) : Prop := ¬ Forall (fun r => r = []) rs.

(** The name [query_to_csv] saves under. *)
Definition saved_name (env : environment) (query_id : Z) (filename : option string)
    : string :=
  match filename with
  | Some f => f
  | None => "dune_query_" +:+ pretty query_id +:+ "_" +:+ strftime env +:+ ".csv"
  end.

(** What a reply to the Dune client raises, if anything: no reply at all, a
    status outside 2xx, or a body that is not JSON. *)
Definition failure_of (rp : reply) : option exn :=
  match rp with
  | NoReply => Some TransportError
  | Reply r =>
      if (200 <=? status_code r) && (status_code r <? 300) then
        match body r with
        | Some _ => None
        | None => Some JSONDecodeError
        end
      else Some (HTTPStatusError (status_code r))
  end.

(** The path [main] saves a query under. *)
Definition export_path (client : DuneToCSV) (query_id : Z) : string :=
  path_join (output_dir (csv_exporter client))
            ("morpho_vault_data_" +:+ pretty query_id +:+ ".csv").

(** ** Fetcher *)

(** The exception a chart reply makes [get_historical_data] raise, if any:
    no reply at all, or status 200 with a body that is not JSON. *)
Definition fetch_failure (rp : reply) : option exn :=
  match rp with
  | NoReply => Some TransportError
  | Reply r =>
      if status_code r =? 200 then
        match body r with
        | Some _ => None
        | None => Some JSONDecodeError
        end
      else None
  end.

(** The series a chart reply carries, if any. *)
Definition chart_data (rp : reply) : option (list record) :=
  match rp with
  | NoReply => None
  | Reply r =>
      if status_code r =? 200 then
        match body r with
        | Some d =>
            match doc_data d with
            | Some (s :: data) => Some (s :: data)
            | _ => None
            end
        | None => None
        end
      else None
  end.

(** ** Validator *)

(** [path.exists()] as a test on the world. *)
Definition path_there (w : world) (path : string) : bool :=
  is_file w path || is_dir w path.

(** The pair of the two files named [name]. *)
Definition pair_of (name : string) : pair :=
  {| defillama_path := path_join defillama_dir name;
     dune_path := path_join dune_dir name;
     filename := name |}.

(** The path of the validation file of a pair. *)
Definition validation_path (p : pair) : string :=
  "data/validation/validation_" +:+ filename p.

(** What processing a pair leaves on disk, given what the two extractions
    return. *)
Definition files_after_pair (o1 o2 : option series) (p : pair) (w : world)
    : gmap string (list line) :=
  match o1, o2 with
  | Some defillama_df, Some dune_df =>
      <[validation_path p :=
          to_csv (frame_of_merged (sort_values (merge_outer defillama_df dune_df))) true]>
        (files w)
  | _, _ => files w
  end.

(** A series as the samples of a file: every date is present. *)
Definition dated (s : series) : list (option Z * option Q) :=
  map (fun x => (Some (fst x), snd x)) s.

(** The merged row of date [d]. *)
Definition row_for (left right : series) (d : Z) : merged_row :=
  (d, value_at left d, value_at right d).

(** A merged row with its two value columns exchanged. *)
Definition swap_sources (row : merged_row) : merged_row :=
  (row_date row, tvl_dune row, tvl_defillama row).

(** The rows of [s] whose date [other] has too. *)
Definition common (s other : series) : series :=
  List.filter (fun x => existsb (fun y => fst y =? fst x) other) s.

(** * Further sample inputs *)

Definition with_execution_id (execution_id : string) : document :=
  {| doc_data := None; doc_result := None; doc_execution_id := Some execution_id;
     doc_state := None |}.

Definition tvl_row : record := [("day", VStr "2024-01-01"); ("tvl", VNum 100)].

(** A remote on which an execution never leaves the waiting state. *)
Definition busy_remote : environment :=
  {| http := fun n _ =>
       match n with
       | O => ok (with_execution_id "01J")
       | _ => ok (with_state "EXECUTING")
       end;
     strftime := "20240101_000000";
     morpho_vaults_json := Absent; str_of := plain_str |}.

(** A remote on which an execution waits once, completes and has one row. *)
Definition completing_remote : environment :=
  {| http := fun n _ =>
       match n with
       | O => ok (with_execution_id "01J")
       | 1%nat => ok (with_state "EXECUTING")
       | 2%nat => ok (with_state "COMPLETED")
       | _ => ok (with_rows [tvl_row])
       end;
     strftime := "20240101_000000";
     morpho_vaults_json := Absent; str_of := plain_str |}.

(** A remote that has one row for every query. *)
Definition serving_remote : environment :=
  {| http := fun _ _ => ok (with_rows [tvl_row]);
     strftime := "20240101_000000";
     morpho_vaults_json := Absent; str_of := plain_str |}.

(** A remote that serves the first chart request and drops the later ones. *)
Definition dropping_remote : environment :=
  {| http := fun n _ =>
       match n with
       | O => ok (with_data [[("timestamp", VStr "2024-01-01T23:00:00.000Z");
                              ("tvlUsd", VNum 100)]])
       | _ => NoReply
       end;
     strftime := "20240101_000000";
     morpho_vaults_json := Loaded [usdc_vault; weth_vault]; str_of := plain_str |}.

(** * Facts about the world and the monad *)

Lemma advance_advance w n m o1 o2 :
  advance (advance w n o1) m o2 = advance w (n + m) (o1 ++ o2).
Proof. unfold advance. simpl. f_equal; [lia | by rewrite app_assoc]. Qed.

Lemma is_file_lookup (w : world) (path : string) :
  is_file w path = false ↔ files w !! path = None.
Proof.
  unfold is_file. rewrite bool_decide_eq_false. split.
  - intros H. destruct (files w !! path) eqn:E; [exfalso; eauto | reflexivity].
  - intros -> [x Hx]. discriminate.
Qed.

Lemma prefix_empty (s : string) : String.prefix "" s = true.
Proof. by destruct s. Qed.

Lemma elem_of_map {A B} (f : A → B) (l : list A) (y : B) :
  y ∈ map f l ↔ ∃ x, y = f x ∧ x ∈ l.
Proof.
  rewrite list_elem_of_In, in_map_iff. split; intros (x & H1 & H2); exists x.
  - by rewrite list_elem_of_In.
  - by rewrite <- list_elem_of_In.
Qed.

Lemma elem_of_filter_list {A} (f : A → bool) (l : list A) (x : A) :
  x ∈ List.filter f l ↔ x ∈ l ∧ f x = true.
Proof. rewrite !list_elem_of_In. apply filter_In. Qed.

(** * The query-export pipeline *)

Lemma header_lines_rows (rs : list (list value)) : header_lines (map Row rs) = 0%nat.
Proof. unfold header_lines. induction rs as [|r rs IH]; simpl; auto. Qed.

Lemma append_dataframe_unfold (self : CSVExporter) (df : DataFrame)
    (filename : string) (w : world) :
  let filepath := path_join (output_dir self) filename in
  append_dataframe self df filename w
  = (Returns filepath,
     {| files := <[filepath := default [] (files w !! filepath)
                               ++ to_csv df (negb (is_file w filepath || is_dir w filepath))]>
                   (files w);
        dirs := dirs w; calls := calls w; trace := trace w |}).
Proof. reflexivity. Qed.

(** C7. [append_dataframe] writes the header line exactly when the target path
    does not exist yet ([there] is false); called twice on a path that does not
    exist, it leaves the header of the first frame, the rows of the first
    frame and the rows of the second: one header line. *)
Theorem append_dataframe_single_header (self : CSVExporter) (df1 df2 : DataFrame)
    (filename : string) (w : world) :
  let filepath := path_join (output_dir self) filename in
  let there := is_file w filepath || is_dir w filepath in
  let first := append_dataframe self df1 filename w in
  let second := append_dataframe self df2 filename first.2 in
  first.1 = Returns filepath
  ∧ files first.2 !! filepath
    = Some (default [] (files w !! filepath) ++ to_csv df1 (negb there))
  ∧ header_lines (to_csv df1 (negb there)) = (if there then 0 else 1)%nat
  ∧ (there = false →
     second.1 = Returns filepath
     ∧ files second.2 !! filepath
       = Some (Header (columns df1) :: map Row (rows df1) ++ map Row (rows df2))
     ∧ header_lines (Header (columns df1) :: map Row (rows df1) ++ map Row (rows df2))
       = 1%nat).
Proof.
  intros filepath there first second.
  subst second first. rewrite !append_dataframe_unfold. cbn [fst snd files].
  fold filepath. fold there.
  split; [reflexivity|]. split; [apply lookup_insert_eq|]. split.
  { unfold to_csv, header_lines. destruct there; simpl.
    - apply header_lines_rows.
    - f_equal. apply header_lines_rows. }
  intros Hthere.
  assert (Hnone : files w !! filepath = None).
  { apply is_file_lookup. subst there. by apply orb_false_iff in Hthere as [Hf _]. }
  split; [reflexivity|]. split.
  - rewrite !lookup_insert_eq. rewrite Hthere, Hnone.
    unfold is_file at 1. cbn [files]. rewrite lookup_insert_eq.
    rewrite bool_decide_eq_true_2 by eauto. unfold to_csv. simpl.
    reflexivity.
  - unfold header_lines. simpl. rewrite List.filter_app, length_app.
    fold (header_lines (map Row (rows df1))). fold (header_lines (map Row (rows df2))).
    rewrite !header_lines_rows. reflexivity.
Qed.

Lemma append_dataframe_single_header_witness :
  let df := {| columns := ["day"; "tvl"]; rows := [[VStr "2024-01-01"; VNum 5]] |} in
  let first := append_dataframe {| output_dir := "output" |} df "a.csv" w0 in
  let second := append_dataframe {| output_dir := "output" |} df "a.csv" first.2 in
  second.1 = Returns "output/a.csv"
  ∧ files second.2 !! "output/a.csv"
    = Some (Header (columns df) :: map Row (rows df) ++ map Row (rows df))
  ∧ header_lines (Header (columns df) :: map Row (rows df) ++ map Row (rows df)) = 1%nat.
Proof.
  intros df first second.
  exact (proj2 (proj2 (proj2
    (append_dataframe_single_header {| output_dir := "output" |} df df "a.csv" w0)))
    eq_refl).
Defined.

Lemma ok_reply_intro env n rq d :
  http env n rq = ok d → ok_reply env n rq d.
Proof. intros H. exists 200. split; [lia | exact H]. Defined.

Lemma send_ok env rq d w :
  ok_reply env (calls w) rq d →
  ∃ r, send env rq w = (Returns r, advance w 1 []) ∧ raise_for_status r = ret tt
       ∧ body r = Some d.
Proof.
  intros (status & Hs & Hr). eexists. split; [|split].
  - unfold send. rewrite Hr. unfold advance. rewrite app_nil_r.
    replace (calls w + 1)%nat with (S (calls w)) by lia. reflexivity.
  - unfold raise_for_status. simpl.
    destruct (Z.leb_spec 200 status); [|lia].
    destruct (Z.ltb_spec status 300); [|lia]. reflexivity.
  - reflexivity.
Qed.

Lemma poll_step env self eid fuel w d :
  ok_reply env (calls w) (status_request self eid) d →
  poll env self (req_url (status_request self eid)) (S fuel) w
  = (let state := doc_state d in
     if bool_decide (state = Some "EXECUTING") || bool_decide (state = Some "PENDING")
     then poll env self (req_url (status_request self eid)) fuel
            (advance w 1 [Sleep 5])
     else if bool_decide (state = Some "COMPLETED") then (Returns tt, advance w 1 [])
     else (Raises (Exception ("Query execution failed with state: " +:+ str_state state)),
           advance w 1 [])).
Proof.
  intros Hok. destruct (send_ok _ _ _ _ Hok) as (r & Hsend & Hst & Hbody).
  cbn [poll]. unfold bind at 1.
  change (send env _ w) with (send env (status_request self eid) w).
  rewrite Hsend. unfold bind at 1. rewrite Hst. unfold ret at 1.
  unfold bind at 1. unfold json. rewrite Hbody. unfold ret at 1. cbn zeta.
  destruct (bool_decide (doc_state d = Some "EXECUTING")
            || bool_decide (doc_state d = Some "PENDING")).
  - unfold bind at 1. unfold sleep at 1. f_equal. unfold advance. simpl.
    by rewrite app_nil_r.
  - destruct (bool_decide (doc_state d = Some "COMPLETED")); reflexivity.
Qed.

Lemma poll_waiting env self eid n : ∀ fuel w,
  (∀ k, (k < n)%nat →
        ∃ d, ok_reply env (calls w + k) (status_request self eid) d
             ∧ waiting (doc_state d)) →
  poll env self (req_url (status_request self eid)) (n + fuel) w
  = poll env self (req_url (status_request self eid)) fuel
      (advance w n (replicate n (Sleep 5))).
Proof.
  induction n as [|n IH]; intros fuel w H.
  - simpl. f_equal. unfold advance. destruct w; simpl.
    f_equal; [lia | by rewrite app_nil_r].
  - destruct (H 0%nat ltac:(lia)) as (d & Hok & Hw).
    rewrite Nat.add_0_r in Hok.
    change (S n + fuel)%nat with (S (n + fuel)).
    rewrite (poll_step _ _ _ _ _ _ Hok). cbn zeta.
    assert (Hb : bool_decide (doc_state d = Some "EXECUTING")
                 || bool_decide (doc_state d = Some "PENDING") = true).
    { destruct Hw as [-> | ->]; reflexivity. }
    rewrite Hb. rewrite IH.
    + rewrite advance_advance. reflexivity.
    + intros k Hk. destruct (H (S k) ltac:(lia)) as (d' & Hok' & Hw').
      exists d'. split; [|exact Hw']. simpl.
      replace (calls w + 1 + k)%nat with (calls w + S k)%nat by lia. exact Hok'.
Qed.

(** The poll loop ends: after [n] waiting polls and one that is not waiting,
    any fuel above [n] gives the result. *)
Lemma poll_until env self eid n fuel w d :
  (∀ k, (k < n)%nat →
        ∃ d, ok_reply env (calls w + k) (status_request self eid) d
             ∧ waiting (doc_state d)) →
  ok_reply env (calls w + n) (status_request self eid) d →
  ¬ waiting (doc_state d) →
  (n < fuel)%nat →
  poll env self (req_url (status_request self eid)) fuel w
  = (if bool_decide (doc_state d = Some "COMPLETED") then Returns tt
     else Raises (Exception ("Query execution failed with state: "
                             +:+ str_state (doc_state d))),
     advance w (S n) (replicate n (Sleep 5))).
Proof.
  intros Hwait Hok Hnot Hfuel.
  replace fuel with (n + S (fuel - S n))%nat by lia.
  rewrite poll_waiting by exact Hwait.
  rewrite (poll_step env self eid _ _ d) by exact Hok. cbn zeta.
  assert (Hb : bool_decide (doc_state d = Some "EXECUTING")
               || bool_decide (doc_state d = Some "PENDING") = false).
  { apply orb_false_iff. split; apply bool_decide_eq_false; intros E; apply Hnot;
      [left | right]; exact E. }
  rewrite Hb, advance_advance, app_nil_r, Nat.add_1_r.
  by destruct (bool_decide (doc_state d = Some "COMPLETED")).
Qed.

Lemma get_query_results_ok env self query_id w d :
  ok_reply env (calls w) (results_request self query_id) d →
  get_query_results env self query_id w
  = (Returns (frame_of_rows (result_rows d)), advance w 1 []).
Proof.
  intros Hok. destruct (send_ok _ _ _ _ Hok) as (r & Hsend & Hst & Hbody).
  unfold get_query_results. cbn zeta.
  change {| req_method := GET; req_url := _; req_headers := headers self |}
    with (results_request self query_id).
  unfold bind at 1. rewrite Hsend. unfold bind at 1. rewrite Hst. unfold ret at 1.
  unfold bind, json. rewrite Hbody. reflexivity.
Qed.

Lemma execute_query_started env fuel self query_id eid n w :
  started env self query_id eid (calls w) n →
  execute_query env fuel self query_id w
  = (poll env self (req_url (status_request self eid)) fuel ;;
     do results_response <- send env (execution_results_request self eid);
     raise_for_status results_response ;;
     do results_data <- json results_response;
     ret (frame_of_rows (result_rows results_data))) (advance w 1 []).
Proof.
  intros (Hne & (d & Hok & Hid) & _).
  destruct (send_ok _ _ _ _ Hok) as (r & Hsend & Hst & Hbody).
  unfold execute_query. cbn zeta.
  change {| req_method := POST; req_url := _; req_headers := headers self |}
    with (execute_request self query_id).
  unfold bind at 1. rewrite Hsend. unfold bind at 1. rewrite Hst. unfold ret at 1.
  unfold bind at 1. unfold json. rewrite Hbody. unfold ret at 1. rewrite Hid.
  destruct eid as [|a eid]; [done|]. reflexivity.
Qed.

(** C5. In fresh-execution mode, when the polls find the execution waiting [n]
    times and then in a state that is neither waiting nor "COMPLETED", then
    with any fuel above [n] both [execute_query] and [query_to_csv] raise the
    exception whose message ends with that state, and the files on disk are
    the ones from before the call. *)
Theorem failed_state_raises_and_writes_nothing (env : environment) (fuel : nat)
    (self : DuneToCSV) (query_id : Z) (filename : option string)
    (execution_id : string) (n : nat) (d : document) (w : world) :
  started env (dune_client self) query_id execution_id (calls w) n →
  ok_reply env (S (calls w) + n) (status_request (dune_client self) execution_id) d →
  ¬ waiting (doc_state d) →
  doc_state d ≠ Some "COMPLETED" →
  (n < fuel)%nat →
  let err := Exception ("Query execution failed with state: " +:+ str_state (doc_state d)) in
  ∃ w', execute_query env fuel (dune_client self) query_id w = (Raises err, w')
        ∧ query_to_csv env fuel self query_id filename true w = (Raises err, w')
        ∧ files w' = files w.
Proof.
  intros Hstarted Hok Hnot Hne Hfuel err.
  assert (Hexec : execute_query env fuel (dune_client self) query_id w
                  = (Raises err, advance w (S (S n)) (replicate n (Sleep 5)))).
  { rewrite (execute_query_started _ _ _ _ _ _ _ Hstarted).
    unfold bind at 1.
    rewrite (poll_until env (dune_client self) execution_id n fuel _ d).
    - rewrite bool_decide_eq_false_2 by exact Hne.
      rewrite advance_advance. reflexivity.
    - intros k Hk. destruct Hstarted as (_ & _ & Hw).
      destruct (Hw k Hk) as (d' & Hok' & Hw'). exists d'. split; [|exact Hw'].
      cbn [calls advance]. rewrite Nat.add_1_r. exact Hok'.
    - cbn [calls advance]. rewrite Nat.add_1_r. exact Hok.
    - exact Hnot.
    - exact Hfuel. }
  eexists. split; [exact Hexec|]. split; [|reflexivity].
  unfold query_to_csv. unfold bind at 1. rewrite Hexec. reflexivity.
Qed.

Lemma failed_state_raises_and_writes_nothing_witness :
  ∃ w', execute_query failing_remote 5 (dune_client exporter) 5455942 w0
        = (Raises (Exception "Query execution failed with state: FAILED"), w')
        ∧ query_to_csv failing_remote 5 exporter 5455942 None true w0
          = (Raises (Exception "Query execution failed with state: FAILED"), w')
        ∧ files w' = files w0.
Proof.
  apply (failed_state_raises_and_writes_nothing failing_remote 5 exporter 5455942 None
           "01J" 1 (with_state "FAILED") w0).
  - split; [discriminate|]. split.
    + eexists. split; [apply ok_reply_intro; reflexivity | reflexivity].
    + intros k Hk. exists (with_state "EXECUTING").
      destruct k as [|k]; [|lia].
      split; [apply ok_reply_intro; reflexivity | left; reflexivity].
  - apply ok_reply_intro. reflexivity.
  - intros [H | H]; discriminate H.
  - discriminate.
  - lia.
Defined.

(** C10. When the remote gives the query a result set without rows, in either
    retrieval mode, [get_dataframe] returns the empty frame and
    [get_data_as_csv_string] returns the text of the empty frame (one line
    without labels, no row), neither raising; on the same input
    [query_to_csv] raises "No data returned from Dune query". *)
Theorem empty_result_raises_only_in_query_to_csv (env : environment) (fuel : nat)
    (self : DuneToCSV) (query_id : Z) (filename : option string)
    (execute_fresh : bool) (w : world) :
  no_rows env fuel (dune_client self) query_id execute_fresh (calls w) →
  ∃ w', files w' = files w
        ∧ get_dataframe env fuel self query_id execute_fresh w
          = (Returns DataFrame_empty, w')
        ∧ get_data_as_csv_string env fuel self query_id execute_fresh w
          = (Returns [Header []], w')
        ∧ query_to_csv env fuel self query_id filename execute_fresh w
          = (Raises (Exception "No data returned from Dune query"), w').
Proof.
  intros Hno.
  assert (Hfetch : ∃ w', files w' = files w
            ∧ fetch env fuel self query_id execute_fresh w = (Returns DataFrame_empty, w')).
  { unfold fetch. destruct execute_fresh; simpl in Hno.
    - destruct Hno as (eid & n & d1 & d2 & Hst & Hfuel & Hok1 & Hdone & Hok2 & Hrows).
      eexists. split; [|rewrite (execute_query_started _ _ _ _ _ _ _ Hst)].
      2:{ unfold bind at 1.
          rewrite (poll_until env (dune_client self) eid n fuel _ d1).
          - rewrite bool_decide_eq_true_2 by exact Hdone.
            rewrite advance_advance.
            assert (Hok2' : ok_reply env
                              (calls (advance w (1 + S n) ([] ++ replicate n (Sleep 5))))
                              (execution_results_request (dune_client self) eid) d2).
            { cbn [calls advance].
              replace (calls w + (1 + S n))%nat with (S (S (calls w) + n)) by lia.
              exact Hok2. }
            destruct (send_ok _ _ _ _ Hok2') as (r & Hsend & Hraise & Hbody).
            unfold bind at 1. rewrite Hsend. unfold bind at 1. rewrite Hraise.
            unfold ret at 1. unfold bind, json. rewrite Hbody. unfold ret.
            rewrite Hrows. reflexivity.
          - intros k Hk. destruct Hst as (_ & _ & Hw).
            destruct (Hw k Hk) as (d' & Hok' & Hw'). exists d'. split; [|exact Hw'].
            cbn [calls advance]. rewrite Nat.add_1_r. exact Hok'.
          - cbn [calls advance]. rewrite Nat.add_1_r. exact Hok1.
          - rewrite Hdone. intros [H | H]; discriminate H.
          - exact Hfuel. }
      reflexivity.
    - destruct Hno as (d & Hok & Hrows).
      eexists. split; [|rewrite (get_query_results_ok _ _ _ _ _ Hok), Hrows; reflexivity].
      reflexivity. }
  destruct Hfetch as (w' & Hfiles & Hfetch). exists w'.
  split; [exact Hfiles|]. split; [exact Hfetch|]. unfold fetch in Hfetch. split.
  - unfold get_data_as_csv_string, bind. rewrite Hfetch. reflexivity.
  - unfold query_to_csv, bind. rewrite Hfetch. reflexivity.
Qed.

Lemma empty_result_raises_only_in_query_to_csv_witness :
  ∃ w', files w' = files w0
        ∧ get_dataframe first_empty_remote 0 exporter 5455942 false w0
          = (Returns DataFrame_empty, w')
        ∧ get_data_as_csv_string first_empty_remote 0 exporter 5455942 false w0
          = (Returns [Header []], w')
        ∧ query_to_csv first_empty_remote 0 exporter 5455942 None false w0
          = (Raises (Exception "No data returned from Dune query"), w').
Proof.
  apply (empty_result_raises_only_in_query_to_csv first_empty_remote 0 exporter
           5455942 None false w0).
  exists (with_rows []). split; [apply ok_reply_intro; reflexivity | reflexivity].
Defined.

Lemma query_to_csv_no_rows env fuel self query_id filename w d :
  ok_reply env (calls w) (results_request (dune_client self) query_id) d →
  result_rows d = [] →
  query_to_csv env fuel self query_id filename false w
  = (Raises (Exception "No data returned from Dune query"), advance w 1 []).
Proof.
  intros Hok Hrows. unfold query_to_csv, bind.
  rewrite (get_query_results_ok _ _ _ _ _ Hok), Hrows. reflexivity.
Qed.

Lemma export_all_no_rows env client total i query_id rest w d :
  ok_reply env (calls w) (results_request (dune_client client) query_id) d →
  result_rows d = [] →
  export_all env client total i (query_id :: rest) w
  = (Raises (Exception "No data returned from Dune query"),
     advance w 1 [processing_line total i query_id]).
Proof.
  intros Hok Hrows. cbn [export_all]. unfold bind at 1. unfold print at 1.
  unfold bind at 1.
  erewrite query_to_csv_no_rows; [| cbn [calls]; exact Hok | exact Hrows].
  unfold advance. cbn [files dirs calls trace]. rewrite app_nil_r. reflexivity.
Qed.

(** C3, as the code has it. A query whose stored result set has no rows makes
    [query_to_csv] raise "No data returned from Dune query" without writing a
    file; the loop of [main] stops there, whatever ids remain, and [main]
    prints the error and returns: after the run the disk is unchanged and
    exactly one HTTP call was made. *)
Theorem empty_result_stops_the_batch (env : environment) (key : string)
    (query_id : Z) (rest : list Z) (w : world) (d : document) :
  key ≠ "" →
  ok_reply env (calls w) (results_request (dune_client (client_of key)) query_id) d →
  result_rows d = [] →
  let err := Exception "No data returned from Dune query" in
  let filename := "morpho_vault_data_" +:+ pretty query_id +:+ ".csv" in
  query_to_csv env 0 (client_of key) query_id (Some filename) false w
  = (Raises err, advance w 1 [])
  ∧ (∀ total i,
       export_all env (client_of key) total i (query_id :: rest) w
       = (Raises err, advance w 1 [processing_line total i query_id]))
  ∧ ∃ w', main_on (query_id :: rest) env (Some key) w = (Returns tt, w')
          ∧ files w' = files w
          ∧ calls w' = S (calls w)
          ∧ last (trace w') = Some (PrintError "Error" err).
Proof.
  intros Hkey Hok Hrows err filename.
  split; [exact (query_to_csv_no_rows _ _ _ _ _ _ _ Hok Hrows)|].
  split; [intros total i; exact (export_all_no_rows _ _ _ _ _ _ _ _ Hok Hrows)|].
  unfold main_on. destruct key as [|a key]; [done|].
  unfold bind at 1. unfold DuneToCSV_init, CSVExporter_init.
  unfold bind at 1. unfold bind at 1. unfold path_exists at 1.
  set (there := is_file w "output" || is_dir w "output").
  set (w1 := if there then w
             else {| files := files w; dirs := {["output"]} ∪ dirs w;
                     calls := calls w; trace := trace w |}).
  assert (Hinit : ((if there then ret () else makedirs "output") ;;
                   ret {| output_dir := "output" |}) w
                  = (Returns {| output_dir := "output" |}, w1)).
  { subst w1. unfold bind. destruct there; reflexivity. }
  rewrite Hinit. unfold ret at 1.
  assert (Hf : files w1 = files w) by (subst w1; destruct there; reflexivity).
  assert (Hc : calls w1 = calls w) by (subst w1; destruct there; reflexivity).
  unfold try_except. unfold bind at 1. unfold print at 1.
  fold (client_of (String a key)).
  erewrite export_all_no_rows; [| cbn [calls]; rewrite Hc; exact Hok | exact Hrows].
  eexists. split; [reflexivity|].
  cbn [files calls trace advance]. rewrite Hf, Hc.
  split; [reflexivity|]. split; [lia|]. apply last_snoc.
Qed.

Lemma empty_result_stops_the_batch_witness :
  ∃ w', dune_to_sheets.main first_empty_remote (Some "key") w0 = (Returns tt, w')
        ∧ files w' = files w0
        ∧ calls w' = 1%nat
        ∧ last (trace w')
          = Some (PrintError "Error" (Exception "No data returned from Dune query")).
Proof.
  refine (proj2 (proj2 (empty_result_stops_the_batch first_empty_remote "key"
                          5455942 [5462213; 5462219; 5462222] w0 (with_rows []) _ _ _))).
  - discriminate.
  - apply ok_reply_intro. reflexivity.
  - reflexivity.
Defined.

(** C3, as the claim states it, fails: the loop does not go on with the
    remaining ids after a query without rows.  On [first_empty_remote] the
    second id has a row to save, and still the run of [main] makes one call
    and leaves no file for it. *)
Lemma batch_does_not_continue_after_empty_result :
  ¬ (∀ (env : environment) (client : DuneToCSV) (total i : nat) (query_id : Z)
       (rest : list Z) (w : world) (d : document),
       ok_reply env (calls w) (results_request (dune_client client) query_id) d →
       result_rows d = [] →
       ∃ out, export_all env client total i (query_id :: rest) w
              = export_all env client total (S i) rest (advance w 1 out))
  ∧ (let run := dune_to_sheets.main first_empty_remote (Some "key") w0 in
     run.1 = Returns tt
     ∧ calls run.2 = 1%nat
     ∧ files run.2 !! "output/morpho_vault_data_5462213.csv" = None
     ∧ is_Some (files (query_to_csv first_empty_remote 0 exporter 5462213
                         (Some "morpho_vault_data_5462213.csv") false run.2).2
                !! "output/morpho_vault_data_5462213.csv")).
Proof.
  split.
  - intros H.
    destruct (H first_empty_remote exporter 2%nat 1%nat 5455942 [5462213] w0 (with_rows []))
      as [out Heq].
    + apply ok_reply_intro. reflexivity.
    + reflexivity.
    + apply (f_equal fst) in Heq. vm_compute in Heq. discriminate Heq.
  - split; [vm_compute; reflexivity|]. split; [vm_compute; reflexivity|].
    split; [vm_compute; reflexivity|]. vm_compute. eauto.
Qed.

(** * The historical-series fetcher *)

(** On an entry with the four keys every lookup succeeds, and the loop body
    is the one of the script with the texts of the entry in place. *)
Lemma process_vault_body env v :
  process_vault env v
  = (print (Print ("Processing " +:+ symbol v +:+ " with pool_id: " +:+ pool_id v)) ;;
     do historical_data <- get_historical_data env (pool_id v);
     match historical_data with
     | Some ((_ :: _) as data) =>
         let df := DataFrame_of_records data in
         let filename := csv_name v in
         write_file filename (to_csv df true) ;;
         print (Print ("Saved historical data to " +:+ filename))
     | _ => print (Print ("No historical data available for " +:+ symbol v))
     end).
Proof.
  unfold process_vault, process_entry, entry_of, subscript, format, csv_name.
  cbn [json_get String.eqb Ascii.eqb Bool.eqb].
  unfold bind at 1. unfold ret at 1. unfold bind at 1. unfold ret at 1.
  f_equal.
Qed.

Lemma for_each_entries env (vaults : list vault) :
  for_each (process_entry env) (map entry_of vaults) = for_each (process_vault env) vaults.
Proof. induction vaults as [|v vaults IH]; [done|]. cbn [map for_each]. by rewrite IH. Qed.

(** [main] of the fetcher on a file that lists entries with the four keys. *)
Lemma fetcher_main_loaded env vaults :
  morpho_vaults_json env = Loaded vaults →
  defi_llama_validation.main env = for_each (process_vault env) vaults.
Proof.
  intros H. unfold defi_llama_validation.main, load_vaults, json_load. rewrite H.
  unfold Loaded. unfold bind at 1. unfold ret at 1. unfold bind at 1. unfold iterate, ret.
  by rewrite for_each_entries.
Qed.




(** The run of the lemma above: the refused vault leaves no file, the next
    one is fetched and saved. *)
Example fetcher_run :
  let run := defi_llama_validation.main first_refused_remote w0 in
  run.1 = Returns tt
  ∧ calls run.2 = 2%nat
  ∧ map fst (map_to_list (files run.2)) = ["data/validation/morpho-blue_Base_WETH.csv"].
Proof. vm_compute. repeat split; reflexivity. Qed.

(** * The cross-source validator *)

Lemma create_validation_file_unfold (defillama_df dune_df : series)
    (filename : string) (w : world) :
  let merged := sort_values (merge_outer defillama_df dune_df) in
  let output_path := "data/validation/validation_" +:+ filename in
  create_validation_file defillama_df dune_df filename w
  = (Returns (Some merged),
     {| files := <[output_path := to_csv (frame_of_merged merged) true]> (files w);
        dirs := dirs w; calls := calls w;
        trace := trace w ++ report output_path merged |}).
Proof.
  intros merged output_path.
  unfold create_validation_file, try_except. fold merged.
  change (path_join validation_dir ("validation_" +:+ filename)) with output_path.
  unfold report, correlation_lines, bind, write_file, print, ret.
  cbn [files dirs calls trace].
  destruct (1 <? both_count merged)%nat;
    [destruct (1 <? length (dropna merged))%nat|];
    cbn [files dirs calls trace]; rewrite <- ?app_assoc; cbn [app];
    rewrite ?app_nil_r; reflexivity.
Qed.

(** C4, as the code has it. The validator's three directories are pairwise
    distinct, and the fetcher's output directory is the one the validator
    writes into: every file the fetcher names lies under data/validation and
    is a child neither of data/defillama nor of data/dune; processing a
    vault touches no other path, and neither does writing a validation
    file. *)
Theorem fetcher_writes_into_validation_dir :
  defillama_dir ≠ dune_dir ∧ defillama_dir ≠ validation_dir ∧ dune_dir ≠ validation_dir
  ∧ OUTPUT_DIR = validation_dir
  ∧ (∀ v : vault,
       String.prefix (validation_dir +:+ "/") (csv_name v) = true
       ∧ csv_child defillama_dir (csv_name v) = None
       ∧ csv_child dune_dir (csv_name v) = None)
  ∧ (∀ (env : environment) (v : vault) (w : world) (path : string),
       path ≠ csv_name v → files (process_vault env v w).2 !! path = files w !! path)
  ∧ (∀ (defillama_df dune_df : series) (filename : string) (w : world) (path : string),
       path ≠ validation_dir +:+ "/validation_" +:+ filename →
       files (create_validation_file defillama_df dune_df filename w).2 !! path
       = files w !! path).
Proof.
  split; [discriminate|]. split; [discriminate|]. split; [discriminate|].
  split; [reflexivity|].
  split; [intros v; cbv [csv_name OUTPUT_DIR validation_dir defillama_dir dune_dir
                         csv_child strip_prefix]; simpl; rewrite prefix_empty; done|].
  split.
  - intros env v w path Hne. rewrite process_vault_body.
    unfold bind at 1. unfold print at 1. unfold bind at 1.
    match goal with |- context [get_historical_data env (pool_id v) ?w1] =>
      assert (Hg : files (get_historical_data env (pool_id v) w1).2 = files w)
    end.
    { unfold get_historical_data. cbn zeta. unfold bind at 1. unfold print at 1.
      unfold bind at 1. unfold send. cbn [calls files dirs trace].
      destruct (http env _ _) as [|r]; [reflexivity|].
      destruct (negb (status_code r =? 200)); [reflexivity|].
      unfold bind, json. destruct (body r) as [d|]; [|reflexivity].
      unfold ret at 1. destruct (doc_data d) as [[|? ?]|]; reflexivity. }
    destruct (get_historical_data env (pool_id v) _) as [[[[|x l]|]|e|] w2];
      cbn [snd] in Hg; cbn; rewrite ?Hg; try reflexivity.
    by rewrite lookup_insert_ne.
  - intros l r filename w path Hne. rewrite create_validation_file_unfold.
    cbn [snd files]. by rewrite lookup_insert_ne.
Qed.

(** C4, as the claim states it, fails: the file the fetcher writes for a
    vault is no child of data/defillama, the directory the validator scans;
    it is a child of data/validation, the directory the validator writes
    into. *)
Lemma fetcher_output_is_not_scanned :
  let w := (defi_llama_validation.main first_refused_remote w0).2 in
  csv_child defillama_dir (csv_name weth_vault) = None
  ∧ csv_child validation_dir (csv_name weth_vault) = Some "morpho-blue_Base_WETH.csv"
  ∧ is_Some (files w !! csv_name weth_vault)
  ∧ (glob_csv defillama_dir w).1 = Returns []
  ∧ (glob_csv validation_dir w).1 = Returns ["morpho-blue_Base_WETH.csv"]
  ∧ ¬ (OUTPUT_DIR = defillama_dir ∧ OUTPUT_DIR ≠ validation_dir).
Proof.
  split; [reflexivity|]. split; [reflexivity|]. split; [vm_compute; eauto|].
  split; [vm_compute; reflexivity|]. split; [vm_compute; reflexivity|].
  intros [H _]. discriminate H.
Qed.

(** C9, as the code has it.  When morpho_vaults.json is missing or is not
    JSON, the fetcher's [main] raises before it does anything (the world is
    untouched), while the validator's [main] prints the error, takes the
    vault list as empty and goes on to look for matching files and process
    them.  When the file cannot be opened or read for another reason, both
    raise that exception; when it holds JSON null, a flag or a number, both
    raise TypeError: the fetcher at its loop, the validator at [len], each
    before any item, and the validator prints no error.  JSON of any other
    shape does not stop the validator, which only counts its items; the
    fetcher raises TypeError, before any request, when the first item it
    meets is not an object. *)
Theorem missing_vault_file_stops_fetcher_only (pd : pandas) (env : environment)
    (w : world) :
  let started := advance w 0 [Print "Starting TVL validation process..."] in
  (unreadable (morpho_vaults_json env) →
   (∃ e, defi_llama_validation.main env w = (Raises e, w))
   ∧ ∃ message,
       (message = "Error: morpho_vaults.json not found"
        ∨ message = "Error: Invalid JSON in morpho_vaults.json")
       ∧ validation.main pd env w
         = process_matching_files pd
             (advance w 0 [Print "Starting TVL validation process...";
                           Print message;
                           Print "Loaded 0 vaults from morpho_vaults.json"]))
  ∧ (∀ e, morpho_vaults_json env = Refused e → uncaught e →
          defi_llama_validation.main env w = (Raises e, w)
          ∧ validation.main pd env w = (Raises e, started))
  ∧ (∀ j, morpho_vaults_json env = Parsed j → scalar j →
          defi_llama_validation.main env w = (Raises TypeError, w)
          ∧ validation.main pd env w = (Raises TypeError, started))
  ∧ (∀ j n, morpho_vaults_json env = Parsed j → sized j n →
            validation.main pd env w
            = process_matching_files pd
                (advance w 0 [Print "Starting TVL validation process...";
                              Print ("Loaded " +:+ pretty n
                                     +:+ " vaults from morpho_vaults.json")]))
  ∧ (∀ j x, morpho_vaults_json env = Parsed j → first_item j x →
            (∀ fields, x ≠ JObject fields) →
            defi_llama_validation.main env w = (Raises TypeError, w)).
Proof.
  intros started.
  assert (Hstarted : {| files := files w; dirs := dirs w; calls := calls w;
                        trace := trace w ++ [Print "Starting TVL validation process..."] |}
                     = started).
  { unfold started, advance. by rewrite Nat.add_0_r. }
  split; [|split; [|split; [|split]]].
  - intros Hbad. split.
    + unfold defi_llama_validation.main, load_vaults, json_load, bind.
      destruct Hbad as [-> | ->]; eexists; reflexivity.
    + unfold validation.main, load_morpho_vaults, json_load.
      destruct Hbad as [-> | ->];
        [exists "Error: morpho_vaults.json not found"; split; [left; reflexivity|]
        |exists "Error: Invalid JSON in morpho_vaults.json"; split; [right; reflexivity|]];
        unfold bind, print, ret, raise, advance; cbn [files dirs calls trace length len];
        unfold ret; cbn [files dirs calls trace];
        rewrite <- !app_assoc, Nat.add_0_r; reflexivity.
  - intros e He [Hfile Hjson]. split.
    + unfold defi_llama_validation.main, load_vaults, json_load, bind. by rewrite He.
    + unfold validation.main, load_morpho_vaults, json_load. rewrite He.
      unfold bind, print, raise. cbn [files dirs calls trace]. rewrite Hstarted.
      destruct e as [msg|code| | |p| |k|msg]; try reflexivity;
        [done | by destruct (Hfile p)].
  - intros j Hj Hscalar. split.
    + unfold defi_llama_validation.main, load_vaults, json_load, bind. rewrite Hj.
      unfold ret. by destruct Hscalar as [-> | [[b ->] | [q ->]]].
    + unfold validation.main, load_morpho_vaults, json_load. rewrite Hj.
      unfold bind, print, ret. cbn [files dirs calls trace]. rewrite Hstarted.
      by destruct Hscalar as [-> | [[b ->] | [q ->]]].
  - intros j n Hj Hsized.
    unfold validation.main, load_morpho_vaults, json_load. rewrite Hj.
    unfold bind at 1. unfold print at 1. unfold bind at 1. unfold ret at 1.
    unfold bind at 1.
    assert (Hlen : ∀ w1, len j w1 = (Returns n, w1)).
    { intros w1. by destruct Hsized as [(items & -> & ->) | [(fields & -> & ->) | (s & -> & ->)]]. }
    rewrite Hlen. unfold bind at 1. unfold print at 1. f_equal.
    unfold advance. cbn [files dirs calls trace]. by rewrite <- app_assoc, Nat.add_0_r.
  - intros j x Hj Hfirst Hx.
    unfold defi_llama_validation.main, load_vaults, json_load. rewrite Hj.
    unfold bind at 1. unfold ret at 1. unfold bind at 1.
    assert (Hentry : ∀ w1, process_entry env x w1 = (Raises TypeError, w1)).
    { intros w1. unfold process_entry, bind, subscript.
      destruct x; try reflexivity. by destruct (Hx fields). }
    destruct Hfirst as [(rest & ->) | [(k & v & rest & -> & ->) | (c & s & -> & ->)]];
      unfold iterate, ret; cbn [map String.list_ascii_of_string fst for_each];
      unfold bind at 1; by rewrite Hentry.
Qed.

Lemma missing_vault_file_stops_fetcher_only_witness :
  (∃ e, defi_llama_validation.main (no_remote Absent) paired_disk = (Raises e, paired_disk))
  ∧ ∃ message,
      (message = "Error: morpho_vaults.json not found"
       ∨ message = "Error: Invalid JSON in morpho_vaults.json")
      ∧ validation.main toy_pandas (no_remote Absent) paired_disk
        = process_matching_files toy_pandas
            (advance paired_disk 0 [Print "Starting TVL validation process...";
                                    Print message;
                                    Print "Loaded 0 vaults from morpho_vaults.json"]).
Proof.
  apply (proj1 (missing_vault_file_stops_fetcher_only toy_pandas (no_remote Absent)
                  paired_disk)).
  left. reflexivity.
Defined.

(** With JSON null in the file neither script reaches an item, and the
    validator's run ends in the TypeError of [len] after its first line; with
    a JSON object in the file the validator counts the keys and goes on. *)
Example vault_file_of_another_shape :
  defi_llama_validation.main (no_remote (Parsed JNull)) paired_disk
  = (Raises TypeError, paired_disk)
  ∧ validation.main toy_pandas (no_remote (Parsed JNull)) paired_disk
    = (Raises TypeError,
       advance paired_disk 0 [Print "Starting TVL validation process..."])
  ∧ (validation.main toy_pandas (no_remote (Parsed (JObject [("vaults", JList [])])))
       paired_disk).1 = Returns tt
  ∧ defi_llama_validation.main (no_remote (Parsed (JObject [("vaults", JList [])])))
      paired_disk
    = (Raises TypeError, paired_disk).
Proof. repeat split; vm_compute; reflexivity. Qed.

(** C9, as the claim states it, fails for the validator: with
    morpho_vaults.json missing, the run reports the error and still
    processes the matching pair, down to the validation file. *)
Lemma validator_runs_without_vault_file :
  let run := validation.main toy_pandas (no_remote Absent) paired_disk in
  run.1 = Returns tt
  ∧ files run.2 !! "data/validation/validation_usdc.csv"
    = Some [Header ["date"; "tvl_defillama"; "tvl_dune"];
            Row [VDate 19723; VNum 100; VNum 95];
            Row [VDate 19724; VNum 110; VNull]]
  ∧ trace run.2
    = [Print "Starting TVL validation process...";
       Print "Error: morpho_vaults.json not found";
       Print "Loaded 0 vaults from morpho_vaults.json";
       Print "Found matching files: usdc.csv";
       Print "Processing 1 matching file pairs...";
       Print "--- Processing usdc.csv ---";
       PrintValues "Reading data/defillama/usdc.csv - Shape" [VNum 2; VNum 3];
       PrintValues "Reading data/dune/usdc.csv - Shape" [VNum 1; VNum 2];
       Print "Created validation file: data/validation/validation_usdc.csv";
       PrintValues "Shape" [VNum 2; VNum 3];
       PrintValues "Date range" [VDate 19723; VDate 19724];
       PrintValues "Records with DeFi Llama TVL" [VNum 2];
       PrintValues "Records with Dune TVL" [VNum 1];
       PrintValues "Records with both" [VNum 1]].
Proof.
  split; [vm_compute; reflexivity|]. split; vm_compute; reflexivity.
Qed.

(** ** Aggregation *)

Lemma ascending_NoDup (dates : list Z) : ascending dates → NoDup dates.
Proof.
  induction 1 as [|d ds Hs IH Hall]; constructor; [|exact IH].
  intros Hin. rewrite Forall_forall in Hall. specialize (Hall d Hin). lia.
Qed.

Lemma add_sample_dates d v groups x :
  x ∈ map fst (add_sample d v groups) ↔ x = d ∨ x ∈ map fst groups.
Proof.
  induction groups as [|[d' vs] rest IH]; cbn [add_sample map fst].
  - rewrite list_elem_of_singleton, elem_of_nil. tauto.
  - destruct (Z.ltb_spec d d'); [cbn [map fst]; by rewrite elem_of_cons|].
    destruct (Z.eqb_spec d d') as [-> | Hne]; cbn [map fst].
    + rewrite elem_of_cons. tauto.
    + rewrite !elem_of_cons, IH. tauto.
Qed.

Lemma add_sample_ascending d v groups :
  ascending (map fst groups) → ascending (map fst (add_sample d v groups)).
Proof.
  unfold ascending. induction groups as [|[d' vs] rest IH]; cbn [add_sample map fst]; intros Hs.
  - repeat constructor.
  - apply StronglySorted_inv in Hs as [Hrest Hall].
    destruct (Z.ltb_spec d d').
    + cbn [map fst]. constructor; [by constructor|].
      constructor; [lia|]. eapply Forall_impl; [exact Hall|]. intros y Hy. lia.
    + destruct (Z.eqb_spec d d'); cbn [map fst]; [by constructor|].
      constructor; [by apply IH|].
      apply Forall_forall. intros x Hx. apply add_sample_dates in Hx as [-> | Hx]; [lia|].
      rewrite Forall_forall in Hall. by apply Hall.
Qed.

Lemma group_of_absent d groups : d ∉ map fst groups → group_of d groups = [].
Proof.
  induction groups as [|[d' vs] rest IH]; cbn [group_of map fst]; [done|].
  intros Hn. apply not_elem_of_cons in Hn as [Hne Hn].
  destruct (Z.eqb_spec d d'); [done | by apply IH].
Qed.

Lemma add_sample_group d v groups x :
  ascending (map fst groups) →
  group_of x (add_sample d v groups)
  = if x =? d then group_of d groups ++ [v] else group_of x groups.
Proof.
  unfold ascending. revert x.
  induction groups as [|[d' vs] rest IH]; cbn [add_sample map fst]; intros x Hs.
  - cbn. by destruct (x =? d).
  - apply StronglySorted_inv in Hs as [Hrest Hall].
    destruct (Z.ltb_spec d d').
    + cbn [group_of]. destruct (Z.eqb_spec x d) as [Hx | Hx]; [|done].
      destruct (Z.eqb_spec d d'); [lia|].
      rewrite group_of_absent; [done|].
      intros Hin. rewrite Forall_forall in Hall. specialize (Hall d Hin). lia.
    + destruct (Z.eqb_spec d d') as [Hd | Hd].
      * subst d'. cbn [group_of]. rewrite Z.eqb_refl. by destruct (x =? d).
      * cbn [group_of]. rewrite IH by done.
        destruct (Z.eqb_spec x d') as [Hx | Hx].
        -- subst x. destruct (Z.eqb_spec d' d); [lia | done].
        -- destruct (Z.eqb_spec x d) as [Hxd | Hxd]; [|done].
           destruct (Z.eqb_spec d d'); [lia | done].
Qed.

Lemma group_of_elem d vs groups :
  ascending (map fst groups) → (d, vs) ∈ groups → group_of d groups = vs.
Proof.
  unfold ascending. induction groups as [|[d' vs'] rest IH]; cbn [map fst group_of]; intros Hs Hin.
  - by apply elem_of_nil in Hin.
  - apply StronglySorted_inv in Hs as [Hrest Hall].
    apply elem_of_cons in Hin as [Heq | Hin].
    + injection Heq as -> ->. by rewrite Z.eqb_refl.
    + destruct (Z.eqb_spec d d') as [-> | Hne]; [|by apply IH].
      rewrite Forall_forall in Hall.
      assert (d' ∈ map fst rest) by (apply elem_of_map; by exists (d', vs)).
      specialize (Hall d' ltac:(done)). lia.
Qed.

Lemma groupby_date_snoc samples s :
  groupby_date (samples ++ [s])
  = match fst s with
    | None => groupby_date samples
    | Some d => add_sample d (snd s) (groupby_date samples)
    end.
Proof. unfold groupby_date. by rewrite fold_left_app. Qed.

Lemma values_on_snoc d samples s :
  values_on d (samples ++ [s])
  = values_on d samples ++ (if bool_decide (fst s = Some d) then [snd s] else []).
Proof.
  unfold values_on. rewrite List.filter_app, map_app. cbn [List.filter].
  by destruct (bool_decide (fst s = Some d)).
Qed.

Lemma groupby_date_spec samples :
  ascending (map fst (groupby_date samples))
  ∧ (∀ d, d ∈ map fst (groupby_date samples) ↔ Some d ∈ map fst samples)
  ∧ (∀ d, group_of d (groupby_date samples) = values_on d samples).
Proof.
  induction samples as [|[key v] samples (Hs & Hd & Hg)] using rev_ind.
  - split; [constructor|]. split; [|done]. intros d. cbn. by rewrite !elem_of_nil.
  - rewrite groupby_date_snoc. cbn [fst snd]. destruct key as [d0|].
    + split; [by apply add_sample_ascending|]. split.
      * intros d. rewrite add_sample_dates, Hd, map_app, elem_of_app. cbn [map fst].
        rewrite list_elem_of_singleton. split.
        -- intros [-> | ?]; [by right | by left].
        -- intros [? | Heq]; [by right | left; congruence].
      * intros d. rewrite add_sample_group by done. rewrite values_on_snoc. cbn [fst snd].
        destruct (Z.eqb_spec d d0) as [-> | Hne].
        -- rewrite bool_decide_eq_true_2 by done. by rewrite Hg.
        -- rewrite bool_decide_eq_false_2 by congruence. by rewrite app_nil_r.
    + split; [done|]. split.
      * intros d. rewrite Hd, map_app, elem_of_app. cbn [map fst].
        rewrite list_elem_of_singleton. split; [tauto | intros [? | ?]; [done | discriminate]].
      * intros d. rewrite values_on_snoc. cbn [fst].
        rewrite bool_decide_eq_false_2 by discriminate. by rewrite app_nil_r.
Qed.

Lemma aggregate_dates samples :
  map fst (aggregate samples) = map fst (groupby_date samples).
Proof. unfold aggregate. rewrite map_map. reflexivity. Qed.

Lemma mean_arithmetic (vs : list (option Q)) : mean vs = arithmetic_mean vs.
Proof.
  unfold mean, arithmetic_mean.
  assert (H : omap id vs = present vs).
  { induction vs as [|[q|] vs IH]; [done| |]; cbn; by rewrite ?IH. }
  rewrite H.
  assert (Hsum : ∀ xs, Qsum xs = total xs).
  { induction xs as [|x xs IH]; [done|]. cbn. by rewrite <- IH. }
  destruct (present vs) as [|x xs]; [done|]. by rewrite Hsum.
Qed.

Lemma numeric_number (v : value) (n : option Q) :
  numeric v = Some n → number v = n ∧ ¬ textual v.
Proof.
  destruct v as [| [] | | |]; cbn; intros [= <-];
    (split; [reflexivity | intros H; exact H]).
Qed.

Lemma numeric_not_textual (v : value) : ¬ textual v → numeric v = Some (number v).
Proof. destruct v as [| [] | | |]; cbn; intros H; try done; by destruct H. Qed.

Lemma kept_samples (dates : list (option Z)) : ∀ (cells : list value) values groups,
  mapM numeric
    (map snd (List.filter (fun x : option Z * value => bool_decide (is_Some (fst x)))
                          (zip dates cells))) = Some values →
  fold_left group_step
    (zip (map fst (List.filter (fun x : option Z * value => bool_decide (is_Some (fst x)))
                               (zip dates cells))) values) groups
  = fold_left group_step (zip dates (map number cells)) groups
  ∧ ∀ k d v, dates !! k = Some (Some d) → cells !! k = Some v → ¬ textual v.
Proof.
  induction dates as [|date dates IH]; intros cells values groups Hm.
  - split; [done|]. intros k d v Hk. by rewrite lookup_nil in Hk.
  - destruct cells as [|c cells].
    { split; [done|]. intros k d v _ Hk. by rewrite lookup_nil in Hk. }
    cbn [zip zip_with List.filter fst] in *. destruct date as [d0|].
    + rewrite bool_decide_eq_true_2 in * by by eexists.
      cbn [map snd fst] in *. cbn [mapM] in Hm.
      destruct (numeric c) as [n|] eqn:Hc; [|discriminate Hm]. cbn in Hm.
      destruct (mapM numeric _) as [values'|] eqn:Hrest; [|discriminate Hm].
      cbn in Hm. injection Hm as <-.
      destruct (numeric_number c n Hc) as [Hn Htext].
      destruct (IH cells values' (add_sample d0 n groups) Hrest) as [Hfold Hall].
      split.
      * cbn [zip zip_with fold_left].
        change (group_step groups (Some d0, n)) with (add_sample d0 n groups).
        change (group_step groups (Some d0, number c))
          with (add_sample d0 (number c) groups).
        rewrite Hn. exact Hfold.
      * intros [|k] d v Hk Hv; cbn in Hk, Hv.
        -- by injection Hv as <-.
        -- by apply (Hall k d v).
    + rewrite bool_decide_eq_false_2 in * by by intros [? ?].
      destruct (IH cells values groups Hm) as [Hfold Hall]. split.
      * cbn [zip zip_with fold_left].
        change (group_step groups (None, number c)) with groups. exact Hfold.
      * intros [|k] d v Hk Hv; cbn in Hk, Hv; [discriminate Hk|]. by apply (Hall k d v).
Qed.

Lemma dated_numeric (dates : list (option Z)) : ∀ (cells : list value),
  (∀ k d v, dates !! k = Some (Some d) → cells !! k = Some v → ¬ textual v) →
  is_Some (mapM numeric
             (map snd (List.filter (fun x : option Z * value => bool_decide (is_Some (fst x)))
                                   (zip dates cells)))).
Proof.
  induction dates as [|date dates IH]; intros cells Hall; [by eexists|].
  destruct cells as [|c cells]; [by eexists|].
  cbn [zip zip_with List.filter fst].
  destruct (IH cells) as [values Hv].
  { intros k d v Hk Hc. by apply (Hall (S k) d v). }
  destruct date as [d0|].
  - rewrite bool_decide_eq_true_2 by by eexists. cbn [map snd mapM].
    rewrite (numeric_not_textual c) by exact (Hall 0%nat d0 c eq_refl eq_refl).
    cbn. rewrite Hv. by eexists.
  - rewrite bool_decide_eq_false_2 by by intros [? ?]. by eexists.
Qed.

Lemma dated_lookup (stamps : list stamp) (k : nat) (d : Z) :
  map date_of stamps !! k = Some (Some d)
  ↔ ∃ ns, stamps !! k = Some (At ns) ∧ date_of (At ns) = Some d.
Proof.
  rewrite list_lookup_fmap. destruct (stamps !! k) as [[|ns]|]; cbn.
  - split; [discriminate | intros (? & H & _); discriminate H].
  - split.
    + intros [= <-]. exists ns. split; reflexivity.
    + intros (ns0 & [= <-] & H). by rewrite H.
  - split; [discriminate | intros (? & H & _); discriminate H].
Qed.

Ltac use_equations :=
  repeat match goal with
         | H : _ = _ |- _ => rewrite H
         end.

Ltac no_correlation :=
  let H := fresh in
  intros ? ? H;
  repeat (apply elem_of_cons in H as [H | H]; [discriminate H|]);
  by apply elem_of_nil in H.

Lemma aggregate_fold samples :
  aggregate samples
  = map (fun g => (fst g, mean (snd g))) (fold_left group_step samples []).
Proof. reflexivity. Qed.

Lemma extract_tvl_data_cases pd csv_path source_name w :
  ∃ o out, extract_tvl_data pd csv_path source_name w = (Returns o, advance w 0 out)
    ∧ (∀ xs ys, PrintCorrelation xs ys ∉ out)
    ∧ (∀ w1, files w1 = files w →
             extract_tvl_data pd csv_path source_name w1 = (Returns o, advance w1 0 out))
    ∧ (∀ s, o = Some s
            ↔ ∃ content, files w !! csv_path = Some content ∧ taken_from pd content s).
Proof.
  assert (Hw : ∀ w out, {| files := files w; dirs := dirs w; calls := calls w;
                           trace := trace w ++ out |} = advance w 0 out).
  { intros. unfold advance. by rewrite Nat.add_0_r. }
  assert (Hrun : ∃ o out,
            (∀ w1, files w1 = files w →
                   extract_tvl_data pd csv_path source_name w1 = (Returns o, advance w1 0 out))
            ∧ (∀ xs ys, PrintCorrelation xs ys ∉ out)
            ∧ (∀ s, o = Some s
                    ↔ ∃ content, files w !! csv_path = Some content
                                 ∧ taken_from pd content s)).
  2:{ destruct Hrun as (o & out & H1 & H2 & H3). exists o, out.
      split; [by apply H1|]. split; [exact H2|]. split; [exact H1 | exact H3]. }
  unfold taken_from, column_at.
  destruct (files w !! csv_path) as [content|] eqn:Hfile.
  2:{ do 2 eexists. split; [|split].
      - intros w1 Hf. unfold extract_tvl_data, try_except, bind, read_csv, print, ret.
        rewrite Hf, Hfile. cbn [files dirs calls trace]. rewrite Hw. reflexivity.
      - no_correlation.
      - intros s. split; [discriminate|]. intros (c & Hc & _). discriminate Hc. }
  destruct (pd_read_csv pd content) as [e|df] eqn:Hread.
  { do 2 eexists. split; [|split].
    - intros w1 Hf. unfold extract_tvl_data, try_except, bind, read_csv, print, ret.
      rewrite Hf, Hfile, Hread. cbn [files dirs calls trace]. rewrite Hw. reflexivity.
    - no_correlation.
    - intros s. split; [discriminate|].
      intros (c & [= <-] & df' & i & j & stamps & H1 & _). congruence. }
  destruct (find_column is_date_column (columns df)) as [i|] eqn:Hi.
  2:{ do 2 eexists. split; [|split].
      - intros w1 Hf. unfold extract_tvl_data, try_except, bind, read_csv, print, ret.
        rewrite Hf, Hfile, Hread. cbn [files dirs calls trace]. rewrite Hi.
        cbn [files dirs calls trace]. rewrite <- ?app_assoc, Hw. reflexivity.
      - no_correlation.
      - intros s. split; [discriminate|].
        intros (c & [= <-] & df' & i & j & stamps & H1 & H2 & _). congruence. }
  destruct (find_column is_tvl_column (columns df)) as [j|] eqn:Hj.
  2:{ do 2 eexists. split; [|split].
      - intros w1 Hf. unfold extract_tvl_data, try_except, bind, read_csv, print, ret.
        rewrite Hf, Hfile, Hread. cbn [files dirs calls trace]. rewrite Hi, Hj.
        cbn [files dirs calls trace]. rewrite <- ?app_assoc, Hw. reflexivity.
      - no_correlation.
      - intros s. split; [discriminate|].
        intros (c & [= <-] & df' & i' & j & stamps & H1 & H2 & H3 & _). congruence. }
  destruct (pd_to_datetime pd (map (fun row => nth i row VNull) (rows df)))
    as [stamps|] eqn:Hs.
  2:{ do 2 eexists. split; [|split].
      - intros w1 Hf. unfold extract_tvl_data, try_except, bind, read_csv, print, ret.
        rewrite Hf, Hfile, Hread. cbn [files dirs calls trace]. rewrite Hi, Hj.
        rewrite !map_map. cbn [fst snd]. rewrite Hs.
        cbn [files dirs calls trace]. rewrite <- ?app_assoc, Hw. reflexivity.
      - no_correlation.
      - intros s. split; [discriminate|].
        intros (c & [= <-] & df' & i' & j' & stamps & H1 & H2 & H3 & H4 & _).
        assert (df' = df) as -> by congruence.
        assert (i' = i) as -> by congruence. congruence. }
  set (cells := map (fun row => nth j row VNull) (rows df)).
  set (kept := List.filter (fun x : option Z * value => bool_decide (is_Some (fst x)))
                           (zip (map date_of stamps) cells)).
  destruct (mapM numeric (map snd kept)) as [values|] eqn:Hv.
  - destruct (kept_samples (map date_of stamps) cells values [] Hv) as [Hfold Htext].
    do 2 eexists. split; [|split].
    + intros w1 Hf. unfold extract_tvl_data, try_except, bind, read_csv, print, ret.
      rewrite Hf, Hfile, Hread. cbn [files dirs calls trace]. rewrite Hi, Hj.
      rewrite !map_map. cbn [fst snd]. rewrite Hs. fold cells. fold kept. rewrite Hv.
      cbn [files dirs calls trace]. rewrite <- ?app_assoc, Hw. reflexivity.
    + no_correlation.
    + assert (Hsame : aggregate (zip (map fst kept) values)
                      = aggregate (samples_of stamps cells)).
      { rewrite !aggregate_fold. unfold samples_of, kept. by rewrite Hfold. }
      intros s. split.
      * intros [= <-]. exists content. split; [done|]. exists df, i, j, stamps.
        split; [done|]. split; [done|]. split; [done|]. split; [done|]. split; [|done].
        intros k t v Ht Hc Hnat. destruct t as [|ns]; [done|].
        apply (Htext k (ns `div` 86400000000000) v); [|exact Hc].
        apply dated_lookup. by exists ns.
      * intros (c & [= <-] & df' & i' & j' & stamps' & H1 & H2 & H3 & H4 & _ & ->).
        assert (df' = df) as -> by congruence.
        assert (i' = i) as -> by congruence. assert (j' = j) as -> by congruence.
        assert (stamps' = stamps) as -> by congruence.
        by rewrite Hsame.
  - do 2 eexists. split; [|split].
    + intros w1 Hf. unfold extract_tvl_data, try_except, bind, read_csv, print, ret, raise.
      rewrite Hf, Hfile, Hread. cbn [files dirs calls trace]. rewrite Hi, Hj.
      rewrite !map_map. cbn [fst snd]. rewrite Hs. fold cells. fold kept. rewrite Hv.
      cbn [files dirs calls trace]. rewrite <- ?app_assoc, Hw. reflexivity.
    + no_correlation.
    + intros s. split; [discriminate|].
      intros (c & [= <-] & df' & i' & j' & stamps' & H1 & H2 & H3 & H4 & Htext & _).
      assert (df' = df) as -> by congruence.
      assert (i' = i) as -> by congruence. assert (j' = j) as -> by congruence.
      assert (stamps' = stamps) as -> by congruence.
      destruct (dated_numeric (map date_of stamps) cells) as [values Hvalues].
      * intros k d v Hk Hc. apply dated_lookup in Hk as (ns & Hk & _).
        by apply (Htext k (At ns) v).
      * fold kept in Hvalues. congruence.
Qed.

Lemma extract_tvl_data_extracted pd csv_path source_name w w' s :
  extract_tvl_data pd csv_path source_name w = (Returns (Some s), w') →
  extracted s.
Proof.
  intros Hrun. destruct (extract_tvl_data_cases pd csv_path source_name w)
    as (o & out & Hcase & _ & _ & Hiff).
  rewrite Hcase in Hrun. injection Hrun as -> _.
  destruct (proj1 (Hiff s) eq_refl) as (content & _ & df & i & j & stamps & H).
  destruct H as (_ & _ & _ & _ & _ & ->). by eexists.
Qed.

Lemma date_of_day (t : stamp) (d : Z) :
  date_of t = Some d ↔ ∃ ns, t = At ns ∧ day_ns * d ≤ ns < day_ns * (d + 1).
Proof.
  unfold day_ns. destruct t as [|ns]; cbn.
  - split; [discriminate | intros (? & H & _); discriminate H].
  - split.
    + intros [= <-]. exists ns. split; [reflexivity|].
      pose proof (Z.mul_div_le ns 86400000000000 ltac:(lia)).
      pose proof (Z.mul_succ_div_gt ns 86400000000000 ltac:(lia)). lia.
    + intros (ns' & [= <-] & Hlo & Hhi). f_equal. symmetry.
      apply (Z.div_unique_pos ns 86400000000000 d (ns - 86400000000000 * d)); lia.
Qed.

(** C2. Aggregation leaves one row per calendar date.  The dates of the
    result are strictly ascending, hence pairwise distinct; they are the
    dates of the samples that have one; and the value of a date is the
    arithmetic mean of the values the samples of that date have, the sum of
    those present over their number, null when none is present.  The date
    of a row is the calendar day its stamp falls on, whatever the time of
    day.  A series [extract_tvl_data] returns is the aggregation of the
    samples of the rows of the frame pandas reads from the file, a sample
    per row: the day of the row's converted date cell and the number in its
    value cell.  And it does return that series for a frame with rows
    whose value cells are numbers or blank. *)
Theorem aggregation_one_row_per_date :
  (∀ samples : list (option Z * option Q),
     let s := aggregate samples in
     ascending (map fst s)
     ∧ NoDup (map fst s)
     ∧ (∀ d, d ∈ map fst s ↔ Some d ∈ map fst samples)
     ∧ (∀ d v, (d, v) ∈ s
               ↔ Some d ∈ map fst samples ∧ v = arithmetic_mean (values_on d samples)))
  ∧ (∀ t d, date_of t = Some d ↔ ∃ ns, t = At ns ∧ day_ns * d ≤ ns < day_ns * (d + 1))
  ∧ (∀ pd csv_path source_name w s,
       (extract_tvl_data pd csv_path source_name w).1 = Returns (Some s) →
       ∃ content, files w !! csv_path = Some content ∧ taken_from pd content s)
  ∧ (∀ pd csv_path source_name w content df i j stamps,
       files w !! csv_path = Some content →
       pd_read_csv pd content = inr df →
       find_column is_date_column (columns df) = Some i →
       find_column is_tvl_column (columns df) = Some j →
       pd_to_datetime pd (column_at i df) = Some stamps →
       rows df ≠ [] →
       Forall (fun v => v = VNull ∨ ∃ q, v = VNum q) (column_at j df) →
       (extract_tvl_data pd csv_path source_name w).1
       = Returns (Some (aggregate (samples_of stamps (column_at j df))))).
Proof.
  split; [|split; [|split]].
  - intros samples s. destruct (groupby_date_spec samples) as (Hs & Hd & Hg).
    assert (Hdates : map fst s = map fst (groupby_date samples)) by apply aggregate_dates.
    rewrite Hdates. split; [exact Hs|]. split; [by apply ascending_NoDup|].
    split; [exact Hd|]. intros d v. subst s. unfold aggregate. rewrite elem_of_map. split.
    + intros ([d' vs] & [= -> ->] & Hin). cbn [fst snd]. split.
      * apply Hd, elem_of_map. by exists (d', vs).
      * by rewrite <- mean_arithmetic, <- Hg, (group_of_elem d' vs).
    + intros [Hin ->]. apply Hd, elem_of_map in Hin as ([d' vs] & -> & Hin).
      exists (d', vs). split; [|exact Hin]. cbn [fst snd].
      by rewrite <- mean_arithmetic, <- Hg, (group_of_elem d' vs).
  - apply date_of_day.
  - intros pd csv_path source_name w s Hrun.
    destruct (extract_tvl_data_cases pd csv_path source_name w)
      as (o & out & Hcase & _ & _ & Hiff).
    rewrite Hcase in Hrun. injection Hrun as ->. by apply Hiff.
  - intros pd csv_path source_name w content df i j stamps Hfile Hread Hi Hj Hs _ Hall.
    destruct (extract_tvl_data_cases pd csv_path source_name w)
      as (o & out & Hcase & _ & _ & Hiff).
    rewrite Hcase. cbn [fst]. f_equal. apply Hiff. exists content. split; [done|].
    exists df, i, j, stamps. split; [done|]. split; [done|]. split; [done|].
    split; [done|]. split; [|done].
    intros k t v _ Hv _ Htext. rewrite Forall_forall in Hall.
    destruct (Hall v) as [-> | [q ->]]; [|done|done].
    by apply list_elem_of_lookup_2 in Hv.
Qed.

(** Two rows of one day, at different times, give one row with their mean;
    a blank value is skipped. *)
Example same_day_rows_are_averaged :
  (extract_tvl_data toy_pandas "data/defillama/usdc.csv" "defillama" intraday_disk).1
  = Returns (Some [(19723, Some (210 # 2)); (19724, Some 120%Q)])
  ∧ arithmetic_mean [Some 100%Q; None; Some 110%Q] = Some ((100 + (110 + 0)) / 2)%Q
  ∧ mean [Some 100%Q; None; Some 110%Q] = Some ((100 + (110 + 0)) / 2)%Q
  ∧ mean [None; None] = None.
Proof. repeat split; vm_compute; reflexivity. Qed.

(** ** Merge *)

Lemma value_at_absent s d : d ∉ map fst s → value_at s d = None.
Proof.
  unfold value_at. induction s as [|[d' v] s IH]; cbn [List.find map fst]; [done|].
  intros Hn. apply not_elem_of_cons in Hn as [Hne Hn].
  destruct (Z.eqb_spec d' d); [congruence | by apply IH].
Qed.

Lemma value_at_elem s d v : NoDup (map fst s) → (d, v) ∈ s → value_at s d = v.
Proof.
  unfold value_at. induction s as [|[d' v'] s IH]; cbn [List.find map fst]; intros Hnd Hin.
  - by apply elem_of_nil in Hin.
  - apply NoDup_cons in Hnd as [Hnotin Hnd].
    apply elem_of_cons in Hin as [[= -> ->] | Hin].
    + by rewrite Z.eqb_refl.
    + destruct (Z.eqb_spec d' d) as [-> | Hne]; [|by apply IH].
      exfalso. apply Hnotin, elem_of_map. by exists (d, v).
Qed.

Lemma filter_date s d :
  NoDup (map fst s) →
  match List.filter (fun x => fst x =? d) s with
  | [] => value_at s d = None
  | [x] => fst x = d ∧ value_at s d = snd x
  | _ => False
  end.
Proof.
  unfold value_at. induction s as [|[d' v] s IH]; cbn [List.filter List.find map fst]; intros Hnd.
  - done.
  - apply NoDup_cons in Hnd as [Hnotin Hnd]. specialize (IH Hnd).
    destruct (Z.eqb_spec d' d) as [-> | Hne]; [|exact IH].
    assert (Hempty : List.filter (fun x => fst x =? d) s = []).
    { clear IH Hnd. induction s as [|[d'' v''] s IH']; [done|]. cbn [List.filter fst].
      cbn [map fst] in Hnotin. apply not_elem_of_cons in Hnotin as [Hne Hnotin].
      destruct (Z.eqb_spec d'' d); [congruence | by apply IH']. }
    rewrite Hempty. done.
Qed.

Lemma merge_outer_unique left right :
  NoDup (map fst right) →
  merge_outer left right = left_rows left right ++ right_only left right.
Proof.
  intros Hnd. unfold merge_outer, left_rows, right_only. f_equal.
  - induction left as [|[d a] left IH]; [done|]. cbn [flat_map].
    rewrite IH. cbn [map fst snd]. pose proof (filter_date right d Hnd) as Hf.
    destruct (List.filter (fun r => fst r =? d) right) as [|[d' b] [|? ?]]; [| |done].
    + by rewrite Hf.
    + destruct Hf as [_ ->]. done.
  - induction right as [|[d b] right IH]; [done|].
    apply NoDup_cons in Hnd as [_ Hnd]. cbn [flat_map].
    rewrite IH by done. cbn [List.filter fst snd]. by destruct (existsb _ left).
Qed.

Lemma existsb_date (s : series) d :
  existsb (fun y => fst y =? d) s = true ↔ d ∈ map fst s.
Proof.
  rewrite existsb_exists, elem_of_map. split.
  - intros ([d' v] & Hin & Heq). exists (d', v). apply Z.eqb_eq in Heq.
    split; [done | by apply list_elem_of_In].
  - intros ([d' v] & -> & Hin). exists (d', v).
    split; [by apply list_elem_of_In | apply Z.eqb_refl].
Qed.

Lemma NoDup_map_filter {A B} (g : A → B) (f : A → bool) (l : list A) :
  NoDup (map g l) → NoDup (map g (List.filter f l)).
Proof.
  induction l as [|x l IH]; cbn [map List.filter]; [done|].
  intros Hnd. apply NoDup_cons in Hnd as [Hnotin Hnd].
  destruct (f x); [|by apply IH]. cbn [map]. apply NoDup_cons. split; [|by apply IH].
  intros Hin. apply Hnotin. apply elem_of_map in Hin as (y & -> & Hy).
  apply elem_of_filter_list in Hy as [Hy _]. apply elem_of_map. by exists y.
Qed.

Lemma merged_dates left right :
  map row_date (left_rows left right ++ right_only left right)
  = map fst left
    ++ map fst (List.filter (fun x => negb (existsb (fun y => fst y =? fst x) left)) right).
Proof. unfold left_rows, right_only. by rewrite map_app, !map_map. Qed.

#[local] Instance date_le_transitive : Transitive date_le.
Proof. intros a b c. unfold date_le. lia. Qed.

#[local] Instance date_le_total : Total date_le.
Proof. intros a b. unfold date_le. lia. Qed.

Lemma sort_values_ascending merged :
  NoDup (map row_date merged) → ascending (map row_date (sort_values merged)).
Proof.
  intros Hnd. unfold sort_values.
  assert (Hp : merge_sort date_le merged ≡ₚ merged) by apply merge_sort_Permutation.
  assert (Hnd' : NoDup (map row_date (merge_sort date_le merged))).
  { eapply NoDup_Permutation_proper; [|exact Hnd]. by apply Permutation_map. }
  pose proof (StronglySorted_merge_sort date_le merged) as Hs.
  clear Hp Hnd. unfold ascending.
  induction Hs as [|x xs Hs IH Hall]; cbn [map]; [constructor|].
  apply NoDup_cons in Hnd' as [Hnotin Hnd']. constructor; [by apply IH|].
  apply Forall_forall. intros d Hd. apply elem_of_map in Hd as (y & -> & Hy).
  rewrite Forall_forall in Hall. specialize (Hall y Hy). unfold date_le in Hall.
  assert (row_date x ≠ row_date y); [|lia].
  intros Heq. apply Hnotin. rewrite Heq. apply elem_of_map. by exists y.
Qed.

Lemma extracted_NoDup s : extracted s → NoDup (map fst s).
Proof.
  intros [samples ->]. rewrite aggregate_dates.
  apply ascending_NoDup, groupby_date_spec.
Qed.

Lemma merge_outer_rows left right :
  NoDup (map fst left) → NoDup (map fst right) →
  let merged := merge_outer left right in
  NoDup (map row_date merged)
  ∧ (∀ d, d ∈ map row_date merged ↔ d ∈ map fst left ∨ d ∈ map fst right)
  ∧ (∀ row, row ∈ merged →
            tvl_defillama row = value_at left (row_date row)
            ∧ tvl_dune row = value_at right (row_date row))
  ∧ ((∀ d, d ∈ map fst left → d ∉ map fst right) →
     length merged = (length left + length right)%nat).
Proof.
  intros Hl Hr merged. subst merged. rewrite merge_outer_unique by done.
  rewrite merged_dates. split; [|split; [|split]].
  - apply NoDup_app. split; [done|]. split; [|by apply NoDup_map_filter].
    intros d Hd Hin. apply elem_of_map in Hin as (x & -> & Hx).
    apply elem_of_filter_list in Hx as [_ Hx]. apply negb_true_iff in Hx.
    apply existsb_date in Hd. congruence.
  - intros d. rewrite elem_of_app. split.
    + intros [? | Hin]; [by left|]. right.
      apply elem_of_map in Hin as (x & -> & Hx).
      apply elem_of_filter_list in Hx as [Hx _]. apply elem_of_map. by exists x.
    + intros [? | Hin]; [by left|].
      destruct (existsb (fun y => fst y =? d) left) eqn:He.
      * left. by apply existsb_date.
      * right. apply elem_of_map in Hin as (x & -> & Hx). apply elem_of_map.
        exists x. split; [done|]. apply elem_of_filter_list. by rewrite He.
  - intros row Hin. apply elem_of_app in Hin as [Hin | Hin].
    + apply elem_of_map in Hin as ([d a] & -> & Hx). cbn. split; [|done].
      symmetry. by apply value_at_elem.
    + apply elem_of_map in Hin as ([d b] & -> & Hx). cbn.
      apply elem_of_filter_list in Hx as [Hx He]. apply negb_true_iff in He. cbn in He.
      split.
      * symmetry. apply value_at_absent. intros Hd. apply existsb_date in Hd. congruence.
      * symmetry. by apply value_at_elem.
  - intros Hdisj. unfold left_rows, right_only. rewrite length_app, !length_map. f_equal.
    clear Hr. induction right as [|x right IH]; [done|]. cbn [List.filter].
    assert (He : existsb (fun y => fst y =? fst x) left = false).
    { destruct (existsb _ left) eqn:He; [|done]. apply existsb_date in He.
      exfalso. apply (Hdisj _ He). cbn. apply list_elem_of_here. }
    rewrite He. cbn. f_equal. apply IH. intros d Hd Hin.
    apply (Hdisj d Hd). cbn. by apply list_elem_of_further.
Qed.

(** C1, as the code has it. For two series produced by extraction,
    [create_validation_file] returns and writes the merged frame, which has
    exactly one row for every date of either series and no other row, sorted
    by strictly ascending date; on each row a source's column holds the value
    that source has for the date, which is null when the source lacks the
    date (and also when it had no value for it); with disjoint date sets the
    row count is the sum of the two row counts. *)
Theorem merge_one_row_per_date (defillama_df dune_df : series) (filename : string)
    (w : world) :
  extracted defillama_df → extracted dune_df →
  let merged := sort_values (merge_outer defillama_df dune_df) in
  let run := create_validation_file defillama_df dune_df filename w in
  run.1 = Returns (Some merged)
  ∧ files run.2 !! ("data/validation/validation_" +:+ filename)
    = Some (to_csv (frame_of_merged merged) true)
  ∧ NoDup (map row_date merged)
  ∧ (∀ d, d ∈ map row_date merged ↔ d ∈ map fst defillama_df ∨ d ∈ map fst dune_df)
  ∧ ascending (map row_date merged)
  ∧ (∀ row, row ∈ merged →
            tvl_defillama row = value_at defillama_df (row_date row)
            ∧ tvl_dune row = value_at dune_df (row_date row))
  ∧ (∀ s d, d ∉ map fst s → value_at s d = None)
  ∧ (∀ s d v, extracted s → (d, v) ∈ s → value_at s d = v)
  ∧ ((∀ d, d ∈ map fst defillama_df → d ∉ map fst dune_df) →
     length merged = (length defillama_df + length dune_df)%nat).
Proof.
  intros Hl Hr merged run.
  pose proof (extracted_NoDup _ Hl) as Hnl. pose proof (extracted_NoDup _ Hr) as Hnr.
  destruct (merge_outer_rows defillama_df dune_df Hnl Hnr) as (Hnd & Hdates & Hrows & Hlen).
  assert (Hp : merged ≡ₚ merge_outer defillama_df dune_df)
    by apply merge_sort_Permutation.
  subst run. rewrite create_validation_file_unfold. cbn [fst snd files].
  split; [done|]. split; [apply lookup_insert_eq|].
  split; [eapply NoDup_Permutation_proper; [apply Permutation_map, Hp | exact Hnd]|].
  split.
  { intros d. rewrite <- Hdates. split; intros Hin.
    - eapply elem_of_Permutation_proper; [symmetry; apply Permutation_map, Hp | exact Hin].
    - eapply elem_of_Permutation_proper; [apply Permutation_map, Hp | exact Hin]. }
  split; [by apply sort_values_ascending|].
  split.
  { intros row Hin. apply Hrows.
    eapply elem_of_Permutation_proper; [symmetry; exact Hp | exact Hin]. }
  split; [intros; by apply value_at_absent|].
  split; [intros s d v Hs; by apply value_at_elem, extracted_NoDup|].
  intros Hdisj. rewrite <- (Hlen Hdisj). by apply Permutation_length.
Qed.

Lemma merge_one_row_per_date_witness :
  (create_validation_file usdc_defillama usdc_dune "usdc.csv" w0).1
  = Returns (Some (sort_values (merge_outer usdc_defillama usdc_dune)))
  ∧ sort_values (merge_outer usdc_defillama usdc_dune)
    = [(19723, Some 100%Q, Some 95%Q); (19724, Some 110%Q, None)].
Proof.
  split; [|vm_compute; reflexivity].
  refine (proj1 (merge_one_row_per_date usdc_defillama usdc_dune "usdc.csv" w0 _ _)).
  - eexists. reflexivity.
  - eexists. reflexivity.
Defined.

(** C1, as the claim states it, fails: a source's column can be null on a
    date the source has.  A DeFi Llama file with a date and an empty TVL cell
    is extracted to a row with a null value, and the merged row of that date
    has a null tvl_defillama. *)
Lemma value_null_on_a_date_the_source_has :
  ¬ (∀ defillama_df dune_df : series,
       extracted defillama_df → extracted dune_df →
       ∀ row, row ∈ sort_values (merge_outer defillama_df dune_df) →
              (tvl_defillama row = None ↔ row_date row ∉ map fst defillama_df)
              ∧ (tvl_dune row = None ↔ row_date row ∉ map fst dune_df))
  ∧ (extract_tvl_data toy_pandas "data/defillama/usdc.csv" "defillama" blank_tvl_disk).1
    = Returns (Some [(19723, None)])
  ∧ files (validation.main toy_pandas (no_remote (Loaded [])) blank_tvl_disk).2
    !! "data/validation/validation_usdc.csv"
    = Some [Header ["date"; "tvl_defillama"; "tvl_dune"];
            Row [VDate 19723; VNull; VNum 95]].
Proof.
  split; [|split; vm_compute; reflexivity].
  intros H.
  destruct (H (aggregate [(Some 19723, None)]) (aggregate [(Some 19723, Some 95%Q)])
              ltac:(by eexists) ltac:(by eexists) (19723, None, Some 95%Q)) as [[Hnull _] _].
  - vm_compute. apply list_elem_of_here.
  - apply (Hnull eq_refl). vm_compute. apply list_elem_of_here.
Qed.

Lemma dropna_length merged : length (dropna merged) = both_count merged.
Proof.
  unfold dropna, both_count.
  induction merged as [|[[d a] b] merged IH]; [done|].
  cbn [omap list_omap List.filter tvl_defillama tvl_dune fst snd].
  destruct a, b; cbn; by rewrite ?IH.
Qed.

Lemma elem_of_dropna merged a b :
  (a, b) ∈ dropna merged ↔ ∃ d, (d, Some a, Some b) ∈ merged.
Proof.
  unfold dropna. rewrite list_elem_of_omap. split.
  - intros ([[d x] y] & Hin & Heq). cbn in Heq. destruct x, y; try discriminate.
    injection Heq as -> ->. by exists d.
  - intros [d Hin]. by exists (d, Some a, Some b).
Qed.


(** ** Report *)

Ltac old_line H :=
  repeat (apply elem_of_app in H as [H | H];
          [|apply list_elem_of_singleton in H; try discriminate H]);
  try exact H.

Lemma extract_tvl_data_correlations pd csv_path source_name w xs ys :
  PrintCorrelation xs ys ∈ trace (extract_tvl_data pd csv_path source_name w).2 →
  PrintCorrelation xs ys ∈ trace w.
Proof.
  destruct (extract_tvl_data_cases pd csv_path source_name w)
    as (o & out & Hcase & Hout & _ & _).
  rewrite Hcase. cbn [snd advance trace]. intros H.
  apply elem_of_app in H as [H | H]; [exact H | by destruct (Hout xs ys)].
Qed.

Lemma process_pair_correlations pd p w xs ys :
  PrintCorrelation xs ys ∈ trace (process_pair pd p w).2 →
  PrintCorrelation xs ys ∈ trace w
  ∨ ∃ defillama_df dune_df,
      let overlapping := dropna (sort_values (merge_outer defillama_df dune_df)) in
      extracted defillama_df ∧ extracted dune_df
      ∧ (2 ≤ length overlapping)%nat
      ∧ xs = map fst overlapping ∧ ys = map snd overlapping.
Proof.
  unfold process_pair. unfold bind at 1. unfold print at 1. unfold bind at 1.
  match goal with |- context [extract_tvl_data pd (defillama_path p) _ ?w1] =>
    pose proof (extract_tvl_data_correlations pd (defillama_path p) "defillama"
                  w1 xs ys) as H1;
    pose proof (extract_tvl_data_extracted pd (defillama_path p) "defillama" w1) as E1;
    destruct (extract_tvl_data pd (defillama_path p) "defillama" w1) as [o1 w2]
  end.
  cbn [snd trace] in H1.
  assert (Hold : PrintCorrelation xs ys ∈ trace w2 → PrintCorrelation xs ys ∈ trace w).
  { intros H. apply H1 in H. old_line H. }
  clear H1. destruct o1 as [l| |]; [|cbn; tauto|cbn; tauto].
  unfold bind at 1.
  pose proof (extract_tvl_data_correlations pd (dune_path p) "dune" w2 xs ys) as H2.
  pose proof (extract_tvl_data_extracted pd (dune_path p) "dune" w2) as E2.
  destruct (extract_tvl_data pd (dune_path p) "dune" w2) as [o2 w3].
  cbn [snd] in H2. destruct o2 as [r| |]; [|cbn; tauto|cbn; tauto].
  destruct l as [l|]; [destruct r as [r|]|];
    [|cbn; intros H; old_line H; tauto|cbn; intros H; old_line H; tauto].
  specialize (E1 _ _ eq_refl). specialize (E2 _ _ eq_refl).
  unfold bind. rewrite create_validation_file_unfold.
  set (merged := sort_values (merge_outer l r)).
  assert (Hrep : PrintCorrelation xs ys ∈ trace w3 ++ report ("data/validation/validation_" +:+ filename p) merged →
                 PrintCorrelation xs ys ∈ trace w
                 ∨ ((2 ≤ length (dropna merged))%nat
                    ∧ xs = map fst (dropna merged) ∧ ys = map snd (dropna merged))).
  { intros H. apply elem_of_app in H as [H | H]; [left; tauto|]. right.
    unfold report in H. apply elem_of_app in H as [H | H].
    - repeat (apply elem_of_cons in H as [H | H]; [discriminate H|]).
      by apply elem_of_nil in H.
    - unfold correlation_lines in H. rewrite <- dropna_length in H.
      destruct (Nat.ltb_spec 1 (length (dropna merged))); [|by apply elem_of_nil in H].
      apply list_elem_of_singleton in H. injection H as -> ->. done. }
  destruct (Nat.ltb_spec 1 (length (dropna merged))) as [Hlen | Hlen]; cbn [snd trace print ret].
  - intros H. apply elem_of_app in H as [H | H].
    + destruct (Hrep H) as [? | ?]; [by left | right; by exists l, r].
    + apply list_elem_of_singleton in H. injection H as -> ->. right. by exists l, r.
  - intros H. destruct (Hrep H) as [? | ?]; [by left | right; by exists l, r].
Qed.

(** C8. [create_validation_file] prints the correlation line exactly when
    the merged frame has at least two rows with both values present, and the
    line is computed from those rows alone, in order; with fewer such rows
    it prints none.  The same holds for every correlation line [main] adds
    while it processes a pair. *)
Theorem correlation_needs_two_common_rows (defillama_df dune_df : series)
    (filename : string) (w : world) :
  let merged := sort_values (merge_outer defillama_df dune_df) in
  let run := create_validation_file defillama_df dune_df filename w in
  let overlapping := dropna merged in
  (∃ out, trace run.2 = trace w ++ out
          ∧ ∀ xs ys, PrintCorrelation xs ys ∈ out
                     ↔ (2 ≤ length overlapping)%nat
                       ∧ xs = map fst overlapping ∧ ys = map snd overlapping)
  ∧ length overlapping = both_count merged
  ∧ (∀ a b, (a, b) ∈ overlapping ↔ ∃ d, (d, Some a, Some b) ∈ merged)
  ∧ (∀ pd p w' xs ys,
       PrintCorrelation xs ys ∈ trace (process_pair pd p w').2 →
       PrintCorrelation xs ys ∈ trace w'
       ∨ ∃ l r, let common := dropna (sort_values (merge_outer l r)) in
                extracted l ∧ extracted r
                ∧ (2 ≤ length common)%nat
                ∧ xs = map fst common ∧ ys = map snd common).
Proof.
  intros merged run overlapping. subst run. rewrite create_validation_file_unfold.
  cbn [snd trace]. fold merged.
  split; [|split; [apply dropna_length | split; [apply elem_of_dropna|]]].
  - eexists. split; [reflexivity|].
    intros xs ys. unfold report. rewrite elem_of_app. unfold correlation_lines.
    rewrite <- dropna_length. fold overlapping. split.
    + intros [Hin | Hin].
      * repeat (apply elem_of_cons in Hin as [Hin | Hin]; [discriminate Hin|]).
        by apply elem_of_nil in Hin.
      * destruct (Nat.ltb_spec 1 (length overlapping)); [|by apply elem_of_nil in Hin].
        apply list_elem_of_singleton in Hin. injection Hin as -> ->. done.
    + intros (Hlen & -> & ->). right.
      destruct (Nat.ltb_spec 1 (length overlapping)); [|lia]. apply list_elem_of_here.
  - intros pd p w' xs ys. apply process_pair_correlations.
Qed.

(** The scenario of two dates against one: one common row, no correlation. *)
Example one_common_row_no_correlation :
  let run := create_validation_file usdc_defillama usdc_dune "usdc.csv" w0 in
  run.1 = Returns (Some [(19723, Some 100%Q, Some 95%Q); (19724, Some 110%Q, None)])
  ∧ both_count (sort_values (merge_outer usdc_defillama usdc_dune)) = 1%nat
  ∧ correlation_lines (sort_values (merge_outer usdc_defillama usdc_dune)) = [].
Proof. vm_compute. repeat split; reflexivity. Qed.

(** * The frame of a list of records *)

Lemma add_key_elem acc k x : x ∈ add_key acc k ↔ x ∈ acc ∨ x = k.
Proof.
  unfold add_key. case_bool_decide as Hk.
  - split; [by left | intros [? | ->]; done].
  - rewrite elem_of_app, list_elem_of_singleton. tauto.
Qed.

Lemma add_key_NoDup acc k : NoDup acc → NoDup (add_key acc k).
Proof.
  unfold add_key. intros Hnd. case_bool_decide as Hk; [done|].
  apply NoDup_app. split; [done|]. split; [|apply NoDup_singleton].
  intros x Hx Hin. apply list_elem_of_singleton in Hin as ->. done.
Qed.

Lemma add_keys_spec (r : record) : ∀ cols,
  (NoDup cols → NoDup (add_keys cols r))
  ∧ (∀ x, x ∈ add_keys cols r ↔ x ∈ cols ∨ x ∈ map fst r).
Proof.
  unfold add_keys. induction r as [|[k v] r IH]; intros cols; cbn [map fst fold_left].
  - split; [done|]. intros x. rewrite elem_of_nil. tauto.
  - fold (add_key cols k). destruct (IH (add_key cols k)) as (Hnd & Hin).
    split; [intros H; by apply Hnd, add_key_NoDup|].
    intros x. rewrite Hin, add_key_elem, elem_of_cons. tauto.
Qed.

Lemma columns_spec (rs : list record) : ∀ cols,
  (NoDup cols → NoDup (fold_left add_keys rs cols))
  ∧ (∀ x, x ∈ fold_left add_keys rs cols ↔ x ∈ cols ∨ ∃ r, r ∈ rs ∧ x ∈ map fst r).
Proof.
  induction rs as [|r rs IH]; intros cols; cbn [fold_left].
  - split; [done|]. intros x. split; [by left|].
    intros [? | (r & Hr & _)]; [done | by apply elem_of_nil in Hr].
  - destruct (IH (add_keys cols r)) as (Hnd & Hin).
    destruct (add_keys_spec r cols) as (Hnd' & Hin').
    split; [intros H; by apply Hnd, Hnd'|].
    intros x. rewrite Hin, Hin'. split.
    + intros [[? | Hx] | (r' & Hr' & Hx)]; [by left| |].
      * right. exists r. split; [apply list_elem_of_here | done].
      * right. exists r'. split; [by apply list_elem_of_further | done].
    + intros [? | (r' & Hr' & Hx)]; [by left; left|].
      apply elem_of_cons in Hr' as [-> | Hr']; [by left; right|].
      right. by exists r'.
Qed.

Lemma dict_get_keys (r : record) :
  NoDup (map fst r) →
  map (fun c => default VNull (dict_get c r)) (map fst r) = map snd r.
Proof.
  intros Hnd.
  assert (H : ∀ r0, (∀ k, k ∈ map fst r0 → dict_get k r = dict_get k r0) →
                    NoDup (map fst r0) →
                    map (fun c => default VNull (dict_get c r)) (map fst r0) = map snd r0).
  { clear Hnd. induction r0 as [|[k v] r0 IH]; intros Hsame Hnd; [done|].
    cbn [map fst snd]. apply NoDup_cons in Hnd as [Hk Hnd]. f_equal.
    - rewrite Hsame by apply list_elem_of_here. cbn. by rewrite String.eqb_refl.
    - apply IH; [|done]. intros k' Hk'. rewrite Hsame by by apply list_elem_of_further.
      cbn. destruct (String.eqb_spec k' k) as [-> | ?]; [done | done]. }
  by apply H.
Qed.

Lemma add_keys_known (ks cols : list string) :
  (∀ k, k ∈ ks → k ∈ cols) →
  fold_left (fun acc k => if bool_decide (k ∈ acc) then acc else acc ++ [k]) ks cols = cols.
Proof.
  revert cols. induction ks as [|k ks IH]; intros cols Hsub; [done|]. cbn [fold_left].
  rewrite bool_decide_eq_true_2 by apply Hsub, list_elem_of_here.
  apply IH. intros k' Hk'. by apply Hsub, list_elem_of_further.
Qed.

Lemma add_keys_fresh (ks cols : list string) :
  NoDup (cols ++ ks) →
  fold_left (fun acc k => if bool_decide (k ∈ acc) then acc else acc ++ [k]) ks cols
  = cols ++ ks.
Proof.
  revert cols. induction ks as [|k ks IH]; intros cols Hnd; [by rewrite app_nil_r|].
  cbn [fold_left]. apply NoDup_app in Hnd as Hnd'. destruct Hnd' as (_ & Hdisj & _).
  rewrite bool_decide_eq_false_2.
  - rewrite IH; rewrite <- app_assoc; done.
  - intros Hin. apply (Hdisj k Hin), list_elem_of_here.
Qed.

Lemma add_keys_uniform (ks : list string) (rest : list record) :
  Forall (fun r => map fst r = ks) rest → fold_left add_keys rest ks = ks.
Proof.
  induction rest as [|r rest IH]; [done|]. intros Hall.
  apply Forall_cons in Hall as [Hr Hrest]. cbn [fold_left].
  replace (add_keys ks r) with ks; [by apply IH|].
  unfold add_keys. rewrite Hr. symmetry. by apply add_keys_known.
Qed.

(** The frame built from records lists every key once, has a row per record
    and a cell per column in every row. *)
Lemma frame_shape (rs : list record) :
  let df := DataFrame_of_records rs in
  NoDup (columns df)
  ∧ (∀ c, c ∈ columns df ↔ ∃ r, r ∈ rs ∧ c ∈ map fst r)
  ∧ length (rows df) = length rs
  ∧ Forall (fun row => length row = length (columns df)) (rows df).
Proof.
  intros df. destruct (columns_spec rs []) as (Hnd & Hin).
  split; [apply Hnd, NoDup_nil_2|]. split.
  { intros c. unfold df, DataFrame_of_records. cbn [columns]. rewrite Hin, elem_of_nil. tauto. }
  split; [unfold df, DataFrame_of_records; cbn [rows]; by rewrite length_map|].
  unfold df, DataFrame_of_records. cbn [rows columns]. apply Forall_forall.
  intros row Hrow. apply list_elem_of_In, in_map_iff in Hrow as (r & <- & _).
  by rewrite length_map.
Qed.

(** Records that all carry the same keys, each once, give exactly those
    columns and their values in place. *)
Lemma frame_of_uniform_records (r : record) (rest : list record) (ks : list string) :
  NoDup ks → Forall (fun r' => map fst r' = ks) (r :: rest) →
  columns (DataFrame_of_records (r :: rest)) = ks
  ∧ rows (DataFrame_of_records (r :: rest)) = map (map snd) (r :: rest).
Proof.
  intros Hks Hall.
  assert (Hcols : columns (DataFrame_of_records (r :: rest)) = ks).
  { unfold DataFrame_of_records. cbn [columns fold_left].
    apply Forall_cons in Hall as [Hr Hrest].
    assert (H0 : add_keys [] r = ks).
    { unfold add_keys. rewrite Hr. by apply (add_keys_fresh ks []). }
    rewrite H0. by apply add_keys_uniform. }
  split; [exact Hcols|].
  unfold DataFrame_of_records in *. cbn [columns rows] in *. rewrite Hcols.
  apply map_ext_in. intros r' Hr'. rewrite Forall_forall in Hall.
  apply list_elem_of_In in Hr'. rewrite <- (Hall r' Hr').
  apply dict_get_keys. by rewrite (Hall r' Hr').
Qed.

Lemma Forall_no_fields (rs : list record) :
  Forall (fun r => r = []) rs ↔ ∀ c, ¬ ∃ r, r ∈ rs ∧ c ∈ map fst r.
Proof.
  rewrite Forall_forall. split.
  - intros H c (r & Hr & Hc). rewrite (H r Hr) in Hc. by apply elem_of_nil in Hc.
  - intros H r Hr. destruct r as [|[k v] r]; [done|]. exfalso.
    apply (H k). exists ((k, v) :: r). split; [done | apply list_elem_of_here].
Qed.

(** The frame of a result set is empty exactly when no row has a field: a
    result set without rows, or with rows that are all empty objects. *)
Lemma frame_of_rows_empty (rs : list record) :
  empty (frame_of_rows rs) = true ↔ Forall (fun r => r = []) rs.
Proof.
  destruct rs as [|r rs]; [by split|]. unfold frame_of_rows.
  destruct (frame_shape (r :: rs)) as (_ & Hin & Hlen & _).
  rewrite Forall_no_fields. unfold empty.
  destruct (rows (DataFrame_of_records (r :: rs))) as [|row more] eqn:Hrows;
    [discriminate Hlen|].
  destruct (columns (DataFrame_of_records (r :: rs))) as [|c cs] eqn:Hcols.
  - split; [|done]. intros _ c Hc. apply Hin in Hc. by apply elem_of_nil in Hc.
  - split; [done|]. intros H. exfalso. apply (H c), Hin, list_elem_of_here.
Qed.

Lemma has_field_not_empty rs : has_field rs → empty (frame_of_rows rs) = false.
Proof.
  intros H. destruct (empty (frame_of_rows rs)) eqn:E; [|done].
  exfalso. by apply H, frame_of_rows_empty.
Qed.

Lemma has_field_frame rs : has_field rs → frame_of_rows rs = DataFrame_of_records rs.
Proof. destruct rs; [intros H; exfalso; apply H; constructor | done]. Qed.

(** * Query export: saving *)

Lemma query_to_csv_written env fuel self query_id filename w d :
  ok_reply env (calls w) (results_request (dune_client self) query_id) d →
  has_field (result_rows d) →
  let df := DataFrame_of_records (result_rows d) in
  let name := saved_name env query_id filename in
  let path := path_join (output_dir (csv_exporter self)) name in
  ∃ w', query_to_csv env fuel self query_id filename false w
        = (Returns {| rows_saved := length (result_rows d);
                      columns_saved := length (columns df);
                      filepath := path; dune_to_sheets.filename := name |}, w')
        ∧ files w' = <[path := Header (columns df) :: map Row (rows df)]> (files w)
        ∧ calls w' = S (calls w).
Proof.
  intros Hok Hfield df name path.
  unfold query_to_csv, bind. rewrite (get_query_results_ok _ _ _ _ _ Hok).
  rewrite (has_field_not_empty _ Hfield), (has_field_frame _ Hfield).
  fold (saved_name env query_id filename). fold name. fold df.
  unfold save_dataframe, bind, write_file, ret. fold path. cbn [files calls advance].
  destruct (frame_shape (result_rows d)) as (_ & _ & Hlen & _).
  fold df in Hlen. rewrite Hlen.
  eexists. split; [reflexivity|]. split; [reflexivity | cbn; lia].
Qed.

(** X1. When the remote answers the results request of a query with a usable
    reply in which some row has a field, [query_to_csv] on the stored results
    makes that one call and returns the record of what it saved: the number
    of result rows, the number of columns, the path and the name (the given
    one, or [dune_query_<id>_<timestamp>.csv]).  The file at the path holds
    one header line with the columns and a line per result row; the columns
    are the keys of the rows, each once. *)
Theorem query_to_csv_saves (env : environment) (fuel : nat) (self : DuneToCSV)
    (query_id : Z) (filename : option string) (w : world) (d : document) :
  ok_reply env (calls w) (results_request (dune_client self) query_id) d →
  has_field (result_rows d) →
  let df := DataFrame_of_records (result_rows d) in
  let name := saved_name env query_id filename in
  let path := path_join (output_dir (csv_exporter self)) name in
  ∃ w', query_to_csv env fuel self query_id filename false w
        = (Returns {| rows_saved := length (result_rows d);
                      columns_saved := length (columns df);
                      filepath := path; dune_to_sheets.filename := name |}, w')
        ∧ files w' = <[path := Header (columns df) :: map Row (rows df)]> (files w)
        ∧ calls w' = S (calls w)
        ∧ header_lines (Header (columns df) :: map Row (rows df)) = 1%nat
        ∧ length (rows df) = length (result_rows d)
        ∧ NoDup (columns df)
        ∧ ∀ c, c ∈ columns df ↔ ∃ r, r ∈ result_rows d ∧ c ∈ map fst r.
Proof.
  intros Hok Hfield df name path.
  destruct (query_to_csv_written env fuel self query_id filename w d Hok Hfield)
    as (w' & Hrun & Hfiles & Hcalls).
  destruct (frame_shape (result_rows d)) as (Hnd & Hin & Hlen & _).
  exists w'. split; [exact Hrun|]. split; [exact Hfiles|]. split; [exact Hcalls|].
  split; [|by split].
  unfold header_lines. cbn [List.filter is_header length]. f_equal.
  apply header_lines_rows.
Qed.

Lemma query_to_csv_saves_witness :
  ∃ w', query_to_csv serving_remote 0 exporter 5455942 (Some "tvl.csv") false w0
        = (Returns {| rows_saved := 1; columns_saved := 2;
                      filepath := "output/tvl.csv";
                      dune_to_sheets.filename := "tvl.csv" |}, w')
        ∧ files w' !! "output/tvl.csv"
          = Some [Header ["day"; "tvl"]; Row [VStr "2024-01-01"; VNum 100]].
Proof.
  destruct (query_to_csv_saves serving_remote 0 exporter 5455942 (Some "tvl.csv") w0
              (with_rows [tvl_row]))
    as (w' & Hrun & Hfiles & _).
  - apply ok_reply_intro. reflexivity.
  - intros H. inversion H as [|r rs Hr Hrs]. discriminate Hr.
  - exists w'. split; [exact Hrun|]. rewrite Hfiles. apply lookup_insert_eq.
Defined.

(** X2. With a usable reply to the results request, [query_to_csv] on the
    stored results raises "No data returned from Dune query" exactly when no
    row of the result has a field: the result set has no row, or only empty
    objects.  It has then made one call and written nothing. *)
Theorem query_to_csv_raises_without_fields (env : environment) (fuel : nat)
    (self : DuneToCSV) (query_id : Z) (filename : option string) (w : world)
    (d : document) :
  ok_reply env (calls w) (results_request (dune_client self) query_id) d →
  (Forall (fun r => r = []) (result_rows d) →
   query_to_csv env fuel self query_id filename false w
   = (Raises (Exception "No data returned from Dune query"), advance w 1 []))
  ∧ ((query_to_csv env fuel self query_id filename false w).1
     = Raises (Exception "No data returned from Dune query") →
     Forall (fun r => r = []) (result_rows d)).
Proof.
  intros Hok. unfold query_to_csv, bind. rewrite (get_query_results_ok _ _ _ _ _ Hok).
  destruct (empty (frame_of_rows (result_rows d))) eqn:Hempty.
  - split; [done|]. intros _. by apply frame_of_rows_empty.
  - split.
    + intros Hall. apply frame_of_rows_empty in Hall. congruence.
    + unfold save_dataframe, bind, write_file, ret. cbn. discriminate.
Qed.

Lemma query_to_csv_raises_without_fields_witness :
  query_to_csv first_empty_remote 0 exporter 5455942 None false w0
  = (Raises (Exception "No data returned from Dune query"), advance w0 1 []).
Proof.
  refine (proj1 (query_to_csv_raises_without_fields first_empty_remote 0 exporter
                   5455942 None w0 (with_rows []) _) _).
  - apply ok_reply_intro. reflexivity.
  - constructor.
Defined.

(** X3. [save_dataframe] replaces the file: saving a frame where another was
    saved under the same name leaves what saving it alone leaves, a file
    with one header line and the rows of the last frame; no other path
    changes. *)
Theorem save_dataframe_overwrites (self : CSVExporter) (df1 df2 : DataFrame)
    (filename : string) (w : world) :
  let path := path_join (output_dir self) filename in
  let once := save_dataframe self df2 filename w in
  let twice := save_dataframe self df2 filename (save_dataframe self df1 filename w).2 in
  twice = once
  ∧ once.1 = Returns path
  ∧ files once.2 !! path = Some (Header (columns df2) :: map Row (rows df2))
  ∧ header_lines (Header (columns df2) :: map Row (rows df2)) = 1%nat
  ∧ ∀ other, other ≠ path → files once.2 !! other = files w !! other.
Proof.
  intros path once twice. subst once twice.
  unfold save_dataframe, bind, write_file, ret. cbn [fst snd files dirs calls trace].
  fold path. rewrite insert_insert_eq.
  split; [reflexivity|]. split; [reflexivity|]. split; [apply lookup_insert_eq|]. split.
  - unfold header_lines. cbn. f_equal. apply header_lines_rows.
  - intros other Hne. by rewrite lookup_insert_ne.
Qed.

(** * Query export: failures *)

Lemma send_failure {A} env rq w e (k : document → M A) :
  failure_of (http env (calls w) rq) = Some e →
  (do response <- send env rq; raise_for_status response ;;
   do data <- json response; k data) w
  = (Raises e, advance w 1 []).
Proof.
  unfold failure_of, bind, send, raise_for_status, json.
  assert (Hw : {| files := files w; dirs := dirs w; calls := S (calls w); trace := trace w |}
               = advance w 1 []).
  { unfold advance. rewrite app_nil_r, Nat.add_1_r. reflexivity. }
  rewrite Hw. destruct (http env (calls w) rq) as [|r]; [by intros [= <-]|].
  destruct ((200 <=? status_code r) && (status_code r <? 300)).
  - destruct (body r); [discriminate | by intros [= <-]].
  - by intros [= <-].
Qed.

(** X4. When the results request gets no reply, a status outside 2xx or a
    body that is not JSON, the exception of the request reaches the caller
    of each retrieval on the stored results ([get_query_results],
    [query_to_csv], [get_data_as_csv_string], [get_dataframe]) after that
    one call; nothing is written or printed. *)
Theorem unusable_reply_raises (env : environment) (fuel : nat) (self : DuneToCSV)
    (query_id : Z) (filename : option string) (w : world) (e : exn) :
  failure_of (http env (calls w) (results_request (dune_client self) query_id)) = Some e →
  get_query_results env (dune_client self) query_id w = (Raises e, advance w 1 [])
  ∧ query_to_csv env fuel self query_id filename false w = (Raises e, advance w 1 [])
  ∧ get_data_as_csv_string env fuel self query_id false w = (Raises e, advance w 1 [])
  ∧ get_dataframe env fuel self query_id false w = (Raises e, advance w 1 []).
Proof.
  intros Hfail.
  assert (H : get_query_results env (dune_client self) query_id w
              = (Raises e, advance w 1 [])).
  { unfold get_query_results. cbn zeta.
    apply (send_failure env (results_request (dune_client self) query_id) w e
             (fun data => ret (frame_of_rows (result_rows data))) Hfail). }
  split; [exact H|]. split; [|split; [|exact H]].
  - unfold query_to_csv, bind. by rewrite H.
  - unfold get_data_as_csv_string, bind. by rewrite H.
Qed.

Lemma unusable_reply_raises_witness :
  get_query_results (no_remote Absent) (dune_client exporter) 5455942 w0
  = (Raises TransportError, advance w0 1 [])
  ∧ query_to_csv (no_remote Absent) 0 exporter 5455942 None false w0
    = (Raises TransportError, advance w0 1 [])
  ∧ get_data_as_csv_string (no_remote Absent) 0 exporter 5455942 false w0
    = (Raises TransportError, advance w0 1 [])
  ∧ get_dataframe (no_remote Absent) 0 exporter 5455942 false w0
    = (Raises TransportError, advance w0 1 []).
Proof.
  apply (unusable_reply_raises (no_remote Absent) 0 exporter 5455942 None w0
           TransportError).
  reflexivity.
Defined.

(** * Query export: a new execution *)

(** X5. When the reply to the execute request carries no execution id, or
    an empty one, [execute_query] raises "Failed to start query execution"
    after that one call, without polling. *)
Theorem execute_query_needs_execution_id (env : environment) (fuel : nat)
    (self : DuneClient) (query_id : Z) (w : world) (d : document) :
  ok_reply env (calls w) (execute_request self query_id) d →
  doc_execution_id d = None ∨ doc_execution_id d = Some "" →
  execute_query env fuel self query_id w
  = (Raises (Exception "Failed to start query execution"), advance w 1 []).
Proof.
  intros Hok Hid. destruct (send_ok _ _ _ _ Hok) as (r & Hsend & Hst & Hbody).
  unfold execute_query. cbn zeta.
  change {| req_method := POST; req_url := _; req_headers := headers self |}
    with (execute_request self query_id).
  unfold bind at 1. rewrite Hsend. unfold bind at 1. rewrite Hst. unfold ret at 1.
  unfold bind at 1. unfold json. rewrite Hbody. unfold ret at 1.
  by destruct Hid as [-> | ->].
Qed.

Lemma execute_query_needs_execution_id_witness :
  execute_query first_empty_remote 5 (dune_client exporter) 5455942 w0
  = (Raises (Exception "Failed to start query execution"), advance w0 1 []).
Proof.
  apply (execute_query_needs_execution_id first_empty_remote 5 (dune_client exporter)
           5455942 w0 (with_rows [])).
  - apply ok_reply_intro. reflexivity.
  - left. reflexivity.
Defined.

(** X6. As long as the remote reports the execution as EXECUTING or PENDING,
    [execute_query] keeps polling: the loop has no bound of its own.  With
    any number [fuel] of rounds it has not returned after them, having made
    the execute request and [fuel] status requests and slept five seconds
    after each. *)
Theorem execute_query_waits_without_bound (env : environment) (self : DuneClient)
    (query_id : Z) (execution_id : string) (w : world) :
  (∀ n, started env self query_id execution_id (calls w) n) →
  ∀ fuel, execute_query env fuel self query_id w
          = (Pending, advance w (S fuel) (replicate fuel (Sleep 5))).
Proof.
  intros Hall fuel. rewrite (execute_query_started _ _ _ _ _ fuel _ (Hall fuel)).
  unfold bind at 1. replace fuel with (fuel + 0)%nat at 1 by lia.
  rewrite poll_waiting.
  - cbn [poll]. unfold pending. rewrite advance_advance. reflexivity.
  - intros k Hk. destruct (Hall fuel) as (_ & _ & Hw).
    destruct (Hw k Hk) as (d & Hok & Hwait). exists d. split; [|exact Hwait].
    cbn [calls advance]. rewrite Nat.add_1_r. exact Hok.
Qed.

Lemma execute_query_waits_without_bound_witness :
  execute_query busy_remote 7 (dune_client exporter) 5455942 w0
  = (Pending, advance w0 8 (replicate 7 (Sleep 5))).
Proof.
  apply (execute_query_waits_without_bound busy_remote (dune_client exporter) 5455942
           "01J" w0).
  intros n. split; [discriminate|]. split.
  - exists (with_execution_id "01J"). split; [apply ok_reply_intro|]; reflexivity.
  - intros k _. exists (with_state "EXECUTING").
    split; [apply ok_reply_intro; reflexivity | left; reflexivity].
Defined.

(** X7. When the execution is started, the first [n] polls find it waiting
    and the next one finds it COMPLETED, [execute_query] (given more than
    [n] rounds) returns the frame of the rows of the results request that
    follows: [n + 3] calls in all, and a sleep of five seconds after each
    waiting poll. *)
Theorem execute_query_completes (env : environment) (fuel : nat) (self : DuneClient)
    (query_id : Z) (execution_id : string) (n : nat) (d1 d2 : document) (w : world) :
  started env self query_id execution_id (calls w) n →
  ok_reply env (S (calls w) + n) (status_request self execution_id) d1 →
  doc_state d1 = Some "COMPLETED" →
  ok_reply env (S (S (calls w) + n)) (execution_results_request self execution_id) d2 →
  (n < fuel)%nat →
  execute_query env fuel self query_id w
  = (Returns (frame_of_rows (result_rows d2)),
     advance w (n + 3) (replicate n (Sleep 5))).
Proof.
  intros Hst Hok1 Hdone Hok2 Hfuel.
  rewrite (execute_query_started _ _ _ _ _ _ _ Hst). unfold bind at 1.
  rewrite (poll_until env self execution_id n fuel _ d1).
  - rewrite bool_decide_eq_true_2 by exact Hdone. rewrite advance_advance.
    assert (Hok2' : ok_reply env
                      (calls (advance w (1 + S n) ([] ++ replicate n (Sleep 5))))
                      (execution_results_request self execution_id) d2).
    { cbn [calls advance].
      replace (calls w + (1 + S n))%nat with (S (S (calls w) + n)) by lia. exact Hok2. }
    destruct (send_ok _ _ _ _ Hok2') as (r & Hsend & Hraise & Hbody).
    unfold bind at 1. rewrite Hsend. unfold bind at 1. rewrite Hraise.
    unfold ret at 1. unfold bind, json. rewrite Hbody. unfold ret.
    rewrite advance_advance. do 2 f_equal; [lia | by rewrite app_nil_r].
  - intros k Hk. destruct Hst as (_ & _ & Hw).
    destruct (Hw k Hk) as (d' & Hok' & Hw'). exists d'. split; [|exact Hw'].
    cbn [calls advance]. rewrite Nat.add_1_r. exact Hok'.
  - cbn [calls advance]. rewrite Nat.add_1_r. exact Hok1.
  - rewrite Hdone. intros [H | H]; discriminate H.
  - exact Hfuel.
Qed.

Lemma execute_query_completes_witness :
  execute_query completing_remote 5 (dune_client exporter) 5455942 w0
  = (Returns (frame_of_rows [tvl_row]), advance w0 4 [Sleep 5]).
Proof.
  apply (execute_query_completes completing_remote 5 (dune_client exporter) 5455942
           "01J" 1 (with_state "COMPLETED") (with_rows [tvl_row]) w0).
  - split; [discriminate|]. split.
    + exists (with_execution_id "01J"). split; [apply ok_reply_intro|]; reflexivity.
    + intros k Hk. exists (with_state "EXECUTING"). destruct k as [|k]; [|lia].
      split; [apply ok_reply_intro; reflexivity | left; reflexivity].
  - apply ok_reply_intro. reflexivity.
  - reflexivity.
  - apply ok_reply_intro. reflexivity.
  - lia.
Defined.

(** * Query export: the batch *)

(** [query_to_csv] on the stored results never stays in a loop. *)
Lemma query_to_csv_cached_ends env fuel self query_id filename w :
  (query_to_csv env fuel self query_id filename false w).1 ≠ Pending.
Proof.
  unfold query_to_csv, get_query_results, bind, send, raise_for_status, json.
  destruct (http env (calls w) _) as [|r]; [done|].
  destruct ((200 <=? status_code r) && (status_code r <? 300)); [|done].
  unfold ret. destruct (body r) as [d|]; [|done].
  by destruct (empty (frame_of_rows (result_rows d))).
Qed.

Lemma export_all_ends env client total : ∀ ids i w,
  (export_all env client total i ids w).1 ≠ Pending.
Proof.
  induction ids as [|q ids IH]; intros i w; [done|].
  cbn [export_all]. unfold bind at 1. unfold print at 1. unfold bind at 1.
  match goal with |- context [query_to_csv env 0 client q ?f false ?w1] =>
    pose proof (query_to_csv_cached_ends env 0 client q f w1) as Hq;
    destruct (query_to_csv env 0 client q f false w1) as [[res|e|] w2]
  end; [|done|done].
  unfold bind, print. apply IH.
Qed.

(** With a key, [main] builds the client of the key, leaving files and call
    count alone, and runs the batch under its handler. *)
Lemma main_on_start ids env a key w :
  ∃ w1, files w1 = files w ∧ calls w1 = calls w
        ∧ main_on ids env (Some (String a key)) w
          = try_except
              (print (Print "Fetching data and saving to CSV files...") ;;
               export_all env (client_of (String a key)) (length ids) 1 ids)
              (fun e => print (PrintError "Error" e)) w1.
Proof.
  unfold main_on, DuneToCSV_init, CSVExporter_init, path_exists, client_of.
  unfold bind at 1. unfold bind at 1. unfold bind at 1.
  destruct (is_file w "output" || is_dir w "output").
  - exists w. by repeat split.
  - eexists. split; [|split; [|reflexivity]]; reflexivity.
Qed.

(** X8. Without DUNE_API_KEY, or with an empty one, [main] raises
    "DUNE_API_KEY environment variable not set" before anything else
    happens.  With a key it returns normally whatever the remote answers:
    its handler takes every exception of the batch. *)
Theorem main_raises_only_without_key (ids : list Z) (env : environment)
    (key : option string) (w : world) :
  match key with
  | None | Some "" =>
      main_on ids env key w
      = (Raises (Exception "DUNE_API_KEY environment variable not set"), w)
  | Some _ => ∃ w', main_on ids env key w = (Returns tt, w')
  end.
Proof.
  destruct key as [[|a key]|]; [done| |done].
  destruct (main_on_start ids env a key w) as (w1 & _ & _ & ->).
  unfold try_except, bind, print.
  match goal with |- context [export_all env ?c ?t ?i ids ?w2] =>
    pose proof (export_all_ends env c t ids i w2) as Hends;
    destruct (export_all env c t i ids w2) as [[[]|e|] w3]
  end; [by eexists | by eexists | done].
Qed.

Lemma poll_files env self url fuel : ∀ w, files (poll env self url fuel w).2 = files w.
Proof.
  induction fuel as [|fuel IH]; intros w; [done|].
  cbn [poll]. unfold bind, send, raise_for_status, json. cbn [calls files].
  destruct (http env (calls w) _) as [|r]; [done|].
  destruct ((200 <=? status_code r) && (status_code r <? 300)); [|done].
  unfold ret. destruct (body r) as [d|]; [|done].
  destruct (bool_decide _ || bool_decide _).
  - unfold sleep. by rewrite IH.
  - by destruct (bool_decide _).
Qed.

Lemma get_query_results_files env self query_id w :
  files (get_query_results env self query_id w).2 = files w.
Proof.
  unfold get_query_results, bind, send, raise_for_status, json. cbn [calls files].
  destruct (http env (calls w) _) as [|r]; [done|].
  destruct ((200 <=? status_code r) && (status_code r <? 300)); [|done].
  unfold ret. by destruct (body r).
Qed.

Lemma execute_query_files env fuel self query_id w :
  files (execute_query env fuel self query_id w).2 = files w.
Proof.
  unfold execute_query. cbn zeta. unfold bind at 1. unfold send.
  destruct (http env (calls w) _) as [|r]; [done|].
  unfold bind at 1. unfold raise_for_status.
  destruct ((200 <=? status_code r) && (status_code r <? 300)); [|done].
  unfold ret at 1. unfold bind at 1. unfold json at 1.
  destruct (body r) as [d|]; [|done]. unfold ret at 1.
  destruct (doc_execution_id d) as [[|a eid]|]; [done| |done].
  unfold bind at 1.
  match goal with |- context [poll env ?c ?u fuel ?w1] =>
    pose proof (poll_files env c u fuel w1) as Hpoll;
    destruct (poll env c u fuel w1) as [[[]|e|] w2]
  end; cbn [snd files] in *; [|done|done].
  unfold bind, send, raise_for_status, json. cbn [calls files].
  destruct (http env (calls w2) _) as [|r2]; [done|].
  destruct ((200 <=? status_code r2) && (status_code r2 <? 300)); [|done].
  unfold ret. by destruct (body r2).
Qed.

Lemma query_to_csv_keeps_files env fuel self query_id filename fresh w p :
  is_Some (files w !! p) →
  is_Some (files (query_to_csv env fuel self query_id filename fresh w).2 !! p).
Proof.
  intros Hp. unfold query_to_csv. unfold bind at 1.
  assert (Hfetch : files ((fetch env fuel self query_id fresh) w).2 = files w).
  { unfold fetch. destruct fresh;
      [apply execute_query_files | apply get_query_results_files]. }
  change ((if fresh then execute_query env fuel (dune_client self) query_id
           else get_query_results env (dune_client self) query_id) w)
    with (fetch env fuel self query_id fresh w).
  destruct (fetch env fuel self query_id fresh w) as [[df|e|] w1]; cbn [snd] in *;
    [|by rewrite Hfetch|by rewrite Hfetch].
  destruct (empty df); [cbn; by rewrite Hfetch|].
  unfold save_dataframe, bind, write_file, ret. cbn [snd files].
  rewrite lookup_insert. case_decide; [by eexists | by rewrite Hfetch].
Qed.

Lemma export_all_keeps_files env client total p : ∀ ids i w,
  is_Some (files w !! p) → is_Some (files (export_all env client total i ids w).2 !! p).
Proof.
  induction ids as [|q ids IH]; intros i w Hp; [done|].
  cbn [export_all]. unfold bind at 1. unfold print at 1. unfold bind at 1.
  match goal with |- context [query_to_csv env 0 client q ?f false ?w1] =>
    pose proof (query_to_csv_keeps_files env 0 client q f false w1 p Hp) as Hq;
    destruct (query_to_csv env 0 client q f false w1) as [[res|e|] w2]
  end; cbn [snd] in *; [|done|done].
  unfold bind at 1. unfold print at 1. by apply IH.
Qed.

Lemma export_all_saves env client total ids : ∀ (i : nat) (w : world),
  (∀ k q, ids !! k = Some q →
          ∃ d, ok_reply env (calls w + k) (results_request (dune_client client) q) d
               ∧ has_field (result_rows d)) →
  ∃ w', export_all env client total i ids w = (Returns tt, w')
        ∧ calls w' = (calls w + length ids)%nat
        ∧ ∀ q, q ∈ ids → is_Some (files w' !! export_path client q).
Proof.
  induction ids as [|q ids IH]; intros i w Hall.
  - exists w. split; [done|]. split; [cbn; lia|]. intros q Hq. by apply elem_of_nil in Hq.
  - destruct (Hall 0%nat q eq_refl) as (d & Hok & Hfield).
    cbn [export_all]. unfold bind at 1. unfold print at 1. unfold bind at 1.
    match goal with |- context [query_to_csv env 0 client q ?f false ?w1] =>
      destruct (query_to_csv_written env 0 client q f w1 d) as (w2 & Hq & Hfiles & Hcalls);
        [cbn [calls]; by rewrite Nat.add_0_r in Hok | exact Hfield |]
    end.
    rewrite Hq. unfold bind at 1. unfold print at 1.
    match goal with |- context [export_all env client total (S i) ids ?w3] =>
      destruct (IH (S i) w3) as (w' & Hrun & Hc & Hsaved)
    end.
    { intros k q' Hk. destruct (Hall (S k) q' Hk) as (d' & Hok' & Hfield').
      exists d'. split; [|exact Hfield']. cbn [calls]. rewrite Hcalls. cbn [calls].
      by replace (S (calls w) + k)%nat with (calls w + S k)%nat by lia. }
    exists w'. split; [exact Hrun|]. split.
    + rewrite Hc. cbn [calls length]. rewrite Hcalls. cbn [calls]. lia.
    + intros q' Hq'. apply elem_of_cons in Hq' as [-> | Hq']; [|by apply Hsaved].
      assert (Hw' : w' = (export_all env client total (S i) ids
                            {| files := files w2; dirs := dirs w2; calls := calls w2;
                               trace := trace w2 ++ [Print ("Saved " +:+ pretty (length (result_rows d)) +:+ " rows to " +:+ export_path client q)] |}).2).
      { cbn [rows_saved filepath] in Hrun. unfold saved_name in Hrun.
        fold (export_path client q) in Hrun. by rewrite Hrun. }
      rewrite Hw'. apply export_all_keeps_files. cbn [files]. rewrite Hfiles.
      unfold saved_name. fold (export_path client q). rewrite lookup_insert_eq. by eexists.
Qed.

(** X9. When every query of the list, in turn, gets a usable reply in which
    some row has a field, [main] with a key returns after one call per
    query, and the file [morpho_vault_data_<id>.csv] of every query of the
    list is in the output directory. *)
Theorem batch_saves_every_query (ids : list Z) (env : environment) (key : string)
    (w : world) :
  key ≠ "" →
  (∀ k q, ids !! k = Some q →
          ∃ d, ok_reply env (calls w + k)
                 (results_request (dune_client (client_of key)) q) d
               ∧ has_field (result_rows d)) →
  ∃ w', main_on ids env (Some key) w = (Returns tt, w')
        ∧ calls w' = (calls w + length ids)%nat
        ∧ ∀ q, q ∈ ids → is_Some (files w' !! export_path (client_of key) q).
Proof.
  intros Hkey Hall. destruct key as [|a key]; [done|].
  destruct (main_on_start ids env a key w) as (w1 & Hf1 & Hc1 & ->).
  unfold try_except. unfold bind at 1. unfold print at 1.
  match goal with |- context [export_all env ?c ?t ?i ids ?w2] =>
    destruct (export_all_saves env c t ids i w2) as (w' & Hrun & Hcalls & Hsaved)
  end.
  { cbn [calls]. rewrite Hc1. exact Hall. }
  rewrite Hrun. exists w'. split; [reflexivity|]. split; [|exact Hsaved].
  rewrite Hcalls. cbn [calls]. by rewrite Hc1.
Qed.

Lemma batch_saves_every_query_witness :
  ∃ w', main_on [5455942; 5462213] serving_remote (Some "key") w0 = (Returns tt, w')
        ∧ calls w' = 2%nat
        ∧ ∀ q, q ∈ [5455942; 5462213] → is_Some (files w' !! export_path exporter q).
Proof.
  apply (batch_saves_every_query [5455942; 5462213] serving_remote "key" w0).
  - discriminate.
  - intros k q _. exists (with_rows [tvl_row]).
    split; [apply ok_reply_intro; reflexivity|].
    intros H. inversion H as [|r rs Hr Hrs]. discriminate Hr.
Defined.

(** * Fetcher *)

Lemma process_vault_cases env v w :
  match fetch_failure (http env (calls w) (chart_request v)) with
  | Some e =>
      ∃ w', process_vault env v w = (Raises e, w') ∧ files w' = files w
            ∧ calls w' = S (calls w)
  | None =>
      ∃ w', process_vault env v w = (Returns tt, w') ∧ calls w' = S (calls w)
            ∧ files w' = match chart_data (http env (calls w) (chart_request v)) with
                         | Some data =>
                             <[csv_name v := to_csv (DataFrame_of_records data) true]>
                               (files w)
                         | None => files w
                         end
  end.
Proof.
  rewrite process_vault_body. unfold get_historical_data, fetch_failure, chart_data.
  unfold bind, print, send, json, ret, raise. cbn beta iota zeta.
  cbn [calls files dirs trace]. fold (chart_request v).
  destruct (http env (calls w) (chart_request v)) as [|r];
    [eexists; split; [reflexivity | split; reflexivity]|].
  destruct (status_code r =? 200); cbn [negb].
  - destruct (body r) as [d|];
      [|eexists; split; [reflexivity | split; reflexivity]].
    destruct (doc_data d) as [[|s data]|];
      eexists; (split; [reflexivity | split; reflexivity]).
  - eexists. split; [reflexivity | split; reflexivity].
Qed.

(** The loop over vaults whose requests raise nothing. *)
Lemma fetch_loop env (vaults : list vault) : ∀ w,
  (∀ k v, vaults !! k = Some v →
          fetch_failure (http env (calls w + k) (chart_request v)) = None) →
  ∃ w', for_each (process_vault env) vaults w = (Returns tt, w')
        ∧ calls w' = (calls w + length vaults)%nat
        ∧ ∀ path, (∀ v, v ∈ vaults → path ≠ csv_name v) →
                  files w' !! path = files w !! path.
Proof.
  induction vaults as [|v vaults IH]; intros w Hok.
  - exists w. split; [done|]. split; [cbn; lia | done].
  - pose proof (process_vault_cases env v w) as H.
    assert (Hv : fetch_failure (http env (calls w) (chart_request v)) = None).
    { specialize (Hok 0%nat v eq_refl). by rewrite Nat.add_0_r in Hok. }
    rewrite Hv in H. destruct H as (w1 & Hrun & Hcalls & Hfiles).
    destruct (IH w1) as (w' & Hrest & Hc & Hpaths).
    { intros k v' Hk. rewrite Hcalls.
      replace (S (calls w) + k)%nat with (calls w + S k)%nat by lia. by apply Hok. }
    exists w'.
    split; [cbn [for_each]; unfold bind; by rewrite Hrun|].
    split; [rewrite Hc, Hcalls; cbn; lia|].
    intros path Hother. rewrite Hpaths.
    + rewrite Hfiles. destruct (chart_data _); [|done].
      rewrite lookup_insert_ne; [done|]. intros Heq. symmetry in Heq.
      revert Heq. apply Hother, list_elem_of_here.
    + intros v' Hv'. by apply Hother, list_elem_of_further.
Qed.

Lemma for_each_app {A} (f : A → M unit) (xs ys : list A) (w w1 : world) :
  for_each f xs w = (Returns tt, w1) →
  for_each f (xs ++ ys) w = for_each f ys w1.
Proof.
  revert w. induction xs as [|x xs IH]; intros w.
  - cbn. by intros [= ->].
  - cbn [for_each app]. unfold bind.
    destruct (f x w) as [[[]|e|] w2]; [apply IH | done | done].
Qed.

(** X10. When the chart request of a vault is answered with status 200 and a
    JSON body whose 'data' is a non-empty list, processing the vault makes
    that one call, returns, and leaves the series in
    [data/validation/<project>_<chain>_<symbol>.csv]: one header line and a
    line per record.  When the records all have the same keys, each once,
    the header is those keys and each line the values of a record. *)
Theorem successful_vault_is_saved (env : environment) (v : vault) (w : world)
    (d : document) (s : record) (data : list record) :
  http env (calls w) (chart_request v) = Reply {| status_code := 200; body := Some d |} →
  doc_data d = Some (s :: data) →
  let df := DataFrame_of_records (s :: data) in
  ∃ w', process_vault env v w = (Returns tt, w')
        ∧ files w' = <[csv_name v := Header (columns df) :: map Row (rows df)]> (files w)
        ∧ calls w' = S (calls w)
        ∧ length (rows df) = S (length data)
        ∧ ∀ ks, NoDup ks → Forall (fun r => map fst r = ks) (s :: data) →
                columns df = ks ∧ rows df = map (map snd) (s :: data).
Proof.
  intros Hreply Hdata df. pose proof (process_vault_cases env v w) as H.
  unfold fetch_failure, chart_data in H. rewrite Hreply in H.
  cbn [status_code body] in H. rewrite Hdata in H. cbn in H.
  destruct H as (w' & Hrun & Hcalls & Hfiles).
  exists w'. split; [exact Hrun|]. split; [exact Hfiles|]. split; [exact Hcalls|].
  split.
  - destruct (frame_shape (s :: data)) as (_ & _ & Hlen & _). exact Hlen.
  - intros ks Hks Hall. by apply frame_of_uniform_records.
Qed.

Lemma successful_vault_is_saved_witness :
  ∃ w', process_vault first_refused_remote weth_vault (advance w0 1 [])
        = (Returns tt, w')
        ∧ files w' !! "data/validation/morpho-blue_Base_WETH.csv"
          = Some [Header ["timestamp"; "tvlUsd"; "apy"];
                  Row [VStr "2024-01-01T23:00:00.000Z"; VNum 100; VNum (5 # 2)]].
Proof.
  destruct (successful_vault_is_saved first_refused_remote weth_vault (advance w0 1 [])
              (with_data [[("timestamp", VStr "2024-01-01T23:00:00.000Z");
                           ("tvlUsd", VNum 100); ("apy", VNum (5 # 2))]])
              [("timestamp", VStr "2024-01-01T23:00:00.000Z");
               ("tvlUsd", VNum 100); ("apy", VNum (5 # 2))] [] eq_refl eq_refl)
    as (w' & Hrun & Hfiles & _).
  exists w'. split; [exact Hrun|]. rewrite Hfiles. apply lookup_insert_eq.
Defined.

(** X11. [main] of the fetcher has no handler around its requests.  When the
    requests of the first vaults raise nothing and the request of the next
    vault gets no reply, or status 200 with a body that is not JSON, [main]
    raises that exception: the files are as the earlier vaults left them and
    no request is made for the vaults after it. *)
Theorem fetch_exception_ends_the_run (env : environment) (before : list vault)
    (v : vault) (rest : list vault) (w : world) (e : exn) :
  morpho_vaults_json env = Loaded (before ++ v :: rest) →
  (∀ k v', before !! k = Some v' →
           fetch_failure (http env (calls w + k) (chart_request v')) = None) →
  fetch_failure (http env (calls w + length before) (chart_request v)) = Some e →
  ∃ w1 w', for_each (process_vault env) before w = (Returns tt, w1)
           ∧ defi_llama_validation.main env w = (Raises e, w')
           ∧ files w' = files w1
           ∧ calls w' = S (calls w + length before).
Proof.
  intros Hjson Hbefore Hfail.
  destruct (fetch_loop env before w Hbefore) as (w1 & Hrun & Hcalls & _).
  pose proof (process_vault_cases env v w1) as H. rewrite Hcalls, Hfail in H.
  destruct H as (w' & Hv & Hfiles & Hc). exists w1, w'.
  split; [exact Hrun|]. split; [|split; [exact Hfiles | exact Hc]].
  rewrite (fetcher_main_loaded env _ Hjson), (for_each_app _ _ _ _ _ Hrun).
  cbn [for_each]. unfold bind. by rewrite Hv.
Qed.

Lemma fetch_exception_ends_the_run_witness :
  ∃ w1 w', for_each (process_vault dropping_remote) [usdc_vault] w0 = (Returns tt, w1)
           ∧ defi_llama_validation.main dropping_remote w0 = (Raises TransportError, w')
           ∧ files w' = files w1
           ∧ calls w' = 2%nat.
Proof.
  apply (fetch_exception_ends_the_run dropping_remote [usdc_vault] weth_vault [] w0
           TransportError).
  - reflexivity.
  - intros k v' Hk. destruct k as [|k]; [reflexivity | discriminate Hk].
  - reflexivity.
Defined.

Lemma process_vault_bounds env v w :
  let run := process_vault env v w in
  run.1 ≠ Pending
  ∧ calls run.2 = S (calls w)
  ∧ ∀ path, path ≠ csv_name v → files run.2 !! path = files w !! path.
Proof.
  pose proof (process_vault_cases env v w) as H. cbn zeta.
  destruct (fetch_failure _) as [e|].
  - destruct H as (w' & -> & Hfiles & Hcalls). cbn [fst snd].
    split; [done|]. split; [done|]. intros path _. by rewrite Hfiles.
  - destruct H as (w' & -> & Hcalls & Hfiles). cbn [fst snd].
    split; [done|]. split; [done|]. intros path Hne. rewrite Hfiles.
    destruct (chart_data _); [|done]. by rewrite lookup_insert_ne.
Qed.

(** X12. However a run of the fetcher's [main] ends, it has made at most one
    request per vault of morpho_vaults.json, exactly one per vault when it
    returns, and the only paths it can have created or changed are the
    files [data/validation/<project>_<chain>_<symbol>.csv] of those vaults. *)
Theorem fetcher_run_is_contained (env : environment) (vaults : list vault)
    (w : world) :
  morpho_vaults_json env = Loaded vaults →
  let run := defi_llama_validation.main env w in
  run.1 ≠ Pending
  ∧ (calls w ≤ calls run.2 ≤ calls w + length vaults)%nat
  ∧ (run.1 = Returns tt → calls run.2 = (calls w + length vaults)%nat)
  ∧ ∀ path, (∀ v, v ∈ vaults → path ≠ csv_name v) →
            files run.2 !! path = files w !! path.
Proof.
  intros Hjson. rewrite (fetcher_main_loaded env _ Hjson). clear Hjson. revert w.
  induction vaults as [|v vaults IH]; intros w; cbn zeta.
  - cbn. split; [done|]. split; [lia|]. split; [intros _; lia | done].
  - cbn [for_each length]. unfold bind.
    destruct (process_vault_bounds env v w) as (Hend & Hcalls & Hfiles).
    destruct (process_vault env v w) as [[[]|e|] w1]; cbn [fst snd] in *.
    + destruct (IH w1) as (Hend' & Hc' & Hret' & Hf').
      split; [exact Hend'|]. split; [lia|]. split.
      * intros Hret. rewrite (Hret' Hret). lia.
      * intros path Hother. rewrite Hf', Hfiles; [done| |].
        -- apply Hother, list_elem_of_here.
        -- intros v' Hv'. by apply Hother, list_elem_of_further.
    + split; [done|]. split; [lia|]. split; [discriminate|].
      intros path Hother. apply Hfiles, Hother, list_elem_of_here.
    + done.
Qed.

Lemma fetcher_run_is_contained_witness :
  let run := defi_llama_validation.main first_refused_remote w0 in
  run.1 ≠ Pending
  ∧ (calls w0 ≤ calls run.2 ≤ calls w0 + 2)%nat
  ∧ (run.1 = Returns tt → calls run.2 = (calls w0 + 2)%nat)
  ∧ ∀ path, (∀ v, v ∈ [usdc_vault; weth_vault] → path ≠ csv_name v) →
            files run.2 !! path = files w0 !! path.
Proof.
  apply (fetcher_run_is_contained first_refused_remote [usdc_vault; weth_vault] w0).
  reflexivity.
Defined.

(** * Validator: choosing the columns *)

(** X13. The search for a column stops at the first label that passes the
    test: the index it gives is that of a label that passes, no label
    before it passes, and it gives none only when no label passes. *)
Theorem find_column_first_match (test : string → bool) (cols : list string) :
  match find_column test cols with
  | Some i =>
      (∃ col, cols !! i = Some col ∧ test col = true)
      ∧ ∀ j col, (j < i)%nat → cols !! j = Some col → test col = false
  | None => ∀ col, col ∈ cols → test col = false
  end.
Proof.
  induction cols as [|c cols IH]; cbn [find_column].
  - intros col H. by apply elem_of_nil in H.
  - destruct (test c) eqn:Hc.
    + split; [by exists c | intros j col Hj; lia].
    + destruct (find_column test cols) as [i|]; cbn.
      * destruct IH as [(col & Hcol & Ht) Hbefore]. split; [by exists col|].
        intros [|j] col' Hj Hl; cbn in Hl; [by injection Hl as <-|].
        apply (Hbefore j); [lia | done].
      * intros col Hin. apply elem_of_cons in Hin as [-> | Hin]; [done | by apply IH].
Qed.

Lemma find_column_Some test cols i :
  find_column test cols = Some i → ∃ col, cols !! i = Some col ∧ test col = true.
Proof.
  revert i. induction cols as [|c cols IH]; intros i; cbn [find_column]; [done|].
  destruct (test c) eqn:Hc; [intros [= <-]; by exists c|].
  destruct (find_column test cols) as [k|]; [|done]. cbn. intros [= <-].
  destruct (IH k eq_refl) as (col & Hcol & Ht). by exists col.
Qed.



Lemma date_column_not_tvl (col : string) :
  is_date_column col = true → is_tvl_column col = false.
Proof.
  unfold is_date_column, is_tvl_column. intros H.
  apply bool_decide_eq_true in H. apply bool_decide_eq_false.
  unfold date_candidates in H.
  repeat (apply elem_of_cons in H as [-> | H];
          [by vm_compute; intros H;
              repeat (apply elem_of_cons in H as [H | H]; [discriminate H|]);
              apply elem_of_nil in H|]).
  by apply elem_of_nil in H.
Qed.


(** * Validator: extraction *)

(** X15. [extract_tvl_data] never raises and never loops: whatever the path
    holds (no file, an empty or ragged file, no date or TVL column, dates or
    values that cannot be read), it returns, a series or nothing, having
    only printed; files, directories and call count are as before. *)
Theorem extract_tvl_data_never_raises (pd : pandas)
    (csv_path source_name : string) (w : world) :
  ∃ o w', extract_tvl_data pd csv_path source_name w = (Returns o, w')
          ∧ files w' = files w ∧ dirs w' = dirs w ∧ calls w' = calls w
          ∧ ∃ out, trace w' = trace w ++ out.
Proof.
  destruct (extract_tvl_data_cases pd csv_path source_name w)
    as (o & out & Hrun & _).
  exists o, (advance w 0 out). split; [exact Hrun|]. cbn.
  split; [done|]. split; [done|]. split; [lia | by exists out].
Qed.

(** X16. [extract_tvl_data] returns a series only for a file from which
    pandas reads a frame with a label that names a date column and another
    label that names a TVL column, whose date column pandas converts, and
    in which no row with a date has a text for TVL; the series then has
    strictly ascending dates. *)
Theorem extraction_needs_both_columns (pd : pandas)
    (csv_path source_name : string) (w w' : world) (s : series) :
  extract_tvl_data pd csv_path source_name w = (Returns (Some s), w') →
  (∃ content df i j date_col tvl_col stamps,
     files w !! csv_path = Some content
     ∧ pd_read_csv pd content = inr df
     ∧ columns df !! i = Some date_col ∧ is_date_column date_col = true
     ∧ columns df !! j = Some tvl_col ∧ is_tvl_column tvl_col = true
     ∧ i ≠ j
     ∧ pd_to_datetime pd (column_at i df) = Some stamps
     ∧ no_dated_text stamps (column_at j df))
  ∧ ascending (map fst s).
Proof.
  intros Hrun. destruct (extract_tvl_data_cases pd csv_path source_name w)
    as (o & out & Hcase & _ & _ & Hiff).
  rewrite Hcase in Hrun. injection Hrun as -> _.
  destruct (proj1 (Hiff s) eq_refl)
    as (content & Hfile & df & i & j & stamps & Hread & Hi & Hj & Hs & Htext & ->).
  destruct (find_column_Some _ _ _ Hi) as (dc & Hdc & Hdt).
  destruct (find_column_Some _ _ _ Hj) as (tc & Htc & Htt).
  split.
  - exists content, df, i, j, dc, tc, stamps.
    split; [done|]. split; [done|]. split; [done|]. split; [done|]. split; [done|].
    split; [done|]. split; [|by split].
    intros ->. rewrite Hdc in Htc. injection Htc as ->.
    rewrite (date_column_not_tvl tc Hdt) in Htt. discriminate Htt.
  - rewrite aggregate_dates. apply groupby_date_spec.
Qed.

Lemma extraction_needs_both_columns_witness :
  (∃ content df i j date_col tvl_col stamps,
     files paired_disk !! "data/dune/usdc.csv" = Some content
     ∧ pd_read_csv toy_pandas content = inr df
     ∧ columns df !! i = Some date_col ∧ is_date_column date_col = true
     ∧ columns df !! j = Some tvl_col ∧ is_tvl_column tvl_col = true
     ∧ i ≠ j
     ∧ pd_to_datetime toy_pandas (column_at i df) = Some stamps
     ∧ no_dated_text stamps (column_at j df))
  ∧ ascending (map fst usdc_dune).
Proof.
  apply (extraction_needs_both_columns toy_pandas "data/dune/usdc.csv" "dune"
           paired_disk
           (advance paired_disk 0
              [PrintValues "Reading data/dune/usdc.csv - Shape" [VNum 1; VNum 2]])
           usdc_dune).
  vm_compute. reflexivity.
Defined.

(** * Validator: one pair *)

Lemma process_pair_effect pd p w :
  ∃ o1 o2 out,
    (extract_tvl_data pd (defillama_path p) "defillama" w).1 = Returns o1
    ∧ (extract_tvl_data pd (dune_path p) "dune" w).1 = Returns o2
    ∧ process_pair pd p w
      = (Returns tt,
         {| files := files_after_pair o1 o2 p w; dirs := dirs w; calls := calls w;
            trace := trace w ++ out |})
    ∧ (match o1, o2 with
       | Some _, Some _ => True
       | _, _ => last out = Some (Print ("Skipping " +:+ filename p
                                         +:+ " due to data extraction issues"))
       end).
Proof.
  destruct (extract_tvl_data_cases pd (defillama_path p) "defillama" w)
    as (o1 & out1 & Hrun1 & _ & Hsame1 & _).
  destruct (extract_tvl_data_cases pd (dune_path p) "dune" w)
    as (o2 & out2 & Hrun2 & _ & Hsame2 & _).
  assert (H1 : (extract_tvl_data pd (defillama_path p) "defillama" w).1
               = Returns o1) by by rewrite Hrun1.
  assert (H2 : (extract_tvl_data pd (dune_path p) "dune" w).1 = Returns o2)
    by by rewrite Hrun2.
  assert (Hstart : ∀ k : option series → option series → M unit,
    (do defillama_df <- extract_tvl_data pd (defillama_path p) "defillama";
     do dune_df <- extract_tvl_data pd (dune_path p) "dune";
     k defillama_df dune_df)
      {| files := files w; dirs := dirs w; calls := calls w;
         trace := trace w ++ [Print ("--- Processing " +:+ filename p +:+ " ---")] |}
    = k o1 o2 (advance w 0 ([Print ("--- Processing " +:+ filename p +:+ " ---")]
                            ++ out1 ++ out2))).
  { intros k. unfold bind at 1. rewrite Hsame1 by done.
    unfold bind at 1. rewrite Hsame2 by done. f_equal.
    unfold advance. cbn [files dirs calls trace]. f_equal; [lia|].
    by rewrite <- !app_assoc. }
  pose (k := fun defillama_df dune_df : option series =>
      match defillama_df, dune_df with
      | Some defillama_df, Some dune_df =>
          do validation_df <- create_validation_file defillama_df dune_df (filename p);
          match validation_df with
          | Some validation_df =>
              let overlapping := dropna validation_df in
              if (1 <? length overlapping)%nat
              then print (PrintCorrelation (map fst overlapping) (map snd overlapping))
              else ret tt
          | None => ret tt
          end
      | _, _ => print (Print ("Skipping " +:+ filename p
                              +:+ " due to data extraction issues"))
      end).
  assert (Hpair : process_pair pd p w
                  = k o1 o2 (advance w 0 ([Print ("--- Processing " +:+ filename p +:+ " ---")]
                                          ++ out1 ++ out2)))
    by exact (Hstart k).
  exists o1, o2. rewrite Hpair. subst k. cbn beta.
  destruct o1 as [l|]; [destruct o2 as [r|]|].
  - unfold bind. rewrite create_validation_file_unfold.
    unfold files_after_pair, validation_path, advance. cbn [files dirs calls trace].
    destruct (1 <? length (dropna (sort_values (merge_outer l r))))%nat;
      eexists; (split; [exact H1|]); (split; [exact H2|]);
      unfold print, ret; cbn [files dirs calls trace]; (split; [|done]);
      rewrite <- ?app_assoc, ?Nat.add_0_r; reflexivity.
  - eexists. split; [exact H1|]. split; [exact H2|].
    unfold print, advance. cbn [files dirs calls trace files_after_pair].
    split.
    + rewrite <- ?app_assoc, ?Nat.add_0_r. reflexivity.
    + by rewrite !app_assoc, last_snoc.
  - eexists. split; [exact H1|]. split; [exact H2|].
    unfold print, advance. cbn [files dirs calls trace files_after_pair].
    split.
    + rewrite <- ?app_assoc, ?Nat.add_0_r. reflexivity.
    + by rewrite !app_assoc, last_snoc.
Qed.

(** X17. When the extraction of either file of a pair returns nothing, the
    pair is skipped: processing it returns, writes no file, and its last
    printed line is "Skipping <name> due to data extraction issues". *)
Theorem failed_extraction_skips_the_pair (pd : pandas)
    (p : pair) (w : world) :
  (extract_tvl_data pd (defillama_path p) "defillama" w).1 = Returns None
  ∨ (extract_tvl_data pd (dune_path p) "dune" w).1 = Returns None →
  ∃ w', process_pair pd p w = (Returns tt, w')
        ∧ files w' = files w
        ∧ last (trace w') = Some (Print ("Skipping " +:+ filename p
                                         +:+ " due to data extraction issues")).
Proof.
  intros Hnone.
  destruct (process_pair_effect pd p w) as (o1 & o2 & out & H1 & H2 & Hrun & Hlast).
  eexists. split; [exact Hrun|]. cbn [files trace].
  assert (Hcase : o1 = None ∨ o2 = None).
  { destruct Hnone as [H | H]; [left; rewrite H in H1 | right; rewrite H in H2]; congruence. }
  assert (Hout : last out = Some (Print ("Skipping " +:+ filename p
                                         +:+ " due to data extraction issues"))
                 ∧ files_after_pair o1 o2 p w = files w).
  { destruct Hcase as [-> | ->]; [done|]. by destruct o1. }
  destruct Hout as [Hout Hfiles]. split; [exact Hfiles|].
  destruct out as [|e out] using rev_ind; [discriminate Hout|].
  rewrite last_snoc in Hout. by rewrite app_assoc, last_snoc.
Qed.

Lemma failed_extraction_skips_the_pair_witness :
  ∃ w', process_pair toy_pandas (pair_of "usdc.csv") w0 = (Returns tt, w')
        ∧ files w' = files w0
        ∧ last (trace w')
          = Some (Print "Skipping usdc.csv due to data extraction issues").
Proof.
  apply (failed_extraction_skips_the_pair toy_pandas (pair_of "usdc.csv") w0).
  left. reflexivity.
Defined.

(** X18. When both extractions of a pair return a series, processing the pair
    returns and leaves in [data/validation/validation_<name>] the merged
    frame sorted by date: a header line with date, tvl_defillama and
    tvl_dune, then one line per merged row; no other path changes. *)
Theorem extracted_pair_is_validated (pd : pandas)
    (p : pair) (w : world) (defillama_df dune_df : series) :
  (extract_tvl_data pd (defillama_path p) "defillama" w).1
  = Returns (Some defillama_df) →
  (extract_tvl_data pd (dune_path p) "dune" w).1 = Returns (Some dune_df) →
  let merged := sort_values (merge_outer defillama_df dune_df) in
  ∃ w', process_pair pd p w = (Returns tt, w')
        ∧ files w' !! validation_path p
          = Some (Header ["date"; "tvl_defillama"; "tvl_dune"]
                  :: map (fun r => Row [VDate (row_date r); cell (tvl_defillama r);
                                        cell (tvl_dune r)]) merged)
        ∧ ∀ other, other ≠ validation_path p → files w' !! other = files w !! other.
Proof.
  intros Hl Hr merged.
  destruct (process_pair_effect pd p w) as (o1 & o2 & out & H1 & H2 & Hrun & _).
  rewrite Hl in H1. rewrite Hr in H2. injection H1 as <-. injection H2 as <-.
  eexists. split; [exact Hrun|]. cbn [files files_after_pair]. split.
  - rewrite lookup_insert_eq. unfold to_csv, frame_of_merged. cbn [columns rows].
    fold merged. by rewrite map_map.
  - intros other Hne. by rewrite lookup_insert_ne.
Qed.

Lemma extracted_pair_is_validated_witness :
  ∃ w', process_pair toy_pandas (pair_of "usdc.csv") paired_disk = (Returns tt, w')
        ∧ files w' !! "data/validation/validation_usdc.csv"
          = Some [Header ["date"; "tvl_defillama"; "tvl_dune"];
                  Row [VDate 19723; VNum 100; VNum 95];
                  Row [VDate 19724; VNum 110; VNull]].
Proof.
  destruct (extracted_pair_is_validated toy_pandas (pair_of "usdc.csv") paired_disk
              usdc_defillama usdc_dune)
    as (w' & Hrun & Hfile & _).
  - vm_compute. reflexivity.
  - vm_compute. reflexivity.
  - exists w'. split; [exact Hrun|]. etransitivity; [exact Hfile|].
    vm_compute. reflexivity.
Defined.

(** * Validator: the pairs *)

Lemma append_cons (c : Ascii.ascii) (a b : string) :
  String c a +:+ b = String c (a +:+ b).
Proof. reflexivity. Qed.

Lemma substring_full (s : string) : String.substring 0 (String.length s) s = s.
Proof. induction s as [|c s IH]; [done|]. cbn. by rewrite IH. Qed.

Lemma prefix_append (p s : string) : String.prefix p (p +:+ s) = true.
Proof.
  induction p as [|c p IH]; [apply prefix_empty|]. rewrite append_cons. simpl.
  destruct (Ascii.ascii_dec c c); [exact IH | done].
Qed.

Lemma strip_prefix_spec (p s name : string) :
  strip_prefix p s = Some name ↔ s = p +:+ name.
Proof.
  unfold strip_prefix. split.
  - revert s. induction p as [|c p IH]; intros s.
    + rewrite prefix_empty. cbn. rewrite Nat.sub_0_r, substring_full. by intros [= ->].
    + destruct s as [|c' s]; [done|]. simpl.
      destruct (Ascii.ascii_dec c c') as [-> | ?]; [|done].
      intros H. rewrite append_cons. f_equal. by apply IH.
  - intros ->. rewrite prefix_append. f_equal.
    induction p as [|c p IH].
    + change ("" +:+ name) with name. simpl. by rewrite Nat.sub_0_r, substring_full.
    + rewrite append_cons. simpl. exact IH.
Qed.

Lemma no_slash_relative (name : string) :
  String.index 0 "/" name = None → String.prefix "/" name = false.
Proof.
  destruct name as [|c name]; [done|]. cbn [String.index].
  by destruct (String.prefix "/" (String c name)).
Qed.

Lemma append_assoc (a b c : string) : (a +:+ b) +:+ c = a +:+ b +:+ c.
Proof. induction a as [|x a IH]; [done|]. rewrite !append_cons. by rewrite IH. Qed.

Lemma csv_child_spec (dir path name : string) :
  csv_child dir path = Some name
  ↔ path = dir +:+ "/" +:+ name ∧ String.index 0 "/" name = None
    ∧ ends_with ".csv" name = true.
Proof.
  unfold csv_child. split.
  - destruct (strip_prefix (dir +:+ "/") path) as [n|] eqn:Hs; [|done].
    apply strip_prefix_spec in Hs. destruct (String.index 0 "/" n) eqn:Hi; [done|].
    destruct (ends_with ".csv" n) eqn:He; [|done]. intros [= <-].
    split; [|done]. rewrite Hs. apply append_assoc.
  - intros (-> & Hi & He).
    assert (Hs : strip_prefix (dir +:+ "/") (dir +:+ "/" +:+ name) = Some name).
    { apply strip_prefix_spec. symmetry. apply append_assoc. }
    by rewrite Hs, Hi, He.
Qed.

(** The listing of a directory has the names of its CSV files. *)
Lemma glob_csv_spec (dir : string) (w : world) :
  ∃ names, glob_csv dir w = (Returns names, w)
           ∧ ∀ name, name ∈ names
                     ↔ is_file w (dir +:+ "/" +:+ name) = true
                       ∧ String.index 0 "/" name = None
                       ∧ ends_with ".csv" name = true.
Proof.
  eexists. split; [reflexivity|]. intros name. rewrite list_elem_of_omap. split.
  - intros (path & Hin & Hc). apply csv_child_spec in Hc as (-> & Hi & He).
    split; [|done]. apply elem_of_map in Hin as ([p c] & -> & Hin).
    apply elem_of_map_to_list in Hin. unfold is_file. apply bool_decide_eq_true. by eexists.
  - intros (Hf & Hi & He). exists (dir +:+ "/" +:+ name). split; [|by apply csv_child_spec].
    unfold is_file in Hf. apply bool_decide_eq_true in Hf as [c Hc].
    apply elem_of_map. exists (dir +:+ "/" +:+ name, c). split; [done|].
    by apply elem_of_map_to_list.
Qed.

Lemma match_files_spec (names : list string) : ∀ w,
  ∃ out, match_files names w
         = (Returns (map pair_of
                       (List.filter (fun name => path_there w (path_join dune_dir name))
                                    names)),
            advance w 0 out).
Proof.
  assert (Hw0 : ∀ w, w = advance w 0 []).
  { intros [? ? ? ?]. unfold advance. cbn. by rewrite Nat.add_0_r, app_nil_r. }
  induction names as [|name names IH]; intros w.
  - exists []. cbn. unfold ret. by rewrite <- Hw0.
  - cbn [match_files List.filter]. unfold bind at 1. unfold path_exists.
    fold (path_there w (path_join dune_dir name)).
    destruct (path_there w (path_join dune_dir name)) eqn:Hthere.
    + unfold bind at 1. unfold print at 1. unfold bind at 1.
      match goal with |- context [match_files names ?w1] =>
        destruct (IH w1) as [out Hout]; rewrite Hout
      end.
      eexists. unfold ret, advance. cbn [files dirs calls trace map].
      rewrite <- app_assoc. reflexivity.
    + apply IH.
Qed.

Lemma relative_join (dir name : string) :
  dir ≠ "" → ends_with "/" dir = false → String.index 0 "/" name = None →
  path_join dir name = dir +:+ "/" +:+ name.
Proof.
  intros Hd He Hi. unfold path_join. rewrite (no_slash_relative _ Hi), He.
  destruct dir; [done | reflexivity].
Qed.

Lemma path_there_makedirs (w : world) (dir path : string) :
  path ≠ dir → path_there (makedirs dir w).2 path = path_there w path.
Proof.
  intros Hne. unfold path_there, is_file, is_dir. cbn [makedirs snd files dirs].
  f_equal. f_equal.
  apply bool_decide_ext. rewrite elem_of_union, elem_of_singleton. tauto.
Qed.

Lemma find_matching_files_effects (w : world) :
  ∃ pairs w', find_matching_files w = (Returns pairs, w')
    ∧ files w' = files w ∧ calls w' = calls w
    ∧ (path_there w defillama_dir && path_there w dune_dir = false → pairs = [])
    ∧ (path_there w defillama_dir && path_there w dune_dir = true →
       ∃ names,
         pairs = map pair_of
                   (List.filter
                      (fun name => path_there w (path_join dune_dir name)) names)
         ∧ ∀ name, name ∈ names
                   ↔ is_file w ("data/defillama/" +:+ name) = true
                     ∧ String.index 0 "/" name = None
                     ∧ ends_with ".csv" name = true).
Proof.
  set (w1 := (makedirs validation_dir w).2).
  assert (Hd1' : path_there w1 defillama_dir = path_there w defillama_dir)
    by by apply path_there_makedirs.
  assert (Hd2' : path_there w1 dune_dir = path_there w dune_dir)
    by by apply path_there_makedirs.
  assert (Hfile' : ∀ name, path_there w1 (path_join dune_dir name)
                           = path_there w (path_join dune_dir name)).
  { intros name. unfold w1, path_there, is_file, is_dir. cbn [makedirs snd files dirs].
    f_equal. f_equal. apply bool_decide_ext. rewrite elem_of_union, elem_of_singleton.
    split; [|tauto]. intros [Heq | ?]; [|done]. exfalso. revert Heq.
    unfold path_join, dune_dir, validation_dir.
    destruct (String.prefix "/" name) eqn:Hp.
    - intros ->. discriminate Hp.
    - cbn [String.eqb orb ends_with]. vm_compute (ends_with "/" "data/dune").
      rewrite !append_cons. discriminate. }
  rewrite <- Hd1', <- Hd2'.
  unfold find_matching_files. unfold bind at 1.
  replace (makedirs validation_dir w) with (Returns tt, w1) by reflexivity.
  unfold bind at 1. unfold path_exists at 1. fold (path_there w1 defillama_dir).
  destruct (path_there w1 defillama_dir) eqn:Hd1; cbn [negb andb].
  - unfold bind at 1. unfold path_exists at 1. fold (path_there w1 dune_dir).
    destruct (path_there w1 dune_dir) eqn:Hd2; cbn [negb].
    + unfold bind at 1. destruct (glob_csv_spec defillama_dir w1)
        as (names & Hglob & Hnames). rewrite Hglob.
      unfold bind at 1. destruct (glob_csv_spec dune_dir w1)
        as (names2 & Hglob2 & _). rewrite Hglob2.
      destruct (match_files_spec names w1) as [out Hout]. rewrite Hout.
      do 2 eexists. split; [reflexivity|]. split; [reflexivity|].
      split; [cbn; lia|]. split; [done|]. intros _. exists names. split.
      * f_equal. clear -Hfile'. induction names as [|n names IH]; [done|].
        cbn [List.filter]. rewrite Hfile', IH. reflexivity.
      * exact Hnames.
    + do 2 eexists. unfold bind, print, ret. cbn.
      split; [reflexivity|]. split; [done|]. split; [done|]. split; [done|]. done.
  - do 2 eexists. unfold bind, print, ret. cbn.
    split; [reflexivity|]. split; [done|]. split; [done|]. split; [done|]. done.
Qed.

(** X19. [find_matching_files] returns, changes no file and makes no call.
    Without one of the two directories it finds no pair.  With both, its
    pairs are exactly those of the names of the CSV files directly under
    [data/defillama] for which [data/dune/<name>] exists, each with the two
    paths of that name. *)
Theorem find_matching_files_pairs_by_name (w : world) :
  ∃ pairs w', find_matching_files w = (Returns pairs, w')
    ∧ files w' = files w ∧ calls w' = calls w
    ∧ (path_there w defillama_dir && path_there w dune_dir = false → pairs = [])
    ∧ (path_there w defillama_dir && path_there w dune_dir = true →
       ∀ p, p ∈ pairs
            ↔ ∃ name, p = {| defillama_path := "data/defillama/" +:+ name;
                             dune_path := "data/dune/" +:+ name;
                             filename := name |}
                      ∧ String.index 0 "/" name = None
                      ∧ ends_with ".csv" name = true
                      ∧ is_file w ("data/defillama/" +:+ name) = true
                      ∧ path_there w ("data/dune/" +:+ name) = true).
Proof.
  destruct (find_matching_files_effects w)
    as (pairs & w' & Hrun & Hfiles & Hcalls & Hnone & Hsome).
  exists pairs, w'. split; [exact Hrun|]. split; [exact Hfiles|].
  split; [exact Hcalls|]. split; [exact Hnone|].
  intros Hboth p. destruct (Hsome Hboth) as (names & -> & Hnames).
  rewrite elem_of_map. split.
  - intros (name & -> & Hin). apply elem_of_filter_list in Hin as [Hin Hex].
    apply Hnames in Hin as (Hf & Hi & He). exists name.
    unfold pair_of. rewrite !relative_join in * by done.
    split; [done|]. split; [done|]. split; [done|]. split; [exact Hf | exact Hex].
  - intros (name & -> & Hi & He & Hf & Hex). exists name.
    unfold pair_of. rewrite !relative_join by done. split; [done|].
    apply elem_of_filter_list. rewrite relative_join by done. split; [|exact Hex].
    apply Hnames. done.
Qed.

Example matching_files_found :
  (find_matching_files paired_disk).1 = Returns [pair_of "usdc.csv"]
  ∧ (find_matching_files w0).1 = Returns [].
Proof. split; vm_compute; reflexivity. Qed.

(** * Validator: the run *)

Lemma for_each_pairs pd (pairs : list pair) : ∀ w,
  ∃ w', for_each (process_pair pd) pairs w = (Returns tt, w')
        ∧ dirs w' = dirs w ∧ calls w' = calls w
        ∧ ∀ path, (∀ p, p ∈ pairs → path ≠ validation_path p) →
                  files w' !! path = files w !! path.
Proof.
  induction pairs as [|p pairs IH]; intros w.
  - exists w. by repeat split.
  - destruct (process_pair_effect pd p w) as (o1 & o2 & out & _ & _ & Hrun & _).
    cbn [for_each]. unfold bind. rewrite Hrun.
    match goal with |- context [for_each _ pairs ?w1] =>
      destruct (IH w1) as (w' & Hrest & Hdirs & Hcalls & Hfiles)
    end.
    exists w'. split; [exact Hrest|]. split; [by rewrite Hdirs|].
    split; [by rewrite Hcalls|]. intros path Hother. rewrite Hfiles.
    + cbn [files]. unfold files_after_pair.
      destruct o1; [destruct o2|]; try done.
      rewrite lookup_insert_ne; [done|]. intros Heq. symmetry in Heq. revert Heq.
      apply Hother, list_elem_of_here.
    + intros p' Hp'. by apply Hother, list_elem_of_further.
Qed.

Lemma load_morpho_vaults_effects env w :
  files (load_morpho_vaults env w).2 = files w
  ∧ calls (load_morpho_vaults env w).2 = calls w
  ∧ (load_morpho_vaults env w).1 ≠ Pending.
Proof.
  unfold load_morpho_vaults, json_load.
  destruct (morpho_vaults_json env) as [|e| |j]; cbn; try done.
  destruct e; cbn; done.
Qed.

(** X20. However a run of the validator's [main] ends, whatever the disk and
    morpho_vaults.json hold, it has called no remote, and the only files it
    can have created or changed are those whose path starts with
    [data/validation/validation_]. *)
Theorem validator_run_is_contained (pd : pandas) (env : environment) (w : world) :
  let run := validation.main pd env w in
  run.1 ≠ Pending
  ∧ calls run.2 = calls w
  ∧ ∀ path, String.prefix "data/validation/validation_" path = false →
            files run.2 !! path = files w !! path.
Proof.
  cbn zeta. destruct (validation.main pd env w) as [o w'] eqn:Hrun. cbn [fst snd].
  revert Hrun. unfold validation.main.
  unfold bind at 1. unfold print at 1. unfold bind at 1.
  match goal with |- context [load_morpho_vaults env ?w1] =>
    destruct (load_morpho_vaults_effects env w1) as (Hlf & Hlc & Hlp);
    destruct (load_morpho_vaults env w1) as [[vaults|e|] w2]
  end; cbn [fst snd files calls] in *;
    [|intros [= <- <-]; by rewrite Hlf, Hlc|done].
  unfold bind at 1.
  assert (Hlen : (len vaults w2).2 = w2 ∧ (len vaults w2).1 ≠ Pending)
    by (by destruct vaults).
  destruct Hlen as [Hlw Hlp2].
  destruct (len vaults w2) as [[n|e|] w3]; cbn [fst snd] in *; subst w3;
    [|intros [= <- <-]; by rewrite Hlf, Hlc|done].
  unfold bind at 1. unfold print at 1. unfold process_matching_files. unfold bind at 1.
  match goal with |- context [find_matching_files ?w1] =>
    destruct (find_matching_files_effects w1) as (pairs & w4 & Hfind & Hf4 & Hc4 & _)
  end.
  rewrite Hfind. cbn [files calls] in Hf4, Hc4.
  destruct pairs as [|p pairs].
  - unfold print. intros [= <- <-]. cbn [files calls].
    split; [done|]. split; [by rewrite Hc4, Hlc|]. intros path _. by rewrite Hf4, Hlf.
  - unfold bind at 1. unfold print at 1.
    match goal with |- context [for_each _ _ ?w5] =>
      destruct (for_each_pairs pd (p :: pairs) w5) as (w6 & Hloop & _ & Hcalls & Hfiles)
    end.
    rewrite Hloop. intros [= <- <-]. cbn [files calls] in Hcalls, Hfiles.
    split; [done|]. split; [by rewrite Hcalls, Hc4, Hlc|].
    intros path Hpre. rewrite Hfiles; [by rewrite Hf4, Hlf|].
    intros q _ ->. unfold validation_path in Hpre.
    by rewrite prefix_append in Hpre.
Qed.

(** A run that ends in an exception, inside the bounds above: the file
    holds JSON null. *)
Example contained_run_that_raises :
  let run := validation.main toy_pandas (no_remote (Parsed JNull)) paired_disk in
  run.1 = Raises TypeError ∧ calls run.2 = 0%nat ∧ files run.2 = files paired_disk.
Proof. repeat split; vm_compute; reflexivity. Qed.

(** * Validator: aggregation and merge *)

Lemma mean_single (v : option Q) : mean [v] = v.
Proof.
  destruct v as [[n d]|]; [|done]. unfold mean. cbn [omap list_omap id Qsum fold_right length].
  f_equal. unfold Qdiv, Qmult, Qplus, Qinv, inject_Z. cbn.
  rewrite Z.mul_1_r, Z.mul_1_r, Z.add_0_r. rewrite !Pos.mul_1_r. reflexivity.
Qed.

Lemma add_sample_last d v groups :
  Forall (fun g => fst g < d) groups → add_sample d v groups = groups ++ [(d, [v])].
Proof.
  induction groups as [|[d' vs] groups IH]; intros Hall; [done|].
  apply Forall_cons in Hall as [Hlt Hall]. cbn in Hlt. cbn [add_sample].
  destruct (Z.ltb_spec d d'); [lia|]. destruct (Z.eqb_spec d d'); [lia|].
  by rewrite IH.
Qed.

Lemma groupby_date_ascending (s : series) : ∀ groups,
  ascending (map fst groups ++ map fst s) →
  fold_left (fun groups x =>
               match fst x with
               | None => groups
               | Some d => add_sample d (snd x) groups
               end) (dated s) groups
  = groups ++ map (fun x => (fst x, [snd x])) s.
Proof.
  induction s as [|[d v] s IH]; intros groups Hasc; [by rewrite app_nil_r|].
  cbn [dated map fold_left fst snd]. fold (dated s).
  rewrite add_sample_last.
  - rewrite IH; [by rewrite <- app_assoc|].
    rewrite map_app. cbn [map fst]. by rewrite <- app_assoc.
  - unfold ascending in Hasc. cbn [map fst] in Hasc.
    apply Forall_forall. intros g Hg.
    assert (Hin : fst g ∈ map fst groups) by (apply elem_of_map; by exists g).
    clear IH. induction (map fst groups) as [|k ks IHk]; [by apply elem_of_nil in Hin|].
    cbn [app] in Hasc. apply StronglySorted_inv in Hasc as [Hrest Hk].
    apply elem_of_cons in Hin as [-> | Hin]; [|by apply IHk].
    rewrite Forall_forall in Hk. apply Hk. apply elem_of_app. right. apply list_elem_of_here.
Qed.

(** X21. The aggregation changes nothing in a series that already has one
    row per date in ascending order: every group then holds one value, which
    is its own mean. *)
Theorem aggregate_keeps_ascending_series (s : series) :
  ascending (map fst s) → aggregate (dated s) = s.
Proof.
  intros Hasc. unfold aggregate, groupby_date.
  rewrite (groupby_date_ascending s []) by done. cbn [app]. rewrite map_map.
  transitivity (map id s); [|apply map_id].
  apply map_ext. intros [d v]. cbn [fst snd]. by rewrite mean_single.
Qed.

Lemma aggregate_keeps_ascending_series_witness :
  aggregate (dated [(19723, Some 100%Q); (19724, None)])
  = [(19723, Some 100%Q); (19724, None)].
Proof.
  apply (aggregate_keeps_ascending_series [(19723, Some 100%Q); (19724, None)]).
  repeat constructor.
Defined.

Lemma ascending_unique (a b : list Z) :
  ascending a → ascending b → (∀ d, d ∈ a ↔ d ∈ b) → a = b.
Proof.
  intros Ha Hb Hsame. apply (StronglySorted_unique_strong Z.lt); [|done|done|].
  - intros x y _ _ Hxy Hyx. lia.
  - apply NoDup_Permutation; [by apply ascending_NoDup | by apply ascending_NoDup | done].
Qed.

Lemma rows_by_date (f : Z → merged_row) (rows : list merged_row) :
  Forall (fun row => row = f (row_date row)) rows → rows = map f (map row_date rows).
Proof.
  induction 1 as [|row rows Hrow _ IH]; [done|]. cbn [map].
  f_equal; [exact Hrow | exact IH].
Qed.

Lemma sorted_merge_facts (left right : series) :
  NoDup (map fst left) → NoDup (map fst right) →
  let merged := sort_values (merge_outer left right) in
  ascending (map row_date merged)
  ∧ (∀ d, d ∈ map row_date merged ↔ d ∈ map fst left ∨ d ∈ map fst right)
  ∧ merged = map (row_for left right) (map row_date merged)
  ∧ merged ≡ₚ left_rows left right ++ right_only left right.
Proof.
  intros Hl Hr merged.
  destruct (merge_outer_rows left right Hl Hr) as (Hnd & Hdates & Hrows & _).
  assert (Hp : merged ≡ₚ merge_outer left right) by apply merge_sort_Permutation.
  split; [by apply sort_values_ascending|]. split; [|split].
  - intros d. rewrite <- Hdates. split; intros Hin.
    + eapply elem_of_Permutation_proper; [symmetry; apply Permutation_map, Hp | exact Hin].
    + eapply elem_of_Permutation_proper; [apply Permutation_map, Hp | exact Hin].
  - assert (Hall : Forall (fun row => row = row_for left right (row_date row)) merged).
    { apply Forall_forall. intros row Hin.
      assert (Hin' : row ∈ merge_outer left right)
        by (eapply elem_of_Permutation_proper; [symmetry; exact Hp | exact Hin]).
      destruct (Hrows row Hin') as [H1 H2]. unfold row_for. rewrite <- H1, <- H2.
      by destruct row as [[d a] b]. }
    by apply rows_by_date.
  - by rewrite Hp, merge_outer_unique.
Qed.

Lemma sorted_merge_swap (left right : series) :
  NoDup (map fst left) → NoDup (map fst right) →
  sort_values (merge_outer right left)
  = map swap_sources (sort_values (merge_outer left right)).
Proof.
  intros Hnl Hnr.
  destruct (sorted_merge_facts left right Hnl Hnr) as (Ha1 & Hd1 & Hm1 & _).
  destruct (sorted_merge_facts right left Hnr Hnl) as (Ha2 & Hd2 & Hm2 & _).
  rewrite Hm2.
  assert (Hdates : map row_date (sort_values (merge_outer right left))
                   = map row_date (sort_values (merge_outer left right))).
  { apply ascending_unique; [done | done |]. intros d. rewrite Hd1, Hd2. tauto. }
  rewrite Hdates.
  rewrite (f_equal (map swap_sources) Hm1). rewrite !map_map. apply map_ext.
  intros row. reflexivity.
Qed.

(** X22. For two extracted series the sorted merge does not depend on which
    source comes first: merging them the other way round gives the same
    rows, in the same order, with the two value columns exchanged.  Each
    row is settled by its date: it holds the values the two series have for
    that date. *)
Theorem merge_is_symmetric (defillama_df dune_df : series) :
  extracted defillama_df → extracted dune_df →
  let merged := sort_values (merge_outer defillama_df dune_df) in
  sort_values (merge_outer dune_df defillama_df) = map swap_sources merged
  ∧ merged = map (row_for defillama_df dune_df) (map row_date merged).
Proof.
  intros Hl Hr merged. subst merged.
  pose proof (extracted_NoDup _ Hl) as Hnl. pose proof (extracted_NoDup _ Hr) as Hnr.
  split; [by apply sorted_merge_swap|].
  by destruct (sorted_merge_facts defillama_df dune_df Hnl Hnr) as (_ & _ & Hm & _).
Qed.

Lemma merge_is_symmetric_witness :
  let merged := sort_values (merge_outer usdc_defillama usdc_dune) in
  sort_values (merge_outer usdc_dune usdc_defillama) = map swap_sources merged
  ∧ merged = map (row_for usdc_defillama usdc_dune) (map row_date merged).
Proof.
  apply (merge_is_symmetric usdc_defillama usdc_dune); eexists; reflexivity.
Defined.

Lemma filter_length_perm {A} (f : A → bool) (l l' : list A) :
  l ≡ₚ l' → length (List.filter f l) = length (List.filter f l').
Proof.
  induction 1 as [|x l l' _ IH|x y l|l l' l'' _ IH1 _ IH2]; cbn [List.filter].
  - done.
  - destruct (f x); cbn; by rewrite IH.
  - by destruct (f x), (f y).
  - by rewrite IH1.
Qed.

Lemma common_length (left right : series) :
  NoDup (map fst left) → NoDup (map fst right) →
  length (common left right) = length (common right left).
Proof.
  intros Hl Hr. rewrite <- (length_map fst (common left right)).
  rewrite <- (length_map fst (common right left)).
  apply Permutation_length, NoDup_Permutation.
  - by apply NoDup_map_filter.
  - by apply NoDup_map_filter.
  - intros d. unfold common. rewrite !elem_of_map. split.
    + intros (x & -> & Hx). apply elem_of_filter_list in Hx as [Hx He].
      apply existsb_date, elem_of_map in He as (y & Hy & Hin).
      exists y. split; [done|]. apply elem_of_filter_list. split; [done|].
      apply existsb_date, elem_of_map. exists x. by rewrite <- Hy.
    + intros (x & -> & Hx). apply elem_of_filter_list in Hx as [Hx He].
      apply existsb_date, elem_of_map in He as (y & Hy & Hin).
      exists y. split; [done|]. apply elem_of_filter_list. split; [done|].
      apply existsb_date, elem_of_map. exists x. by rewrite <- Hy.
Qed.

Lemma notna_count_left (left right : series) :
  NoDup (map fst left) → NoDup (map fst right) →
  notna_count (map tvl_defillama (sort_values (merge_outer left right)))
  = notna_count (map snd left).
Proof.
  intros Hl Hr. destruct (sorted_merge_facts left right Hl Hr) as (_ & _ & _ & Hp).
  unfold notna_count.
  rewrite (filter_length_perm _ _ _ (Permutation_map tvl_defillama Hp)).
  rewrite map_app, List.filter_app, length_app. unfold left_rows, right_only.
  rewrite !map_map. cbn [tvl_defillama fst snd].
  replace (length (List.filter _ (map (fun _ => None) _))) with 0%nat;
    [by rewrite Nat.add_0_r|].
  generalize (List.filter (fun x => negb (existsb (fun y => fst y =? fst x) left)) right).
  intros l. by induction l.
Qed.

Lemma both_count_le (merged : list merged_row) :
  (both_count merged ≤ notna_count (map tvl_defillama merged))%nat
  ∧ (both_count merged ≤ notna_count (map tvl_dune merged))%nat.
Proof.
  unfold both_count, notna_count.
  induction merged as [|[[d a] b] merged [IH1 IH2]]; [done|].
  cbn [map List.filter tvl_defillama tvl_dune fst snd].
  destruct a, b; cbn; lia.
Qed.

Lemma both_count_right_only (left right : series) :
  both_count (right_only left right) = 0%nat.
Proof.
  unfold both_count, right_only.
  generalize (List.filter (fun x : Z * option Q =>
                negb (existsb (fun y => fst y =? fst x) left)) right).
  intros l. by induction l.
Qed.

Lemma both_count_left_rows (left right : series) :
  (both_count (left_rows left right) ≤ length (common left right))%nat.
Proof.
  unfold both_count, left_rows, common.
  induction left as [|[d a] l IH]; [done|].
  cbn [map List.filter fst snd tvl_defillama tvl_dune].
  destruct (existsb (fun y => fst y =? d) right) eqn:He.
  - destruct (bool_decide (is_Some a) && bool_decide (is_Some (value_at right d)));
      cbn [length]; lia.
  - rewrite value_at_absent.
    + cbn [tvl_defillama tvl_dune fst snd]. rewrite andb_false_r. exact IH.
    + intros Hin. apply existsb_date in Hin. congruence.
Qed.

(** X23. The counts [create_validation_file] prints, for two extracted
    series: the merged frame has as many rows as the two series together,
    less the dates they share; the rows with a DeFi Llama value are as many
    as the values of the DeFi Llama series, and likewise for Dune; the rows
    with both values are no more than either of those, and no more than the
    shared dates. *)
Theorem report_counts (defillama_df dune_df : series) :
  extracted defillama_df → extracted dune_df →
  let merged := sort_values (merge_outer defillama_df dune_df) in
  (length merged + length (common defillama_df dune_df)
   = length defillama_df + length dune_df)%nat
  ∧ notna_count (map tvl_defillama merged) = notna_count (map snd defillama_df)
  ∧ notna_count (map tvl_dune merged) = notna_count (map snd dune_df)
  ∧ (both_count merged ≤ notna_count (map snd defillama_df))%nat
  ∧ (both_count merged ≤ notna_count (map snd dune_df))%nat
  ∧ (both_count merged ≤ length (common defillama_df dune_df))%nat.
Proof.
  intros Hl Hr merged. subst merged.
  pose proof (extracted_NoDup _ Hl) as Hnl. pose proof (extracted_NoDup _ Hr) as Hnr.
  destruct (sorted_merge_facts defillama_df dune_df Hnl Hnr) as (_ & _ & Hm & Hp).
  assert (Hleft := notna_count_left defillama_df dune_df Hnl Hnr).
  assert (Hright : notna_count (map tvl_dune (sort_values (merge_outer defillama_df dune_df)))
                   = notna_count (map snd dune_df)).
  { rewrite <- (notna_count_left dune_df defillama_df Hnr Hnl).
    rewrite (sorted_merge_swap defillama_df dune_df Hnl Hnr), map_map. reflexivity. }
  destruct (both_count_le (sort_values (merge_outer defillama_df dune_df))) as [Hb1 Hb2].
  split; [|split; [done|split; [done|split; [lia|split; [lia|]]]]].
  - rewrite (Permutation_length Hp), length_app. unfold left_rows, right_only.
    rewrite !length_map. rewrite (common_length _ _ Hnl Hnr).
    pose proof (filter_length (fun x => existsb (fun y => fst y =? fst x) defillama_df)
                  dune_df) as Hpart.
    unfold common. lia.
  - pose proof (both_count_left_rows defillama_df dune_df) as Hc.
    pose proof (both_count_right_only defillama_df dune_df) as Hz.
    unfold both_count in *.
    rewrite (filter_length_perm _ _ _ Hp), List.filter_app, length_app. lia.
Qed.

Lemma report_counts_witness :
  let merged := sort_values (merge_outer usdc_defillama usdc_dune) in
  (length merged + length (common usdc_defillama usdc_dune)
   = length usdc_defillama + length usdc_dune)%nat
  ∧ notna_count (map tvl_defillama merged) = notna_count (map snd usdc_defillama)
  ∧ notna_count (map tvl_dune merged) = notna_count (map snd usdc_dune)
  ∧ (both_count merged ≤ notna_count (map snd usdc_defillama))%nat
  ∧ (both_count merged ≤ notna_count (map snd usdc_dune))%nat
  ∧ (both_count merged ≤ length (common usdc_defillama usdc_dune))%nat.
Proof.
  apply (report_counts usdc_defillama usdc_dune); eexists; reflexivity.
Defined.

Lemma fold_min_spec (ds : list Z) (d : Z) :
  fold_left Z.min ds d ∈ d :: ds ∧ ∀ x, x ∈ d :: ds → fold_left Z.min ds d ≤ x.
Proof.
  revert d. induction ds as [|e ds IH]; intros d; cbn [fold_left].
  - split; [apply list_elem_of_here|]. intros x Hx.
    apply list_elem_of_singleton in Hx. lia.
  - destruct (IH (Z.min d e)) as [Hin Hle]. split.
    + apply elem_of_cons in Hin as [Heq | Hin].
      * rewrite Heq. destruct (Z.min_spec d e) as [[_ ->] | [_ ->]].
        -- apply list_elem_of_here.
        -- apply list_elem_of_further, list_elem_of_here.
      * by do 2 apply list_elem_of_further.
    + intros x Hx. rewrite !elem_of_cons in Hx.
      destruct Hx as [-> | [-> | Hx]].
      * specialize (Hle (Z.min d e) (list_elem_of_here _ _)). lia.
      * specialize (Hle (Z.min d e) (list_elem_of_here _ _)). lia.
      * apply Hle. by apply list_elem_of_further.
Qed.

Lemma fold_max_spec (ds : list Z) (d : Z) :
  fold_left Z.max ds d ∈ d :: ds ∧ ∀ x, x ∈ d :: ds → x ≤ fold_left Z.max ds d.
Proof.
  revert d. induction ds as [|e ds IH]; intros d; cbn [fold_left].
  - split; [apply list_elem_of_here|]. intros x Hx.
    apply list_elem_of_singleton in Hx. lia.
  - destruct (IH (Z.max d e)) as [Hin Hle]. split.
    + apply elem_of_cons in Hin as [Heq | Hin].
      * rewrite Heq. destruct (Z.max_spec d e) as [[_ ->] | [_ ->]].
        -- apply list_elem_of_further, list_elem_of_here.
        -- apply list_elem_of_here.
      * by do 2 apply list_elem_of_further.
    + intros x Hx. rewrite !elem_of_cons in Hx.
      destruct Hx as [-> | [-> | Hx]].
      * specialize (Hle (Z.max d e) (list_elem_of_here _ _)). lia.
      * specialize (Hle (Z.max d e) (list_elem_of_here _ _)). lia.
      * apply Hle. by apply list_elem_of_further.
Qed.

(** X24. The date range [create_validation_file] prints, for two extracted
    series: the two ends are dates of the series, and every date of either
    series lies between them; the range is blank only when both series are
    empty. *)
Theorem report_date_range (defillama_df dune_df : series) :
  extracted defillama_df → extracted dune_df →
  let merged := sort_values (merge_outer defillama_df dune_df) in
  let dates := map fst defillama_df ++ map fst dune_df in
  match date_min merged, date_max merged with
  | VDate lo, VDate hi =>
      lo ∈ dates ∧ hi ∈ dates ∧ ∀ d, d ∈ dates → lo ≤ d ≤ hi
  | VNull, VNull => defillama_df = [] ∧ dune_df = []
  | _, _ => False
  end.
Proof.
  intros Hl Hr merged dates. subst merged dates.
  pose proof (extracted_NoDup _ Hl) as Hnl. pose proof (extracted_NoDup _ Hr) as Hnr.
  destruct (sorted_merge_facts defillama_df dune_df Hnl Hnr) as (_ & Hd & _ & _).
  unfold date_min, date_max.
  destruct (map row_date (sort_values (merge_outer defillama_df dune_df)))
    as [|d ds] eqn:Hdates.
  - split.
    + destruct defillama_df as [|x l]; [done|].
      exfalso. apply (not_elem_of_nil (fst x)), Hd. left. apply list_elem_of_here.
    + destruct dune_df as [|x l]; [done|].
      exfalso. apply (not_elem_of_nil (fst x)), Hd. right. apply list_elem_of_here.
  - destruct (fold_min_spec ds d) as [Hmin Hlo].
    destruct (fold_max_spec ds d) as [Hmax Hhi].
    split; [|split].
    + apply elem_of_app, Hd, Hmin.
    + apply elem_of_app, Hd, Hmax.
    + intros x Hx. apply elem_of_app, Hd in Hx. split; [by apply Hlo | by apply Hhi].
Qed.

Lemma report_date_range_witness :
  date_min (sort_values (merge_outer usdc_defillama usdc_dune)) = VDate 19723
  ∧ date_max (sort_values (merge_outer usdc_defillama usdc_dune)) = VDate 19724
  ∧ ∀ d, d ∈ map fst usdc_defillama ++ map fst usdc_dune → 19723 ≤ d ≤ 19724.
Proof.
  pose proof (report_date_range usdc_defillama usdc_dune
                (ex_intro _ _ eq_refl) (ex_intro _ _ eq_refl)) as H.
  cbv zeta in H.
  change (date_min (sort_values (merge_outer usdc_defillama usdc_dune)))
    with (VDate 19723) in H.
  change (date_max (sort_values (merge_outer usdc_defillama usdc_dune)))
    with (VDate 19724) in H.
  cbv iota beta in H. destruct H as (_ & _ & H).
  split; [vm_compute; reflexivity|]. split; [vm_compute; reflexivity|]. exact H.
Defined.
